(* ===== verification/_CoqProject ===== *)
-Q . S2P
Prelude.v
Numeric.v
Binary64.v
Frame.v
Ledger.v
Format.v
Calendar.v
Goals.v
Badges.v
Kpi.v
Charts.v
Sample.v
Table.v
Stats.v
Progress.v
Session.v
Tracker.v
Texts.v
Render.v
Shown.v
