(* ===== verification/Prelude.v ===== *)
(** * Verification of the personal-finance dashboard ([src/dash.py])

    [src/dash.py] is a Streamlit script: every user interaction re-executes the
    whole file top to bottom against a session store that survives between
    runs.  One run (a) stores a generated sample when asked to, (b) loads and
    cleans a ledger of transactions, (c) narrows it with the sidebar filters,
    (d) computes the three headline figures and shows them as cards,
    (e) reads one budget goal per expense category into the session store,
    (f) awards a badge per category and draws its progress bar,
    (g) aggregates the ledger for four charts, (h) shows a filterable table
    and (i) four summary statistics; without a ledger it shows the upload
    instructions instead, and it closes the page with a footer.  This
    library is a shallow embedding of that script, one file per part, each
    definition written from the lines of [src/dash.py] it names, and of
    the run as a whole, first as a function from session and inputs to
    session and view, then statement by statement as the sequence of
    Streamlit calls that make the page.

    ** Files, in dependency order

    - [Prelude] (this file): the libraries shared by every file, the
      [result] type with which a run reports a Python exception, the pandas
      [unique] operation (first-occurrence de-duplication), lemmas on masks
      and permutations, the tactics and the hint database [dash].
    - [Numeric]: the arithmetic interface.  The script computes in IEEE-754
      binary64; its comments and the specification speak of exact decimals.
      The class [Num] lists exactly the operations the script applies to
      amounts (sum, difference, product, quotient, absolute value, unary
      minus, the two comparisons, decimal literals).  It has two instances: [Q_num], exact
      rationals, the reference semantics in which the general theorems are
      stated; and [F_num], the kernel's binary64 floats, in which the same
      definitions run bit for bit as CPython evaluates scalar expressions.
      [series_sum] is pandas' [Series.sum] as a left fold.
    - [Binary64]: facts of IEEE-754 arithmetic derived from the kernel's
      specification of its floats: rounding never yields a NaN, a product by
      a finite constant is a NaN only when the other factor is, a
      comparison with a NaN is false and the order is total on the other
      values.
    - [Frame]: the pandas operations that reorder or aggregate a frame:
      [groupby_sum], [cumsum] and the interface [Sorter] of [sort_values],
      with merge sort as the instance that runs the examples; the order of
      strings.
    - [Ledger]: rows of the data frame ([RawRow], [Row]), [process_data]
      (lines 106-111), the loading block with its try/except (lines 113-124)
      and the two sidebar filters (lines 127-156).
    - [Format]: the strings the script shows: [strftime_dmy] (line 461),
      [strftime_ymd] (line 95), the label of a month (line 397), the amount
      format [,.2f] ([format_money], lines 168-184, 314-317, 460, 483, 487)
      and the one-decimal format of the bar texts ([format_1f]), with
      [Printable] giving the formatter the sign and magnitude of a rational
      or of a binary64 number; [digits_from] reads decimal digits back.
    - [Calendar]: the day count behind [.days] (line 490), and what
      [pd.to_datetime] (line 107) makes of one date text in the two forms
      the instructions of the page name: [to_datetime_ymd] for
      [YYYY-MM-DD], the form of the sample, and [to_datetime_slash] for
      [NN/NN/YYYY], read month first as the library does when [dayfirst] is
      not given.
    - [Goals]: the expense categories (lines 194-198) and the loop that reads
      a goal per category through [number_input] into the session dictionary
      [metas] (lines 207-221), without and with the widget's refusal of a
      value below its minimum.
    - [Badges]: the badge loop (lines 224-261), with the Python variables
      [badge_type]/[badge_color] carried from one iteration to the next, and
      the display of the result (lines 263-268).
    - [Kpi]: [total_creditos], [total_debitos], [saldo], [delta_color] and
      the three cards (lines 161-186), with the rule by which [st.metric]
      colours a delta.
    - [Charts]: the series of the pie and the ranking (line 326), the
      timeline (lines 356-357) and the monthly bars (lines 388-410).
    - [Sample]: the generator of the example ledger (lines 72-101); the
      values [np.random] draws are a parameter, and each date is stored as
      the text [strftime_ymd] writes, read back by [to_datetime_ymd].
    - [Table]: the table filters, its formatting and its sort (lines
      425-470); the regular-expression matcher is a parameter.
    - [Stats]: the four statistics (lines 475-491).
    - [Progress]: the progress loop (lines 270-317): [percentual_real],
      [percentual_barra], the record appended to [progress_data], the band
      that selects the bar's decoration, the text on the bar and the two
      amounts beside it.
    - [Session]: one execution of the script, [run], from a session and the
      values the widgets return to the session it leaves and the page it
      shows or the exception that ends it; [reachable], the sessions of a
      browser tab.
    - [Tracker]: the budget tracker of the specification ([classify],
      [summarize], the tier table) written from the specification's words,
      and the refinement theorems that relate the script to it.
    - [Texts]: the literal texts of the page (the CSS block of lines 22-53,
      the title, the markup of the red bar, the instructions of lines
      495-529 and the footer of lines 533-539), copied character for
      character.
    - [Render]: the script statement by statement.  [Script X] is a piece of
      script: a function from the session it finds to the session it leaves,
      the elements it rendered and its value or the exception that ended it.
      Every [st.*] call of the file is an [emit] of an [Element] into a
      [Slot] (main area, sidebar, a column of a row, an expander); the
      sections ([chrome], lines 3-57; [sidebar_upload], 60-103; [load],
      113-124; [sidebar_filters_script], 127-156; [kpi_script], 159-189;
      [goals_script], 192-317; [charts_script], 320-420; [table_script],
      423-470; [stats_script], 473-491; [welcome], 493-529; [footer],
      531-539) are composed into [script] in the order of the file.  The
      file also holds the logic used on scripts: [outcome] (the run without
      its page), [renders] (a piece that only renders), [emits] (a property
      of whatever is rendered) with the tactics [emits_tac] and
      [renders_tac].
    - [Shown]: [render], the page a view gives, and the theorem that
      relates the page of [Render.script] to the view of [Session.run].

    ** How state and effects are modelled

    A data frame is a [list] of rows in file order; a boolean mask is a
    decidable predicate given to [filter]; [Series.unique] is [unique];
    [Series.sum] is [series_sum].  The session dictionary
    [st.session_state['metas']] is a [gmap string A]; [.get(k, 1000.0)] is
    [meta_get].  A widget is a parameter of the run: [number_input] is a
    function from the widget key, the minimum and the value offered to the
    value the widget returns, and the theorems that need the widget's
    contract ([min_value=0.0]) take it as a hypothesis; the same holds for
    the random draws of the sample and for the regular-expression engine.
    A Python exception is a value [Err e] of [result]; loops that carry a
    variable across iterations carry it explicitly; a step that writes the
    session and may raise returns the session together with its result.
    In [Render] the same effects are threaded by a monad: sequencing
    appends what is rendered and stops at the first exception, keeping the
    session and the page reached so far, which is what the browser shows of
    a run that raises.
    [sort_values] is not a stable sort, so a sorted frame is any permutation
    sorted by the key ([Sorter]); theorems about sorted frames are proved for
    every instance.

    ** What the theorems show

    - [Numeric]: laws of [series_sum] over the rationals (append,
      permutation, sign, grouping), and the facts that tie [F_num]'s literals
      to the binary64 constants of the script.
    - [Frame]: group sums add up to the sum of the column; the last running
      sum is the sum; a sorted frame splits at every bound; the sort has one
      result when keys are distinct.
    - [Ledger]: [process_data] keeps exactly the rows with a numeric amount;
      a failed load leaves the unprocessed frame bound; the date filter keeps
      exactly the rows inside the inclusive window, is idempotent and commutes
      with the category filter; the default selection keeps every row.
    - [Format]: formatted dates compare as strings by day, month, year;
      rounding is within half a hundredth and even on ties; the thousands
      grouping is the well-founded recursion on the number, so formatting
      terminates whatever the amount; digits written are read back.
    - [Calendar]: the day count grows by one from a day to the next and is
      monotone in the date; writing a date as [YYYY-MM-DD] and reading it
      are inverse of each other on the dates of the calendar; a date
      written [DD/MM/YYYY] is read with day and month exchanged whenever
      the day is at most 12.
    - [Goals]: the goal loop leaves a goal for every expense category, never
      touches other categories, preserves non-negativity of all goals, and is
      never refused by the widget on non-negative goals.
    - [Badges]: over the rationals a branch of the chain always fires, so the
      loop never raises [NameError] nor reuses a stale badge; the six badges
      are characterised by closed bands of [gasto/meta]; in binary64 the
      bands move (a category at exactly 70 percent of its goal is awarded
      silver), a branch fires whenever the amount and the goal are numbers,
      and the loop raises [NameError] exactly when the amount or the goal of
      the first expense category is a NaN.
    - [Kpi]: a row outside the window or of another type does not move the
      figures; under the sign convention the expense figure is the sum of
      absolute amounts, and without it the two differ; the delta of the
      balance card is red for every balance; over exact numbers the cards
      are the same for every order of the rows ([Proper] instances for
      permutations), and in binary64 they are not.
    - [Charts]: the slices of the pie are the amounts of the badge section
      and add up to the headline expense; the timeline ends at the balance
      and its value at the close of each day does not depend on the sort; the
      monthly bars add up to the headline figures.
    - [Sample]: the generated sample is processed without loss and meets
      every convention the other theorems assume.
    - [Table]: which rows the table shows; that its order is by day of the
      month first, which is date order only within one month; that a search
      text that is not a pattern raises.
    - [Stats]: the mean debit times the number of debits is the headline
      expense; the largest expense under the sign convention; the number of
      days is at least one.
    - [Progress]: the bar value lies in [0, 100]; the band of the bar agrees
      with the badge when the goal is positive.
    - [Session]: every reachable session holds non-negative goals; the only
      exceptions of a run over exact numbers; a rerun without new input
      changes nothing; the sample button always leads to the dashboard; in
      binary64 a run can raise after it has written the session; no run,
      however it ends, removes the sample or a goal from the session.
    - [Tracker]: the script's badge refines the specification's tier for
      positive goals and departs from it for a zero goal.
    - [Render]: the script with its page forgotten is [Session.run]
      (refinement); every call on the page is one Streamlit accepts (column
      indices within the columns made, no number widget offered a value
      below its minimum); no two widgets share a key; the footer is on the
      page exactly when the run does not raise; every page starts with the
      title and the upload widgets.
    - [Shown]: the page of a run that ends well, its input widgets set
      aside, is [render] of the view [Session.run] reports: what the
      component theorems say of the view holds of what is on the page;
      over exact numbers every progress bar of every page has a value
      [st.progress] accepts.

    ** Bounds and fuel

    Every loop of the script is a traversal of a finite list and is
    structurally recursive here.  The only definition with fuel is the
    thousands grouping of [Format] ([group3_fuel]): each step divides the
    number by 1000, [group3] passes one more than the binary length of the
    number, [group3_fuel_enough] shows that any such fuel gives the same
    string, and [group3_wf_eq] that the string is the one of the recursion
    without fuel ([group3_wf], well founded on the number).  Integers are
    unbounded as in Python.  Dates are calendar dates
    with a year of four digits, as pandas timestamps are.  The binary64
    instance is exact for scalar expressions; [series_sum] in binary64 is the
    sequential sum, which is what numpy computes for fewer than eight
    addends (longer series are summed pairwise by numpy, so binary64 results
    for them are not claimed).

    ** Not modelled

    The imports (lines 1, 10-18), the generator and seed of [np.random] (the
    draws are inputs), CSV parsing and, for an uploaded file, date parsing
    inside pandas (a raw cell arrives as [Some v] or [None]; [Calendar]
    reads one text in the two documented forms, not a column, whose format
    pandas infers from its first cell), missing columns in an uploaded
    file, time of day in timestamps (the script only reads
    dates), what [st.date_input] does with the missing bounds of a processed
    frame without any row (the widget is then offered no default), the
    regular-expression engine, and how Streamlit and plotly draw an
    element: colours, sizes, the style arguments of the charts
    ([color_discrete_sequence], [marker], [height], ...) and the flags
    [unsafe_allow_html], [use_container_width] and [hide_index]. *)

From Stdlib Require Export QArith Qabs Qminmax Lqa.
From stdpp Require Export base tactics option list strings gmap.

#[export] Set Warnings "-clear-no-such-hyp,-inexact-float".

(** ** Hint database and tactics of the development *)

Create HintDb dash discriminated.

(** [case_if] splits on the first [if] on a boolean or a decision found in
    the goal, keeping the equation. *)
Ltac case_if :=
  match goal with
  | |- context [if ?b then _ else _] =>
      let E := fresh "E" in destruct b eqn:E
  end.

(** ** Results of a fallible step

    The exceptions a run of the script can raise. *)

Inductive py_error : Type :=
| NameError            (* a variable read before any assignment *)
| ValueBelowMin        (* number_input: value below min_value *)
| LoadError            (* read_csv / to_datetime raised *)
| AttributeError       (* a method missing on an unprocessed column *)
| PatternError.        (* re.error: the search text is not a pattern *)

Inductive result (A : Type) : Type :=
| Ok (a : A)
| Err (e : py_error).
Arguments Ok {A} a.
Arguments Err {A} e.

Definition bind {A B} (r : result A) (f : A → result B) : result B :=
  match r with
  | Ok a => f a
  | Err e => Err e
  end.

Definition is_ok {A} (r : result A) : bool :=
  match r with Ok _ => true | Err _ => false end.

(** The scope of the development's notations: sequencing of fallible steps
    here, the arithmetic of [Numeric] there. *)
Declare Scope dash_scope.
Delimit Scope dash_scope with dash.
Notation "'let?' x := r 'in' k" := (bind r (λ x, k))
  (at level 10, x name, r at level 100, k at level 200,
   format "'[v' 'let?'  x  :=  r  'in' '/' k ']'") : dash_scope.
Open Scope dash_scope.

#[export] Instance py_error_eq_dec : EqDecision py_error.
Proof. solve_decision. Defined.

#[export] Instance result_eq_dec `{EqDecision A} : EqDecision (result A).
Proof. solve_decision. Defined.

Lemma bind_ok {A B} (r : result A) (f : A → result B) b :
  bind r f = Ok b ↔ ∃ a, r = Ok a ∧ f a = Ok b.
Proof. destruct r; simpl; naive_solver. Qed.

Lemma bind_err {A B} (r : result A) (f : A → result B) e :
  bind r f = Err e ↔ r = Err e ∨ ∃ a, r = Ok a ∧ f a = Err e.
Proof. destruct r; simpl; naive_solver. Qed.

(** ** [unique]: values in order of first appearance

    pandas' [Series.unique] walks the column once with a table of values
    already seen and emits a value the first time it meets it. *)

Section unique.
Context {K : Type} `{EqDecision K}.

Fixpoint unique_from (seen : list K) (l : list K) : list K :=
  match l with
  | [] => []
  | x :: l' =>
      if decide (x ∈ seen) then unique_from seen l'
      else x :: unique_from (x :: seen) l'
  end.

Definition unique (l : list K) : list K := unique_from [] l.

Lemma elem_of_unique_from seen l x :
  x ∈ unique_from seen l ↔ x ∈ l ∧ x ∉ seen.
Proof.
  revert seen. induction l as [|y l IH]; intros seen; simpl.
  - rewrite elem_of_nil. tauto.
  - case_decide; rewrite ?elem_of_cons, IH, ?elem_of_cons, ?not_elem_of_cons;
      destruct (decide (x = y)); naive_solver.
Qed.

Lemma elem_of_unique l x : x ∈ unique l ↔ x ∈ l.
Proof.
  unfold unique. rewrite elem_of_unique_from, elem_of_nil. tauto.
Qed.

Lemma NoDup_unique_from seen l : NoDup (unique_from seen l).
Proof.
  revert seen. induction l as [|y l IH]; intros seen; simpl; [constructor|].
  case_decide; [done|]. constructor; [|done].
  rewrite elem_of_unique_from, not_elem_of_cons. tauto.
Qed.

Lemma NoDup_unique l : NoDup (unique l).
Proof. apply NoDup_unique_from. Qed.

Lemma unique_from_sublist seen l : unique_from seen l `sublist_of` l.
Proof.
  revert seen. induction l as [|y l IH]; intros seen; simpl; [done|].
  case_decide; by constructor.
Qed.

(** A column without repetition is its own [unique]. *)
Lemma unique_from_NoDup seen l :
  NoDup l → (∀ x, x ∈ l → x ∉ seen) → unique_from seen l = l.
Proof.
  revert seen. induction l as [|y l IH]; intros seen Hnd Hs; simpl; [done|].
  apply NoDup_cons in Hnd as [Hy Hnd].
  rewrite decide_False by (apply Hs; left). f_equal. apply IH; [done|].
  intros x Hx. rewrite not_elem_of_cons. split; [congruence|].
  apply Hs. by right.
Qed.

Lemma unique_NoDup l : NoDup l → unique l = l.
Proof.
  intros. apply unique_from_NoDup; [done|]. intros ? _. apply not_elem_of_nil.
Qed.

Lemma unique_idemp l : unique (unique l) = unique l.
Proof. apply unique_NoDup, NoDup_unique. Qed.

End unique.

#[export] Hint Resolve NoDup_unique NoDup_unique_from : dash.

(** ** Masks over a frame *)

Section masks.
Context {A : Type}.
Implicit Types (P Q : A → Prop) (l : list A).

(** A mask that holds of every row selects the whole frame. *)
Lemma filter_all P `{∀ x, Decision (P x)} l : Forall P l → filter P l = l.
Proof.
  induction 1 as [|x l Hx _ IH]; [done|].
  by rewrite filter_cons_True, IH.
Qed.

(** A mask that holds of no row selects nothing. *)
Lemma filter_none P `{∀ x, Decision (P x)} l :
  Forall (λ x, ¬ P x) l → filter P l = [].
Proof.
  induction 1 as [|x l Hx _ IH]; [done|].
  by rewrite filter_cons_False, IH.
Qed.

(** Two masks that agree on the rows of a frame select the same rows. *)
Lemma filter_ext_elem P Q `{∀ x, Decision (P x)} `{∀ x, Decision (Q x)} l :
  (∀ x, x ∈ l → P x ↔ Q x) → filter P l = filter Q l.
Proof.
  induction l as [|x l IH]; intros HPQ; [done|].
  rewrite !filter_cons. rewrite IH by (intros; apply HPQ; by right).
  destruct (decide (P x)) as [HP|HP], (decide (Q x)) as [HQ|HQ]; try done;
    exfalso; apply (HPQ x) in HP || apply (HPQ x) in HQ; try done; by left.
Qed.

Lemma filter_comm P Q `{∀ x, Decision (P x)} `{∀ x, Decision (Q x)} l :
  filter P (filter Q l) = filter Q (filter P l).
Proof. rewrite !list_filter_filter. apply list_filter_iff. tauto. Qed.

Lemma filter_idemp P `{∀ x, Decision (P x)} l :
  filter P (filter P l) = filter P l.
Proof. by apply list_filter_filter_l. Qed.

(** A reordering of the image of a frame is the image of a reordering. *)
Lemma Permutation_fmap_inv {B} (f : A → B) l (k : list B) :
  k ≡ₚ f <$> l → ∃ l', k = f <$> l' ∧ l' ≡ₚ l.
Proof.
  intros Hk. destruct (Permutation_map_inv f l Hk) as (l' & -> & Hl).
  exists l'. by split.
Qed.

(** Two successive partial maps over the rows are one. *)
Lemma omap_omap {B C} (f : B → option C) (g : A → option B) l :
  omap f (omap g l) = omap (λ x, g x ≫= f) l.
Proof.
  induction l as [|x l IH]; [done|]. csimpl.
  destruct (g x) as [b|]; csimpl; [|done]. by rewrite IH.
Qed.

Lemma omap_ext_all {B} (f g : A → option B) l :
  (∀ x, f x = g x) → omap f l = omap g l.
Proof.
  intros Hfg. induction l as [|x l IH]; [done|]. csimpl. by rewrite Hfg, IH.
Qed.

End masks.
