(* ===== verification/Numeric.v ===== *)
(** * Numeric: the arithmetic the script applies to amounts

    [src/dash.py] handles amounts as Python/numpy floats (IEEE-754 binary64)
    and compares them with decimal literals ([0.7], [0.85], [1.2], [1.5],
    [70], [85], [100], [1000.0]).  The class [Num] is the interface between
    the model of the script and a number system: the components are written
    once against it.  [Q_num] interprets it in exact rationals, [F_num] in the
    kernel's binary64 floats.  The file also holds pandas' [Series.sum] and
    Python's [min] over the interface, the reflection lemmas and the tactic
    [q_cases] that turn the boolean comparisons of [Q_num] into propositions
    for [lra], and the laws of sums over the rationals. *)

From Stdlib Require Import Floats.
From S2P Require Import Prelude.

(** ** The interface *)

Class Num (A : Type) := {
  zero : A;
  add : A → A → A;
  sub : A → A → A;
  mul : A → A → A;
  div : A → A → A;
  abs : A → A;
  neg : A → A;             (* Python's unary minus *)
  leb : A → A → bool;      (* Python [a <= b] *)
  ltb : A → A → bool;      (* Python [a < b]  *)
  lit : Q → A;             (* a decimal literal of the source text *)
  isnan : A → bool;        (* numpy's not-a-number test, used by [dropna] *)
}.

Notation "a + b" := (add a b) : dash_scope.
Notation "a - b" := (sub a b) : dash_scope.
Notation "a * b" := (mul a b) : dash_scope.
Notation "a / b" := (div a b) : dash_scope.
Notation "- a" := (neg a) : dash_scope.
Notation "a <=? b" := (leb a b) (at level 70) : dash_scope.
Notation "a <? b" := (ltb a b) (at level 70) : dash_scope.
Notation "a >? b" := (ltb b a) (at level 70) : dash_scope.
Notation "a >=? b" := (leb b a) (at level 70) : dash_scope.

Section generic.
Context {A : Type} `{Num A}.
Local Open Scope dash_scope.

(** [Series.sum()]: the addends are accumulated from zero in row order. *)
Definition series_sum (l : list A) : A := foldl add zero l.

(** Python's builtin [min(a, b)]: the first argument unless the second is
    strictly smaller. *)
Definition py_min (a b : A) : A := if b <? a then b else a.

End generic.

(** ** Exact rationals *)

#[export] Instance Q_num : Num Q := {|
  zero := 0%Q;
  add := Qplus;
  sub := Qminus;
  mul := Qmult;
  div := Qdiv;
  abs := Qabs;
  neg := Qopp;
  leb := Qle_bool;
  ltb := λ a b, negb (Qle_bool b a);
  lit := λ q, q;
  isnan := λ _, false;
|}.

(** ** binary64

    An integer of the source text below 2^53 in magnitude is exactly
    representable; a decimal literal [n/d] is the correctly rounded quotient
    of two such integers, which is the double a Python literal denotes. *)

Definition float_of_Z (z : Z) : float :=
  match z with
  | Z0 => 0%float
  | Zpos _ => PrimFloat.of_uint63 (Uint63.of_Z z)
  | Zneg p => PrimFloat.opp (PrimFloat.of_uint63 (Uint63.of_Z (Zpos p)))
  end.

#[export] Instance F_num : Num float := {|
  zero := 0%float;
  add := PrimFloat.add;
  sub := PrimFloat.sub;
  mul := PrimFloat.mul;
  div := PrimFloat.div;
  abs := PrimFloat.abs;
  neg := PrimFloat.opp;
  leb := PrimFloat.leb;
  ltb := PrimFloat.ltb;
  lit := λ q, PrimFloat.div (float_of_Z (Qnum q)) (float_of_Z (Zpos (Qden q)));
  isnan := PrimFloat.is_nan;
|}.

(** ** Reflection of the rational comparisons *)

#[export] Instance Qle_preorder : PreOrder Qle.
Proof. split; [exact Qle_refl|exact Qle_trans]. Qed.

#[export] Instance Qle_dec : RelDecision Qle.
Proof.
  intros a b. destruct (Qlt_le_dec b a) as [Hlt|Hle]; [right|left; done].
  by apply Qlt_not_le.
Defined.

#[export] Instance Qlt_dec : RelDecision Qlt.
Proof.
  intros a b. destruct (Qlt_le_dec a b) as [Hlt|Hle]; [left; done|right].
  by apply Qle_not_lt.
Defined.

Lemma Q_leb_spec (a b : Q) : BoolSpec (a <= b)%Q (b < a)%Q (Qle_bool a b).
Proof.
  destruct (Qle_bool a b) eqn:E; constructor.
  - by apply Qle_bool_iff.
  - apply Qnot_le_lt. intros Hle. apply Qle_bool_iff in Hle. congruence.
Qed.

(** [num_Q] exposes the rational operations behind the interface. *)
Ltac num_Q :=
  cbv [zero add sub mul div abs neg leb ltb lit isnan Q_num] in *.

(** [q_cases] splits every rational comparison in the goal into its two
    propositional cases. *)
Ltac q_cases :=
  num_Q;
  repeat (match goal with
          | |- context [if Qle_bool ?a ?b then _ else _] =>
              destruct (Q_leb_spec a b)
          | |- context [Qle_bool ?a ?b] => destruct (Q_leb_spec a b)
          end; cbn [negb andb orb]).

(** [q_solve] closes a goal about comparisons of rationals. *)
Ltac q_solve := q_cases; try done; try lra.

(** ** Sums over the rationals *)

Section sums.
Local Open Scope Q_scope.
Implicit Types l : list Q.

Lemma foldl_add_Q a l : foldl Qplus a l == a + foldl Qplus 0 l.
Proof.
  revert a. induction l as [|x l IH]; intros a; simpl; [lra|].
  rewrite (IH (a + x)), (IH (0 + x)). lra.
Qed.

Lemma series_sum_nil : series_sum (@nil Q) = 0.
Proof. reflexivity. Qed.

Lemma series_sum_cons x l : series_sum (x :: l) == x + series_sum l.
Proof.
  unfold series_sum. num_Q. simpl. rewrite foldl_add_Q. lra.
Qed.

Lemma series_sum_app l1 l2 :
  series_sum (l1 ++ l2) == series_sum l1 + series_sum l2.
Proof.
  induction l1 as [|x l1 IH]; simpl.
  - rewrite series_sum_nil. lra.
  - rewrite !series_sum_cons, IH. lra.
Qed.

(** Row order does not change an exact sum. *)
Lemma series_sum_perm l1 l2 : l1 ≡ₚ l2 → series_sum l1 == series_sum l2.
Proof.
  induction 1 as [|x l1 l2 _ IH|x y l|l1 l2 l3 _ IH1 _ IH2].
  - reflexivity.
  - rewrite !series_sum_cons, IH. reflexivity.
  - rewrite !series_sum_cons. lra.
  - by rewrite IH1.
Qed.

#[export] Instance series_sum_perm_proper :
  Proper ((≡ₚ) ==> Qeq) (series_sum (A:=Q)) := series_sum_perm.

#[export] Instance series_sum_proper : Proper (Forall2 Qeq ==> Qeq) series_sum.
Proof.
  intros l1 l2 Hl. induction Hl as [|x y l1 l2 Hxy _ IH]; [reflexivity|].
  rewrite !series_sum_cons, IH, Hxy. reflexivity.
Qed.

Lemma series_sum_nonpos l : Forall (λ x, x <= 0) l → series_sum l <= 0.
Proof.
  induction 1 as [|x l Hx _ IH]; [by rewrite series_sum_nil|].
  rewrite series_sum_cons. lra.
Qed.

Lemma series_sum_nonneg l : Forall (λ x, 0 <= x) l → 0 <= series_sum l.
Proof.
  induction 1 as [|x l Hx _ IH]; [by rewrite series_sum_nil|].
  rewrite series_sum_cons. lra.
Qed.

(** The absolute value of a sum against the sum of absolute values: equal
    when no addend is positive, and never larger. *)
Lemma abs_series_sum_nonpos l :
  Forall (λ x, x <= 0) l → Qabs (series_sum l) == series_sum (Qabs <$> l).
Proof.
  intros Hl. rewrite Qabs_neg by by apply series_sum_nonpos.
  induction Hl as [|x l Hx _ IH]; [reflexivity|].
  rewrite fmap_cons, !series_sum_cons, <- IH, (Qabs_neg x) by done. lra.
Qed.

Lemma abs_series_sum_le l : Qabs (series_sum l) <= series_sum (Qabs <$> l).
Proof.
  induction l as [|x l IH]; [done|].
  rewrite fmap_cons, !series_sum_cons.
  pose proof (Qabs_triangle x (series_sum l)). lra.
Qed.

(** *** Sums of sums *)

Lemma series_sum_fmap_add {B} (f g : B → Q) (l : list B) :
  series_sum ((λ x, f x + g x) <$> l)
  == series_sum (f <$> l) + series_sum (g <$> l).
Proof.
  induction l as [|x l IH]; [done|].
  rewrite !fmap_cons, !series_sum_cons, IH. lra.
Qed.

Lemma series_sum_fmap_opp {B} (f : B → Q) (l : list B) :
  series_sum ((λ x, - f x) <$> l) == - series_sum (f <$> l).
Proof.
  induction l as [|x l IH]; [done|].
  rewrite !fmap_cons, !series_sum_cons, IH. lra.
Qed.

Lemma series_sum_fmap_ext {B} (f g : B → Q) (l : list B) :
  (∀ x, x ∈ l → f x == g x) → series_sum (f <$> l) == series_sum (g <$> l).
Proof.
  induction l as [|x l IH]; intros Hfg; [done|].
  rewrite !fmap_cons, !series_sum_cons, IH, (Hfg x); [done|by left|].
  intros; apply Hfg; by right.
Qed.

(** The sum of an indicator over a list without repetition. *)
Lemma series_sum_indicator `{EqDecision K} (k0 : K) (v : Q) (ks : list K) :
  NoDup ks →
  series_sum ((λ k, if decide (k0 = k) then v else 0) <$> ks)
  == if decide (k0 ∈ ks) then v else 0.
Proof.
  induction 1 as [|k ks Hk _ IH]; [done|].
  rewrite fmap_cons, series_sum_cons, IH.
  destruct (decide (k0 = k)) as [->|Hne].
  - rewrite decide_False by done. rewrite decide_True by left. lra.
  - destruct (decide (k0 ∈ ks)) as [Hin|Hin].
    + rewrite decide_True by (by right). lra.
    + rewrite decide_False; [lra|]. rewrite elem_of_cons. tauto.
Qed.

(** Grouping by a key and adding the group sums gives the sum of the whole
    column, provided the keys listed are distinct and cover the rows. *)
Lemma series_sum_groupby {B} `{EqDecision K} (key : B → K) (val : B → Q)
    (ks : list K) (l : list B) :
  NoDup ks → (∀ x, x ∈ l → key x ∈ ks) →
  series_sum ((λ k, series_sum (val <$> filter (λ x, key x = k) l)) <$> ks)
  == series_sum (val <$> l).
Proof.
  intros Hnd. induction l as [|x l IH]; intros Hcov.
  - simpl. clear. induction ks as [|k ks IH]; [done|].
    rewrite fmap_cons, series_sum_cons, IH. done.
  - rewrite fmap_cons, series_sum_cons, <- IH by (intros; apply Hcov; by right).
    assert (Hx : series_sum ((λ k, if decide (key x = k) then val x else 0) <$> ks)
                 == val x).
    { rewrite series_sum_indicator by done.
      rewrite decide_True; [done|]. apply Hcov. by left. }
    rewrite <- Hx, <- series_sum_fmap_add. apply series_sum_fmap_ext.
    intros k _. rewrite filter_cons. destruct (decide (key x = k)); [|lra].
    by rewrite fmap_cons, series_sum_cons.
Qed.

Lemma py_min_Q (a b : Q) : py_min a b == Qmin a b.
Proof.
  unfold py_min. q_cases.
  - rewrite Q.min_l; [reflexivity|done].
  - rewrite Q.min_r; [reflexivity|lra].
Qed.

End sums.

#[export] Hint Resolve series_sum_nonpos series_sum_nonneg abs_series_sum_le : dash.

(** ** Comparisons with NaN in binary64

    Every IEEE comparison with a NaN operand is false. *)

Section nan.
Local Open Scope float_scope.

Lemma float_leb_nan_l x : PrimFloat.leb nan x = false.
Proof. rewrite leb_spec. reflexivity. Qed.

Lemma float_leb_nan_r x : PrimFloat.leb x nan = false.
Proof.
  rewrite leb_spec. change (Prim2SF nan) with S754_nan.
  unfold SFleb, SFcompare. by destruct (Prim2SF x).
Qed.

Lemma float_ltb_nan_l x : PrimFloat.ltb nan x = false.
Proof. rewrite ltb_spec. reflexivity. Qed.

Lemma float_ltb_nan_r x : PrimFloat.ltb x nan = false.
Proof.
  rewrite ltb_spec. change (Prim2SF nan) with S754_nan.
  unfold SFltb, SFcompare. by destruct (Prim2SF x).
Qed.

End nan.

(** [num_F] exposes the binary64 operations behind the interface. *)
Ltac num_F :=
  cbv [zero add sub mul div abs leb ltb lit isnan F_num] in *.

(** ** The literals of the script in binary64

    Each decimal constant of [src/dash.py], read through [lit], is the double
    Python parses the literal to. *)

Example lit_float_constants :
  (lit 0.7 : float) = 0.7%float ∧ (lit 0.85 : float) = 0.85%float ∧
  (lit 1.2 : float) = 1.2%float ∧ (lit 1.5 : float) = 1.5%float ∧
  (lit 70 : float) = 70%float ∧ (lit 85 : float) = 85%float ∧
  (lit 100 : float) = 100%float ∧ (lit 1000 : float) = 1000%float.
Proof. vm_compute. repeat split. Qed.
