(* ===== verification/Binary64.v ===== *)
(** * Binary64: facts of IEEE-754 arithmetic the script depends on

    The amounts of [src/dash.py] are binary64 numbers.  This file derives,
    from the specification of the kernel's floats ([SpecFloat] and the
    axioms that relate it to [PrimFloat]), the two facts the float-side
    theorems of the components use: a comparison with a not-a-number is
    false and the order is total on the other values, and a product by a
    finite constant is a not-a-number only when the other factor is. *)

From Stdlib Require Import Floats.
From S2P Require Import Prelude Numeric.

Local Open Scope Z_scope.

(** ** Rounding never produces a not-a-number *)

Section rounding.
Variables prec emax : Z.

Lemma shr_1_nonneg mrs : 0 ≤ shr_m mrs → 0 ≤ shr_m (shr_1 mrs).
Proof. destruct mrs as [[|[p|p|]|[p|p|]] r s]; simpl; lia. Qed.

Lemma iter_pos_shr_1_nonneg p mrs :
  0 ≤ shr_m mrs → 0 ≤ shr_m (SpecFloat.iter_pos shr_1 p mrs).
Proof.
  revert mrs. induction p as [p IH|p IH|]; intros mrs Hm; simpl;
    auto using shr_1_nonneg.
Qed.

Lemma shr_nonneg mrs e n : 0 ≤ shr_m mrs → 0 ≤ shr_m (shr mrs e n).1.
Proof.
  intros Hm. destruct n; simpl; [done| |done].
  by apply iter_pos_shr_1_nonneg.
Qed.

Lemma shr_fexp_nonneg m e l : 0 ≤ m → 0 ≤ shr_m (shr_fexp prec emax m e l).1.
Proof.
  intros Hm. unfold shr_fexp. apply shr_nonneg. by destruct l as [|[]].
Qed.

Lemma round_nearest_even_nonneg m l : 0 ≤ m → 0 ≤ round_nearest_even m l.
Proof.
  intros Hm. destruct l as [|[]]; simpl; try lia. destruct (Z.even m); lia.
Qed.

Lemma binary_round_aux_not_nan sx mx ex lx :
  0 ≤ mx → binary_round_aux prec emax sx mx ex lx ≠ S754_nan.
Proof.
  intros Hm. unfold binary_round_aux.
  pose proof (shr_fexp_nonneg mx ex lx Hm) as H1.
  destruct (shr_fexp prec emax mx ex lx) as [mrs' e']. simpl in H1.
  pose proof (shr_fexp_nonneg _ e' loc_Exact
                (round_nearest_even_nonneg _ (loc_of_shr_record mrs') H1)) as H2.
  destruct (shr_fexp prec emax _ e' loc_Exact) as [mrs'' e'']. simpl in H2.
  destruct (shr_m mrs''); [done| |lia]. by destruct (_ <=? _).
Qed.

(** A product by a finite number that is not zero is a not-a-number only
    when the other factor is. *)
Lemma SFmul_finite_not_nan x sy my ey :
  x ≠ S754_nan → SFmul prec emax x (S754_finite sy my ey) ≠ S754_nan.
Proof.
  intros Hx. destruct x; simpl; try done. by apply binary_round_aux_not_nan.
Qed.

End rounding.

(** ** The order of the numbers *)

Lemma SFcompare_is_Some a b :
  a ≠ S754_nan → b ≠ S754_nan → is_Some (SFcompare a b).
Proof. intros Ha Hb. destruct a, b; simpl; try done; eauto. Qed.

Lemma compare_cont_Eq_antisym m1 m2 :
  Pos.compare_cont Eq m2 m1 = CompOpp (Pos.compare_cont Eq m1 m2).
Proof. by rewrite Pos.compare_cont_antisym. Qed.

Lemma SFcompare_antisym a b c :
  SFcompare a b = Some c → SFcompare b a = Some (CompOpp c).
Proof.
  destruct a as [[]|[]| |[] m1 e1], b as [[]|[]| |[] m2 e2]; simpl;
    intros [= <-]; try done; f_equal;
    rewrite (Z.compare_antisym e1 e2), (compare_cont_Eq_antisym m1 m2);
    destruct (e1 ?= e2); simpl; try done;
    by destruct (Pos.compare_cont Eq m1 m2).
Qed.

(** Totality: of two numbers, when the first is not below or equal to the
    second, the second is strictly below the first. *)
Lemma SFleb_false_ltb a b :
  a ≠ S754_nan → b ≠ S754_nan → SFleb a b = false → SFltb b a = true.
Proof.
  intros Ha Hb. destruct (SFcompare_is_Some a b Ha Hb) as [c Hc].
  unfold SFleb, SFltb. rewrite Hc, (SFcompare_antisym a b c Hc).
  by destruct c.
Qed.

Section binary64.
Local Open Scope float_scope.
Implicit Types x y : float.

Lemma is_nan_Prim2SF x : is_nan x = false ↔ Prim2SF x ≠ S754_nan.
Proof.
  unfold is_nan. rewrite FloatAxioms.eqb_spec. unfold SFeqb.
  destruct (Prim2SF x) as [[]|[]| |[] m e] eqn:E; simpl;
    rewrite ?Z.compare_refl, ?Pos.compare_cont_refl; simpl; naive_solver.
Qed.

Lemma is_nan_true x : is_nan x = true ↔ x = nan.
Proof.
  split; [|by intros ->]. intros Hx.
  destruct (Prim2SF x) eqn:E;
    try (apply not_false_iff_true in Hx; destruct Hx;
         apply is_nan_Prim2SF; by rewrite E).
  by rewrite <- (SF2Prim_Prim2SF x), E.
Qed.

(** On numbers the order is total. *)
Lemma float_leb_total x y :
  is_nan x = false → is_nan y = false → (x <=? y) = false → (y <? x) = true.
Proof.
  rewrite !is_nan_Prim2SF, leb_spec, ltb_spec. apply SFleb_false_ltb.
Qed.

(** A product by a finite constant that is not zero is a number when the
    other factor is. *)
Lemma float_mul_finite x y sy my ey :
  Prim2SF y = S754_finite sy my ey → is_nan x = false → is_nan (x * y) = false.
Proof.
  intros Hy. rewrite !is_nan_Prim2SF, mul_spec, Hy.
  apply SFmul_finite_not_nan.
Qed.

End binary64.

(** ** The same facts through the interface [Num] *)

Section interface.
Local Open Scope dash_scope.
Implicit Types x y : float.

Lemma isnan_true x : isnan x = true ↔ x = nan.
Proof. apply is_nan_true. Qed.

Lemma leb_false_ltb x y :
  isnan x = false → isnan y = false → (x <=? y) = false → (y <? x) = true.
Proof. apply float_leb_total. Qed.

Lemma isnan_mul_lit x q sy my ey :
  Prim2SF (lit q) = S754_finite sy my ey →
  isnan x = false → isnan (x * lit q) = false.
Proof. apply float_mul_finite. Qed.

Lemma leb_nan_l x : (nan <=? x) = false.
Proof. apply float_leb_nan_l. Qed.

Lemma leb_nan_r x : (x <=? nan) = false.
Proof. apply float_leb_nan_r. Qed.

Lemma ltb_nan_l x : (nan <? x) = false.
Proof. apply float_ltb_nan_l. Qed.

Lemma ltb_nan_r x : (x <? nan) = false.
Proof. apply float_ltb_nan_r. Qed.

Lemma nan_mul_lit q : nan * lit q = nan.
Proof.
  apply isnan_true. destruct (isnan (nan * lit q)) eqn:E; [done|].
  apply is_nan_Prim2SF in E. destruct E. num_F. by rewrite mul_spec.
Qed.

End interface.

(** [mul_lit_number] proves that a product by a literal of the script is a
    number when the other factor is. *)
Ltac mul_lit_number :=
  eapply isnan_mul_lit; [lazy; reflexivity|assumption].

