(* ===== verification/Frame.v ===== *)
(** * Frame: the pandas operations behind the charts, the table and the figures

    The calls of [src/dash.py] that reorder or aggregate a frame:
    [groupby(...)[...].sum()] (lines 326 and 388), [sort_values] (lines 356
    and 464) and [cumsum] (line 357).  A [groupby] result lists its keys in
    ascending order, each once.  [sort_values] runs a sort that is not
    stable, so the order it gives rows with equal keys is not fixed by the
    script: the sort is the interface [Sorter] (a permutation of its input,
    sorted by the key), of which merge sort is the instance used to run the
    examples, and the theorems about sorted frames hold for every instance.
    Strings are ordered as Python orders them, by code unit. *)

From stdpp Require Import sorting.
From S2P Require Import Prelude Numeric.

Local Open Scope string_scope.
Local Open Scope list_scope.

(** ** The order of strings *)

Definition string_le (s1 s2 : string) : Prop := String.leb s1 s2 = true.

#[export] Instance string_le_dec : RelDecision string_le.
Proof. intros a b. unfold string_le. apply _. Defined.

Lemma string_compare_refl s : String.compare s s = Eq.
Proof.
  induction s as [|x s IH]; [done|]. simpl.
  unfold Ascii.compare. by rewrite N.compare_refl.
Qed.

Lemma string_leb_trans a b c :
  String.leb a b = true → String.leb b c = true → String.leb a c = true.
Proof.
  unfold String.leb. revert b c.
  induction a as [|x a IH]; intros [|y b] [|z c]; simpl; try done.
  unfold Ascii.compare.
  destruct (N.compare_spec (Ascii.N_of_ascii x) (Ascii.N_of_ascii y)),
    (N.compare_spec (Ascii.N_of_ascii y) (Ascii.N_of_ascii z)),
    (N.compare_spec (Ascii.N_of_ascii x) (Ascii.N_of_ascii z));
    try done; try lia. apply IH.
Qed.

#[export] Instance string_le_po : PartialOrder string_le.
Proof.
  split; [split|].
  - intros s. unfold string_le, String.leb. by rewrite string_compare_refl.
  - intros a b c. apply string_leb_trans.
  - intros a b. apply String.leb_antisym.
Qed.

#[export] Instance string_le_total : Total string_le.
Proof. intros a b. apply String.leb_total. Qed.

(** Descending order, [ascending=False], is the flipped relation. *)
#[export] Instance string_ge_total : Total (flip string_le).
Proof. intros a b. apply (total string_le). Qed.

#[export] Instance string_ge_anti_symm : AntiSymm (=) (flip string_le).
Proof. intros a b Hab Hba. by apply (anti_symm string_le). Qed.

(** A relation on keys, lifted to the rows that carry them. *)
Definition on_key {R K : Type} (le : relation K) (key : R → K) : relation R :=
  λ a b, le (key a) (key b).

#[export] Instance on_key_dec {R K} (le : relation K) `{!RelDecision le}
  (key : R → K) : RelDecision (on_key le key).
Proof. intros a b. unfold on_key. apply _. Defined.

#[export] Instance on_key_trans {R K} (le : relation K) `{!Transitive le}
  (key : R → K) : Transitive (on_key le key).
Proof. intros a b c. unfold on_key. apply transitivity. Qed.

#[export] Instance on_key_total {R K} (le : relation K) `{!Total le}
  (key : R → K) : Total (on_key le key).
Proof. intros a b. unfold on_key. apply (total le). Qed.

(** ** [sort_values]

    What the script may rely on of a sort by a key: the rows are those of
    the input, and their keys ascend. *)
Class Sorter := {
  sort_by : ∀ {R K : Type} (le : relation K) `{!RelDecision le},
    (R → K) → list R → list R;
  sort_by_perm : ∀ {R K : Type} (le : relation K) `{!RelDecision le}
    (key : R → K) (l : list R), sort_by le key l ≡ₚ l;
  sort_by_sorted : ∀ {R K : Type} (le : relation K) `{!RelDecision le}
    `{!Transitive le, !Total le} (key : R → K) (l : list R),
    StronglySorted (on_key le key) (sort_by le key l);
}.

(** Merge sort, the instance the worked examples run. *)
Definition merge_sort_by {R K : Type} (le : relation K) `{!RelDecision le}
    (key : R → K) (l : list R) : list R :=
  merge_sort (on_key le key) l.

#[export] Instance merge_sorter : Sorter :=
  {| sort_by R K le _ key := merge_sort_by le key;
     sort_by_perm R K le _ key l := merge_sort_Permutation (on_key le key) l;
     sort_by_sorted R K le _ _ _ key l :=
       StronglySorted_merge_sort (on_key le key) l |}.

(** ** [groupby(...)[...].sum()] *)

Section groupby.
Context {A : Type} `{Num A} {R K : Type} `{EqDecision K}.
Context (le : relation K) `{!RelDecision le}.

(** The index of the result: the keys present, each once, in ascending
    order. *)
Definition group_keys (key : R → K) (rows : list R) : list K :=
  merge_sort le (unique (key <$> rows)).

(** The rows of one group, in frame order. *)
Definition group (key : R → K) (rows : list R) (k : K) : list R :=
  filter (λ r, key r = k) rows.

Definition groupby_sum (key : R → K) (val : R → A) (rows : list R)
  : list (K * A) :=
  (λ k, (k, series_sum (val <$> group key rows k))) <$> group_keys key rows.

Lemma elem_of_group_keys key rows k :
  k ∈ group_keys key rows ↔ ∃ r, r ∈ rows ∧ key r = k.
Proof.
  unfold group_keys. rewrite merge_sort_Permutation, elem_of_unique.
  rewrite list_elem_of_fmap. naive_solver.
Qed.

Lemma NoDup_group_keys key rows : NoDup (group_keys key rows).
Proof. unfold group_keys. rewrite merge_sort_Permutation. apply NoDup_unique. Qed.

Lemma Sorted_group_keys `{!Transitive le, !Total le} key rows :
  StronglySorted le (group_keys key rows).
Proof. apply StronglySorted_merge_sort; apply _. Qed.

Lemma groupby_sum_keys key val rows :
  (groupby_sum key val rows).*1 = group_keys key rows.
Proof.
  unfold groupby_sum. rewrite <- list_fmap_compose. apply list_fmap_id.
Qed.

Lemma elem_of_groupby_sum key val rows k v :
  (k, v) ∈ groupby_sum key val rows ↔
  (∃ r, r ∈ rows ∧ key r = k) ∧ v = series_sum (val <$> group key rows k).
Proof.
  unfold groupby_sum. rewrite list_elem_of_fmap.
  setoid_rewrite elem_of_group_keys. naive_solver.
Qed.

End groupby.

(** ** [cumsum] *)

Section cumsum.
Context {A : Type} `{Num A}.
Local Open Scope dash_scope.

Fixpoint cumsum_from (acc : A) (l : list A) : list A :=
  match l with
  | [] => []
  | x :: l => (acc + x) :: cumsum_from (acc + x) l
  end.

(** The first entry is the first value itself. *)
Definition cumsum (l : list A) : list A :=
  match l with
  | [] => []
  | x :: l => x :: cumsum_from x l
  end.

Lemma length_cumsum_from acc l : length (cumsum_from acc l) = length l.
Proof. revert acc. induction l; intros; simpl; by f_equal. Qed.

Lemma length_cumsum l : length (cumsum l) = length l.
Proof. destruct l; simpl; [done|]. by rewrite length_cumsum_from. Qed.

Lemma cumsum_from_take acc l n :
  take n (cumsum_from acc l) = cumsum_from acc (take n l).
Proof.
  revert acc n. induction l as [|x l IH]; intros acc [|n]; simpl; try done.
  by rewrite IH.
Qed.

Lemma cumsum_take l n : take n (cumsum l) = cumsum (take n l).
Proof.
  destruct l as [|x l], n as [|n]; simpl; try done.
  by rewrite cumsum_from_take.
Qed.

(** A column that is not empty has a last cumulative value. *)
Lemma last_cumsum_is_Some l : l ≠ [] → is_Some (last (cumsum l)).
Proof.
  intros Hl. apply last_is_Some. intros Hc. apply Hl.
  apply length_zero_iff_nil. by rewrite <- length_cumsum, Hc.
Qed.

End cumsum.

Section frame_exact.
Local Open Scope Q_scope.

(** Adding the group sums gives the sum of the column. *)
Lemma groupby_sum_total {R} `{EqDecision K} (le : relation K)
    `{!RelDecision le} (key : R → K) (val : R → Q) rows :
  series_sum (groupby_sum le key val rows).*2 == series_sum (val <$> rows).
Proof.
  unfold groupby_sum. rewrite <- list_fmap_compose.
  apply (series_sum_groupby key val).
  - apply NoDup_group_keys.
  - intros r Hr. apply elem_of_group_keys. eauto.
Qed.

Lemma last_cumsum_from acc l v :
  last (cumsum_from acc l) = Some v → v == acc + series_sum l.
Proof.
  revert acc. induction l as [|x l IH]; intros acc; [done|]. simpl.
  destruct l as [|y l]; simpl.
  - intros [= <-]. rewrite series_sum_cons, series_sum_nil. num_Q. lra.
  - intros Hl. rewrite (IH _ Hl), (series_sum_cons x). num_Q. lra.
Qed.

(** The last cumulative value is the sum of the column. *)
Lemma last_cumsum l v : last (cumsum l) = Some v → v == series_sum l.
Proof.
  destruct l as [|x l]; [done|]. simpl. destruct l as [|y l]; simpl.
  - intros [= <-]. rewrite series_sum_cons, series_sum_nil. lra.
  - intros Hl. rewrite (last_cumsum_from x (y :: l) v Hl), (series_sum_cons x).
    done.
Qed.

(** A column that is not empty has a last cumulative value, the sum of the
    column. *)
Lemma last_cumsum_total (l : list Q) :
  l ≠ [] → ∃ v, last (cumsum l) = Some v ∧ v == series_sum l.
Proof.
  intros [v Hv]%last_cumsum_is_Some. exists v. split; [done|].
  by apply last_cumsum.
Qed.

End frame_exact.

(** ** Sorted frames *)

Section sorted_frames.
Context {R K : Type} (le : relation K) `{!RelDecision le, !Transitive le}.
Context (key : R → K).

(** A frame sorted by a key is, for every bound, the rows up to the bound
    followed by the rows beyond it. *)
Lemma sorted_split k l :
  StronglySorted (on_key le key) l →
  filter (λ x, le (key x) k) l ++ filter (λ x, ¬ le (key x) k) l = l.
Proof.
  induction 1 as [|x l Hs IH Hx]; [done|].
  rewrite !filter_cons. destruct (decide (le (key x) k)) as [Hk|Hk].
  - rewrite decide_False by tauto. simpl. by rewrite IH.
  - rewrite decide_True by done.
    assert (Hl : Forall (λ y, ¬ le (key y) k) l).
    { eapply Forall_impl; [exact Hx|]. intros y Hy Hyk. apply Hk.
      by etrans. }
    by rewrite (filter_all _ l Hl), (filter_none _ l Hl).
Qed.

(** A frame whose image under a map is sorted is sorted by what the image
    order means for its rows. *)
Lemma StronglySorted_fmap_inv {B} (f : R → B) (R1 : relation R)
    (R2 : relation B) l :
  (∀ x y, x ∈ l → y ∈ l → R2 (f x) (f y) → R1 x y) →
  StronglySorted R2 (f <$> l) → StronglySorted R1 l.
Proof.
  induction l as [|x l IH]; intros HR Hs; [constructor|].
  rewrite fmap_cons in Hs. apply StronglySorted_cons in Hs as [Hx Hs].
  constructor.
  - apply IH; [|done]. intros ????. apply HR; by try right.
  - rewrite Forall_fmap in Hx. rewrite Forall_forall in *.
    intros y Hy. apply HR; [by left|by right|]. by apply Hx.
Qed.

Lemma StronglySorted_weaken (R1 R2 : relation R) l :
  (∀ x y, x ∈ l → y ∈ l → R2 x y → R1 x y) →
  StronglySorted R2 l → StronglySorted R1 l.
Proof.
  intros HR Hs. apply (StronglySorted_fmap_inv id R1 R2); [done|].
  by rewrite list_fmap_id.
Qed.

Lemma sorted_take_filter k l :
  StronglySorted (on_key le key) l →
  take (length (filter (λ x, le (key x) k) l)) l = filter (λ x, le (key x) k) l.
Proof.
  intros Hs. rewrite <- (sorted_split k l Hs) at 2. by rewrite take_app_length.
Qed.

End sorted_frames.

(** When no two rows share a key the sort has one possible result: every
    instance returns what merge sort returns. *)
Lemma sort_by_unique `{Sorter} {R K : Type} (le : relation K)
    `{!RelDecision le, !Transitive le, !Total le, !AntiSymm (=) le}
    (key : R → K) (l : list R) :
  (∀ x y, x ∈ l → y ∈ l → key x = key y → x = y) →
  sort_by le key l = merge_sort_by le key l.
Proof.
  intros Hinj. apply (StronglySorted_unique_strong (on_key le key)).
  - intros x y Hx Hy Hxy Hyx. rewrite sort_by_perm in Hx.
    unfold merge_sort_by in Hy. rewrite merge_sort_Permutation in Hy.
    apply Hinj; [done..|]. by apply (anti_symm le).
  - by apply sort_by_sorted.
  - apply StronglySorted_merge_sort; apply _.
  - unfold merge_sort_by. by rewrite sort_by_perm, merge_sort_Permutation.
Qed.
