(* ===== verification/Ledger.v ===== *)
(** * Ledger: the data frame, its loading and the sidebar filters

    Models lines 106-156 of [src/dash.py]: [process_data], the block that
    binds [df] from the uploaded file or from the sample stored in the
    session, and the two sidebar filters that produce [df_filtered].  A data
    frame is the list of its rows in file order.  A raw frame is what
    [pd.read_csv] returns: a date cell is [Some d] when [pd.to_datetime]
    accepts its text and [None] when it raises on it; an amount cell is
    [Some v] when [pd.to_numeric] reads a number and [None] when it coerces
    the text to NaN. *)

From S2P Require Import Prelude Numeric.

Local Open Scope string_scope.
Local Open Scope list_scope.

(** ** Dates

    [datetime.date] values, ordered as Python orders them: by year, then
    month, then day. *)

Record Date := mkDate { year : Z; month : Z; day : Z }.

Definition date_le (a b : Date) : Prop :=
  (year a < year b ∨
   (year a = year b ∧
    (month a < month b ∨ (month a = month b ∧ day a ≤ day b))))%Z.

#[export] Instance Date_eq_dec : EqDecision Date.
Proof. solve_decision. Defined.

#[export] Instance date_le_dec : RelDecision date_le.
Proof. intros a b. unfold date_le. apply _. Defined.

(** The month of a timestamp, [dt.to_period('M')]. *)
Record Period := mkPeriod { p_year : Z; p_month : Z }.

#[export] Instance Period_eq_dec : EqDecision Period.
Proof. solve_decision. Defined.

Definition to_period (d : Date) : Period :=
  {| p_year := year d; p_month := month d |}.

(** ** Rows *)

Section rows.
Context {A : Type} `{Num A}.

(** A row as [pd.read_csv] delivers it. *)
Record RawRow := mkRaw {
  raw_data : option Date;
  raw_descricao : string;
  raw_categoria : string;
  raw_valor : option A;
  raw_tipo : string;
  raw_tags : string;
}.

(** A row of the processed frame, with the added column [mes]. *)
Record Row := mkRow {
  data : Date;
  descricao : string;
  categoria : string;
  valor : A;
  tipo : string;
  tags : string;
  mes : Period;
}.

(** ** [process_data] (lines 106-111) *)

(** Line 107: [pd.to_datetime] converts the whole column or raises. *)
Definition to_datetime (df : list RawRow) : result (list (Date * RawRow)) :=
  foldr (λ r acc,
           match raw_data r with
           | Some d => let? rest := acc in Ok ((d, r) :: rest)
           | None => Err LoadError
           end) (Ok []) df.

(** Lines 108-109: [pd.to_numeric(errors='coerce')] followed by
    [dropna(subset=['valor'])]: the amount a row keeps, if any. *)
Definition numeric_valor (r : RawRow) : option A :=
  match raw_valor r with
  | Some v => if isnan v then None else Some v
  | None => None
  end.

(** Line 110 on one surviving row. *)
Definition clean_row (d : Date) (r : RawRow) (v : A) : Row :=
  {| data := d; descricao := raw_descricao r; categoria := raw_categoria r;
     valor := v; tipo := raw_tipo r; tags := raw_tags r;
     mes := to_period d |}.

Definition process_data (df : list RawRow) : result (list Row) :=
  let? dated := to_datetime df in
  Ok (omap (λ dr, clean_row dr.1 dr.2 <$> numeric_valor dr.2) dated).

(** The same, row by row: what becomes of one raw row when every date of
    the frame is accepted. *)
Definition clean_of (x : RawRow) : option Row :=
  d ← raw_data x; v ← numeric_valor x; Some (clean_row d x v).

(** ** Binding [df] (lines 113-124) *)

(** What the name [df] is bound to after line 124. *)
Inductive Frame :=
| NoFrame                       (* [df is None] *)
| RawFrame (raw : list RawRow)  (* bound by line 117, never processed *)
| Clean (rows : list Row).      (* the result of [process_data] *)

(** The message the loading block shows: none, the success of line 119 or
    the error of line 121 with the exception it names. *)
Inductive LoadMsg := MsgNone | MsgSuccess | MsgError (e : py_error).

(** [uploaded] is [None] when no file was uploaded, [Some (Err _)] when
    [pd.read_csv] raises on it and [Some (Ok raw)] when it returns a frame;
    [sample_df] is the session entry ['sample_df'].  The [try] covers both
    calls of the first branch; the [elif] branch has no handler, so there an
    exception of [process_data] ends the run. *)
Definition load_df (uploaded : option (result (list RawRow)))
    (sample_df : option (list RawRow)) : result (Frame * LoadMsg) :=
  match uploaded with
  | Some (Err e) => Ok (NoFrame, MsgError e)
  | Some (Ok raw) =>
      match process_data raw with
      | Ok rows => Ok (Clean rows, MsgSuccess)
      | Err e => Ok (RawFrame raw, MsgError e)
      end
  | None =>
      match sample_df with
      | Some raw => let? rows := process_data raw in Ok (Clean rows, MsgNone)
      | None => Ok (NoFrame, MsgNone)
      end
  end.

(** ** The period filter (lines 132-146) *)

(** [df['data'].min()] and [.max()] over the dates of the frame. *)
Definition date_min (a b : Date) : Date := if decide (date_le a b) then a else b.
Definition date_max (a b : Date) : Date := if decide (date_le a b) then b else a.

Definition min_date (df : list Row) : option Date :=
  match df with
  | [] => None
  | r :: df' => Some (foldl (λ m r', date_min m (data r')) (data r) df')
  end.

Definition max_date (df : list Row) : option Date :=
  match df with
  | [] => None
  | r :: df' => Some (foldl (λ m r', date_max m (data r')) (data r) df')
  end.

(** The value [st.date_input] starts with: the pair of bounds. *)
Definition default_date_range (df : list Row) : list Date :=
  match min_date df, max_date df with
  | Some lo, Some hi => [lo; hi]
  | _, _ => []
  end.

(** The mask of line 144. *)
Definition in_period (start_date end_date : Date) (r : Row) : Prop :=
  date_le start_date (data r) ∧ date_le (data r) end_date.

#[export] Instance in_period_dec s e r : Decision (in_period s e r).
Proof. unfold in_period. apply _. Defined.

(** Lines 142-146: the widget returns a tuple; only a complete pair
    filters. *)
Definition filter_period (date_range : list Date) (df : list Row) : list Row :=
  match date_range with
  | [start_date; end_date] => filter (in_period start_date end_date) df
  | _ => df
  end.

(** ** The category filter (lines 149-156) *)

Definition categorias_disponiveis (df_filtered : list Row) : list string :=
  unique (categoria <$> df_filtered).

Definition filter_categorias (categorias_selecionadas : list string)
    (df_filtered : list Row) : list Row :=
  filter (λ r, categoria r ∈ categorias_selecionadas) df_filtered.

(** Lines 132-156 as one step from [df] to [df_filtered]. *)
Definition sidebar_filters (date_range : list Date)
    (categorias_selecionadas : list string) (df : list Row) : list Row :=
  filter_categorias categorias_selecionadas (filter_period date_range df).

(** The columns the rest of the script selects by type. *)
Definition creditos (df : list Row) : list Row :=
  filter (λ r, tipo r = "credito") df.

Definition debitos (df : list Row) : list Row :=
  filter (λ r, tipo r = "debito") df.

(** Rows for the worked examples of the development: one of a given day,
    and one of a day of January 2024. *)
Definition dated_row (y m d : Z) (cat : string) (v : A) (t : string) : Row :=
  let dt := mkDate y m d in mkRow dt "x" cat v t "" (to_period dt).

Definition example_row (d : Z) (cat : string) (v : A) (t : string) : Row :=
  dated_row 2024 1 d cat v t.

End rows.

Arguments RawRow A : clear implicits.
Arguments Row A : clear implicits.
Arguments Frame A : clear implicits.

(** ** The order on dates *)

#[export] Instance date_le_preorder : PreOrder date_le.
Proof.
  split.
  - intros [y m d]. unfold date_le; simpl. lia.
  - intros [y1 m1 d1] [y2 m2 d2] [y3 m3 d3]. unfold date_le; simpl. lia.
Qed.

#[export] Instance date_le_total : Total date_le.
Proof. intros [y1 m1 d1] [y2 m2 d2]. unfold date_le; simpl. lia. Qed.

#[export] Instance date_le_antisymm : AntiSymm (=) date_le.
Proof.
  intros [y1 m1 d1] [y2 m2 d2]. unfold date_le; simpl. intros ??.
  f_equal; lia.
Qed.

Lemma date_min_le_l a b : date_le (date_min a b) a.
Proof.
  unfold date_min. case_decide; [done|]. by destruct (total date_le a b).
Qed.

Lemma date_min_le_r a b : date_le (date_min a b) b.
Proof. unfold date_min. by case_decide. Qed.

Lemma date_max_ge_l a b : date_le a (date_max a b).
Proof. unfold date_max. by case_decide. Qed.

Lemma date_max_ge_r a b : date_le b (date_max a b).
Proof.
  unfold date_max. case_decide; [done|]. by destruct (total date_le a b).
Qed.

#[export] Hint Resolve date_min_le_l date_min_le_r date_max_ge_l date_max_ge_r : dash.

Section ledger_facts.
Context {A : Type} `{Num A}.
Implicit Types (df : list (Row A)) (raw : list (RawRow A)) (r : Row A).

(** ** [process_data] *)

Lemma to_datetime_Err raw :
  (∃ x, x ∈ raw ∧ raw_data x = None) → to_datetime raw = Err LoadError.
Proof.
  induction raw as [|x raw IH]; intros (y & Hy & Hd).
  - by apply elem_of_nil in Hy.
  - simpl. destruct (raw_data x) eqn:E; [|done].
    apply elem_of_cons in Hy as [->|Hy]; [congruence|].
    rewrite IH by eauto. done.
Qed.

Lemma to_datetime_Ok raw :
  Forall (λ x, is_Some (raw_data x)) raw →
  to_datetime raw = Ok (omap (λ x, (λ d, (d, x)) <$> raw_data x) raw).
Proof.
  induction 1 as [|x raw [d Hd] _ IH]; [done|].
  simpl. rewrite Hd, IH. done.
Qed.

Lemma process_data_Ok raw :
  Forall (λ x, is_Some (raw_data x)) raw →
  process_data raw = Ok (omap clean_of raw).
Proof.
  intros Hall. unfold process_data. rewrite to_datetime_Ok by done.
  simpl. f_equal. rewrite omap_omap. apply omap_ext_all. intros x.
  unfold clean_of. destruct (raw_data x); [|done]. simpl.
  by destruct (numeric_valor x).
Qed.

(** [process_data] raises exactly when some date cell is rejected by
    [pd.to_datetime]; otherwise it returns one row per usable raw row. *)
Lemma process_data_cases raw :
  (Exists (λ x, raw_data x = None) raw ∧ process_data raw = Err LoadError) ∨
  (Forall (λ x, is_Some (raw_data x)) raw ∧
   process_data raw = Ok (omap clean_of raw)).
Proof.
  destruct (decide (Forall (λ x, is_Some (raw_data x)) raw)) as [Hall|Hnot].
  - right. split; [done|]. by apply process_data_Ok.
  - left. apply not_Forall_Exists in Hnot; [|apply _].
    assert (Hex : Exists (λ x, raw_data x = None) raw).
    { eapply Exists_impl; [exact Hnot|]. intros x Hx. simpl in Hx.
      destruct (raw_data x); [|done]. destruct Hx. eauto. }
    split; [done|]. unfold process_data.
    rewrite to_datetime_Err; [done|]. by apply Exists_exists in Hex.
Qed.


(** Every processed row carries the month of its own date. *)
Lemma process_data_mes raw df r :
  process_data raw = Ok df → r ∈ df → mes r = to_period (data r).
Proof.
  destruct (process_data_cases raw) as [[_ E]|[_ E]]; rewrite E; [done|].
  intros [= <-] (x & _ & Hx)%list_elem_of_omap. unfold clean_of in Hx.
  destruct (raw_data x); [|done]. simpl in Hx.
  destruct (numeric_valor x); [|done]. by inversion Hx.
Qed.

(** ** Binding [df] *)

(** When [pd.read_csv] succeeds and a date cell is then rejected, the
    handler shows the error but [df] stays bound to the unprocessed frame. *)
Theorem load_df_failed_upload_keeps_raw raw sample :
  Exists (λ x, raw_data x = None) raw →
  load_df (Some (Ok raw)) sample = Ok (RawFrame raw, MsgError LoadError).
Proof.
  intros Hex. unfold load_df.
  destruct (process_data_cases raw) as [[_ ->]|[Hall _]]; [done|].
  exfalso. apply Exists_exists in Hex as (x & Hx & Hd).
  rewrite Forall_forall in Hall. destruct (Hall x Hx). congruence.
Qed.

(** The same failure on the session's sample is not handled. *)
Lemma load_df_sample_raises raw :
  Exists (λ x, raw_data x = None) raw →
  load_df None (Some raw) = Err LoadError.
Proof.
  intros Hex. unfold load_df.
  destruct (process_data_cases raw) as [[_ ->]|[Hall _]]; [done|].
  exfalso. apply Exists_exists in Hex as (x & Hx & Hd).
  rewrite Forall_forall in Hall. destruct (Hall x Hx). congruence.
Qed.

(** ** The filters *)

Lemma foldl_date_min_le m df :
  date_le (foldl (λ m r', date_min m (data r')) m df) m ∧
  Forall (λ r, date_le (foldl (λ m r', date_min m (data r')) m df) (data r)) df.
Proof.
  revert m. induction df as [|r df IH]; intros m; simpl; [done|].
  destruct (IH (date_min m (data r))) as [Hm Hall]. split; [|constructor].
  - etrans; [exact Hm|]. auto with dash.
  - etrans; [exact Hm|]. auto with dash.
  - done.
Qed.

Lemma foldl_date_max_ge m df :
  date_le m (foldl (λ m r', date_max m (data r')) m df) ∧
  Forall (λ r, date_le (data r) (foldl (λ m r', date_max m (data r')) m df)) df.
Proof.
  revert m. induction df as [|r df IH]; intros m; simpl; [done|].
  destruct (IH (date_max m (data r))) as [Hm Hall]. split; [|constructor].
  - etrans; [|exact Hm]. auto with dash.
  - etrans; [|exact Hm]. auto with dash.
  - done.
Qed.

Lemma min_date_le df lo : min_date df = Some lo → Forall (λ r, date_le lo (data r)) df.
Proof.
  destruct df as [|r df]; [done|]. intros [= <-].
  destruct (foldl_date_min_le (data r) df). by constructor.
Qed.

Lemma max_date_ge df hi : max_date df = Some hi → Forall (λ r, date_le (data r) hi) df.
Proof.
  destruct df as [|r df]; [done|]. intros [= <-].
  destruct (foldl_date_max_ge (data r) df). by constructor.
Qed.

(** The bounds are dates of the frame. *)
Lemma foldl_date_min_elem m df :
  foldl (λ m r', date_min m (data r')) m df ∈ m :: (data <$> df).
Proof.
  revert m. induction df as [|r df IH]; intros m; simpl; [set_solver|].
  destruct (proj1 (elem_of_cons _ _ _) (IH (date_min m (data r))))
    as [->|Hin]; [|set_solver].
  unfold date_min. case_decide; set_solver.
Qed.

Lemma foldl_date_max_elem m df :
  foldl (λ m r', date_max m (data r')) m df ∈ m :: (data <$> df).
Proof.
  revert m. induction df as [|r df IH]; intros m; simpl; [set_solver|].
  destruct (proj1 (elem_of_cons _ _ _) (IH (date_max m (data r))))
    as [->|Hin]; [|set_solver].
  unfold date_max. case_decide; set_solver.
Qed.

Lemma min_date_elem df lo : min_date df = Some lo → lo ∈ data <$> df.
Proof.
  destruct df as [|r df]; [done|]. intros [= <-]. apply foldl_date_min_elem.
Qed.

Lemma max_date_elem df hi : max_date df = Some hi → hi ∈ data <$> df.
Proof.
  destruct df as [|r df]; [done|]. intros [= <-]. apply foldl_date_max_elem.
Qed.

(** With the date widget left at its initial value, the bounds of the
    frame, the period filter keeps every row. *)
Theorem filter_period_default df :
  filter_period (default_date_range df) df = df.
Proof.
  unfold default_date_range.
  destruct (min_date df) as [lo|] eqn:Hlo, (max_date df) as [hi|] eqn:Hhi;
    try done.
  simpl. apply filter_all.
  pose proof (min_date_le _ _ Hlo) as H1. pose proof (max_date_ge _ _ Hhi) as H2.
  rewrite Forall_forall in *. intros r Hr. split; auto.
Qed.

(** With the category widget left at its default, all available
    categories, the category filter keeps every row. *)
Theorem filter_categorias_default df :
  filter_categorias (categorias_disponiveis df) df = df.
Proof.
  unfold filter_categorias, categorias_disponiveis. apply filter_all.
  apply Forall_forall. intros r Hr. apply elem_of_unique.
  by apply list_elem_of_fmap_2.
Qed.

Lemma elem_of_filter_period s e df r :
  r ∈ filter_period [s; e] df ↔ r ∈ df ∧ date_le s (data r) ∧ date_le (data r) e.
Proof. simpl. rewrite list_elem_of_filter. unfold in_period. tauto. Qed.

(** A row outside the window leaves [df_filtered] as if it were not in the
    ledger. *)
Lemma sidebar_filters_outside s e cs df1 r df2 :
  ¬ in_period s e r →
  sidebar_filters [s; e] cs (df1 ++ r :: df2)
  = sidebar_filters [s; e] cs (df1 ++ df2).
Proof.
  intros Hr. unfold sidebar_filters. simpl.
  by rewrite !filter_app, filter_cons_False.
Qed.

Lemma filter_period_incomplete d df : filter_period [d] df = df.
Proof. done. Qed.

Lemma filter_period_idemp dr df :
  filter_period dr (filter_period dr df) = filter_period dr df.
Proof.
  destruct dr as [|s [|e [|??]]]; try done. simpl. apply filter_idemp.
Qed.

Lemma filter_categorias_idemp cs df :
  filter_categorias cs (filter_categorias cs df) = filter_categorias cs df.
Proof. apply filter_idemp. Qed.

Lemma filters_commute dr cs df :
  filter_categorias cs (filter_period dr df) =
  filter_period dr (filter_categorias cs df).
Proof.
  destruct dr as [|s [|e [|??]]]; try done. simpl. apply filter_comm.
Qed.

(** Applying the sidebar filters to their own output changes nothing:
    [df_filtered] is a fixed point of the selection that produced it. *)
Theorem sidebar_filters_idemp dr cs df :
  sidebar_filters dr cs (sidebar_filters dr cs df) = sidebar_filters dr cs df.
Proof.
  unfold sidebar_filters.
  rewrite <- (filters_commute dr cs (filter_period dr df)).
  by rewrite filter_period_idemp, filter_categorias_idemp.
Qed.

Lemma sidebar_filters_sublist dr cs df : sidebar_filters dr cs df `sublist_of` df.
Proof.
  unfold sidebar_filters, filter_categorias. etrans; [apply sublist_filter|].
  destruct dr as [|s [|e [|??]]]; try done. apply sublist_filter.
Qed.

Lemma categorias_disponiveis_NoDup df : NoDup (categorias_disponiveis df).
Proof. apply NoDup_unique. Qed.

Lemma elem_of_categorias_disponiveis df c :
  c ∈ categorias_disponiveis df ↔ ∃ r, r ∈ df ∧ categoria r = c.
Proof.
  unfold categorias_disponiveis. rewrite elem_of_unique, list_elem_of_fmap.
  naive_solver.
Qed.

(** The debit rows of a category, selected in one step or in two. *)
Lemma debitos_categoria df c :
  filter (λ r, categoria r = c) (debitos df)
  = filter (λ r, categoria r = c ∧ tipo r = "debito") df.
Proof. unfold debitos. by rewrite list_filter_filter. Qed.

End ledger_facts.

(** ** Witnesses *)

Section ledger_examples.
Local Open Scope Q_scope.

(** An upload whose second row has a date that [pd.to_datetime] rejects. *)
Definition upload_bad_date : list (RawRow Q) :=
  [ mkRaw (Some (mkDate 2024 1 15)) "Supermercado ABC" "Mercado" (Some (-150.5))
      "debito" "";
    mkRaw None "Salario" "Renda" (Some 3000) "credito" "" ].

Lemma load_df_failed_upload_keeps_raw_witness :
  load_df (Some (Ok upload_bad_date)) None
  = Ok (RawFrame upload_bad_date, MsgError LoadError).
Proof.
  apply (load_df_failed_upload_keeps_raw upload_bad_date None).
  apply Exists_cons_tl, Exists_cons_hd. reflexivity.
Defined.

End ledger_examples.
