(* ===== verification/Format.v ===== *)
(** * Format: the strings the script shows

    The date and amount formats of [src/dash.py]: [strftime('%d/%m/%Y')]
    (line 461), [strftime('%Y-%m-%d')] (line 95), the label of a monthly
    period (lines 397 and 406) and the
    amount format [,.2f] of the headline cards, the progress metrics, the
    table and the statistics (lines 168-184, 314-317, 460, 483 and 487) and
    the format [.1f] of the bar texts (lines 296-307).  Numbers are written in
    decimal digits by [zfill]; an amount is rounded to hundredths, ties to
    even, as Python rounds the exact value of a float, and its integer part
    is grouped by thousands.  [Printable] gives the formatter the sign and
    magnitude of a number, for the rationals and for binary64.  The lemmas
    show how formatted dates compare as strings, which is what the table
    sorts by, that digits written are read back by [digits_from], that the
    text of an amount depends on the number and not on the fraction that
    denotes it, and that the grouping by thousands is the well-founded
    recursion on the number ([group3_wf]), so that formatting terminates. *)

From Stdlib Require Import Floats Qround.
From Equations Require Import Equations.
From stdpp Require Import pretty.
From S2P Require Import Prelude Numeric Frame Ledger.

Local Open Scope string_scope.
Local Open Scope list_scope.

(** ** Decimal digits *)

Definition digit_char (d : Z) : Ascii.ascii :=
  Ascii.ascii_of_N (48 + Z.to_N d).

(** [n] in [w] decimal digits, padded with zeros on the left. *)
Fixpoint zfill (w : nat) (n : Z) : string :=
  match w with
  | O => ""
  | S w' => zfill w' (n / 10) +:+ String (digit_char (n mod 10)) ""
  end.

(** [strftime('%d/%m/%Y')] (line 461). *)
Definition strftime_dmy (d : Date) : string :=
  zfill 2 (day d) +:+ "/" +:+ zfill 2 (month d) +:+ "/" +:+ zfill 4 (year d).

(** [str] of a monthly period, as in the labels of line 397. *)
Definition period_str (p : Period) : string :=
  zfill 4 (p_year p) +:+ "-" +:+ zfill 2 (p_month p).

(** [strftime('%Y-%m-%d')] (line 95). *)
Definition strftime_ymd (d : Date) : string :=
  zfill 4 (year d) +:+ "-" +:+ zfill 2 (month d) +:+ "-" +:+ zfill 2 (day d).

(** The value of a decimal digit. *)
Definition digit_of (c : Ascii.ascii) : option Z :=
  let n := Ascii.N_of_ascii c in
  if ((48 <=? n) && (n <=? 57))%N then Some (Z.of_N (n - 48)) else None.

(** The number a text of decimal digits denotes, read after [acc]. *)
Fixpoint digits_from (acc : Z) (s : string) : option Z :=
  match s with
  | EmptyString => Some acc
  | String c s => d ← digit_of c; digits_from (10 * acc + d)%Z s
  end.

(** A calendar date a timestamp can hold. *)
Definition valid_date (d : Date) : Prop :=
  (1 ≤ day d ≤ 31 ∧ 1 ≤ month d ≤ 12 ∧ 0 ≤ year d ≤ 9999)%Z.

#[export] Instance valid_date_dec d : Decision (valid_date d).
Proof. unfold valid_date. apply _. Defined.

(** The order in which the formatted dates compare: day first, then month,
    then year. *)
Definition dmy_compare (a b : Date) : comparison :=
  match (day a ?= day b)%Z with
  | Eq => match (month a ?= month b)%Z with
          | Eq => (year a ?= year b)%Z
          | c => c
          end
  | c => c
  end.

Definition dmy_le (a b : Date) : Prop := dmy_compare a b ≠ Gt.

#[export] Instance dmy_le_dec : RelDecision dmy_le.
Proof. intros a b. unfold dmy_le. apply _. Defined.

(** ** Comparing strings of equal length *)

Lemma string_compare_app a b s t :
  String.length a = String.length b →
  String.compare (a +:+ s) (b +:+ t)
  = match String.compare a b with
    | Eq => String.compare s t
    | c => c
    end.
Proof.
  revert b. induction a as [|x a IH]; intros [|y b] Hl; try done. simpl.
  destruct (Ascii.compare x y); [|done..]. apply IH. by injection Hl.
Qed.

Lemma string_length_app a b :
  String.length (a +:+ b) = (String.length a + String.length b)%nat.
Proof. induction a as [|x a IH]; simpl; [done|]. by rewrite IH. Qed.

Lemma length_zfill w n : String.length (zfill w n) = w.
Proof.
  revert n. induction w as [|w IH]; intros n; [done|]. simpl.
  rewrite string_length_app, IH. simpl. lia.
Qed.

Lemma digit_char_compare a b :
  (0 ≤ a < 10)%Z → (0 ≤ b < 10)%Z →
  Ascii.compare (digit_char a) (digit_char b) = (a ?= b)%Z.
Proof.
  intros Ha Hb. unfold Ascii.compare, digit_char.
  rewrite !Ascii.N_ascii_embedding by lia.
  destruct (N.compare_spec (48 + Z.to_N a) (48 + Z.to_N b)),
    (Z.compare_spec a b); try done; lia.
Qed.

(** Numbers written in the same number of digits compare as strings the way
    they compare as numbers. *)
Lemma compare_zfill w n m :
  (0 ≤ n < 10 ^ Z.of_nat w)%Z → (0 ≤ m < 10 ^ Z.of_nat w)%Z →
  String.compare (zfill w n) (zfill w m) = (n ?= m)%Z.
Proof.
  revert n m. induction w as [|w IH]; intros n m Hn Hm.
  - simpl in *. assert (n = m) as -> by lia. by rewrite Z.compare_refl.
  - rewrite Nat2Z.inj_succ, Z.pow_succ_r in Hn, Hm by lia. simpl.
    rewrite string_compare_app by by rewrite !length_zfill.
    rewrite IH by (Z.div_mod_to_equations; lia). simpl.
    rewrite digit_char_compare by (Z.div_mod_to_equations; lia).
    destruct (Z.compare_spec (n / 10) (m / 10)),
      (Z.compare_spec (n mod 10) (m mod 10)), (Z.compare_spec n m);
      try done; Z.div_mod_to_equations; lia.
Qed.

Lemma compare_zfill_app w n m s t :
  (0 ≤ n < 10 ^ Z.of_nat w)%Z → (0 ≤ m < 10 ^ Z.of_nat w)%Z →
  String.compare (zfill w n +:+ s) (zfill w m +:+ t)
  = match (n ?= m)%Z with
    | Eq => String.compare s t
    | c => c
    end.
Proof.
  intros Hn Hm.
  rewrite (string_compare_app (zfill w n) (zfill w m))
    by by rewrite !length_zfill.
  by rewrite compare_zfill.
Qed.

Lemma compare_sep_app sep s t :
  String.compare (sep +:+ s) (sep +:+ t) = String.compare s t.
Proof.
  rewrite (string_compare_app sep sep) by done. by rewrite string_compare_refl.
Qed.

(** The formatted dates compare by day, then month, then year. *)
Lemma compare_strftime_dmy a b :
  valid_date a → valid_date b →
  String.compare (strftime_dmy a) (strftime_dmy b) = dmy_compare a b.
Proof.
  intros (Hd1 & Hm1 & Hy1) (Hd2 & Hm2 & Hy2). unfold strftime_dmy, dmy_compare.
  rewrite compare_zfill_app by (simpl; lia).
  destruct (day a ?= day b)%Z; [|done..].
  rewrite (compare_sep_app "/").
  rewrite compare_zfill_app by (simpl; lia).
  destruct (month a ?= month b)%Z; [|done..].
  rewrite (compare_sep_app "/").
  apply compare_zfill; simpl; lia.
Qed.

(** Distinct dates are shown differently. *)
Lemma strftime_dmy_inj a b :
  valid_date a → valid_date b → strftime_dmy a = strftime_dmy b → a = b.
Proof.
  intros Ha Hb Hs. pose proof (compare_strftime_dmy a b Ha Hb) as Hc.
  rewrite Hs, string_compare_refl in Hc. unfold dmy_compare in Hc.
  destruct a, b; simpl in *.
  repeat match type of Hc with
    | Eq = match (?x ?= ?y)%Z with _ => _ end =>
        destruct (Z.compare_spec x y); try done; subst
    | Eq = (?x ?= ?y)%Z =>
        destruct (Z.compare_spec x y); try done; subst
    end.
  done.
Qed.

Lemma string_le_strftime_dmy a b :
  valid_date a → valid_date b →
  string_le (strftime_dmy a) (strftime_dmy b) ↔ dmy_le a b.
Proof.
  intros Ha Hb. unfold string_le, String.leb, dmy_le.
  rewrite compare_strftime_dmy by done. by destruct (dmy_compare a b).
Qed.

(** ** Reading digits back *)

Section digits.
Local Open Scope Z_scope.

Lemma digit_of_digit_char k : 0 ≤ k ≤ 9 → digit_of (digit_char k) = Some k.
Proof.
  intros Hk.
  assert (k = 0 ∨ k = 1 ∨ k = 2 ∨ k = 3 ∨ k = 4 ∨ k = 5 ∨ k = 6 ∨ k = 7 ∨
          k = 8 ∨ k = 9) by lia.
  by destruct_or!; subst k.
Qed.

Lemma digit_of_Some c k : digit_of c = Some k → 0 ≤ k ≤ 9 ∧ digit_char k = c.
Proof.
  unfold digit_of, digit_char. case_match eqn:Hb; [|done]. intros [= <-].
  apply andb_prop in Hb as [H1%N.leb_le H2%N.leb_le]. split; [lia|].
  rewrite N2Z.id.
  replace (48 + (Ascii.N_of_ascii c - 48))%N with (Ascii.N_of_ascii c) by lia.
  apply Ascii.ascii_N_embedding.
Qed.

Lemma digits_from_app acc s1 s2 :
  digits_from acc (s1 +:+ s2) = acc' ← digits_from acc s1; digits_from acc' s2.
Proof.
  revert acc. induction s1 as [|c s1 IH]; intros acc; [reflexivity|].
  change (String c s1 +:+ s2) with (String c (s1 +:+ s2)).
  cbn [digits_from]. destruct (digit_of c); [|done]. apply IH.
Qed.

Lemma digits_from_zfill w acc n :
  0 ≤ n < 10 ^ Z.of_nat w →
  digits_from acc (zfill w n) = Some (acc * 10 ^ Z.of_nat w + n).
Proof.
  revert n. induction w as [|w IH]; intros n Hn.
  - simpl in *. f_equal. lia.
  - rewrite Nat2Z.inj_succ, Z.pow_succ_r in * by lia.
    cbn [zfill]. rewrite digits_from_app, IH by (Z.div_mod_to_equations; lia).
    cbn [mbind option_bind digits_from].
    rewrite digit_of_digit_char by (Z.div_mod_to_equations; lia).
    cbn [mbind option_bind]. f_equal. Z.div_mod_to_equations. lia.
Qed.

(** A number written in [w] digits is read back. *)
Lemma digits_zfill w n :
  0 ≤ n < 10 ^ Z.of_nat w → digits_from 0 (zfill w n) = Some n.
Proof. intros Hn. by rewrite digits_from_zfill. Qed.

Lemma zfill_digits2 a b :
  0 ≤ a ≤ 9 → 0 ≤ b ≤ 9 →
  zfill 2 (10 * a + b) = String (digit_char a) (String (digit_char b) "").
Proof.
  intros Ha Hb. lazy [zfill String.append].
  repeat f_equal; Z.div_mod_to_equations; lia.
Qed.

Lemma zfill_digits4 a b c e :
  0 ≤ a ≤ 9 → 0 ≤ b ≤ 9 → 0 ≤ c ≤ 9 → 0 ≤ e ≤ 9 →
  zfill 4 (10 * (10 * (10 * a + b) + c) + e)
  = String (digit_char a) (String (digit_char b)
      (String (digit_char c) (String (digit_char e) ""))).
Proof.
  intros Ha Hb Hc He. lazy [zfill String.append].
  repeat f_equal; Z.div_mod_to_equations; lia.
Qed.

(** Two digits that are read are the number written in two digits. *)
Lemma digits_from_2 s n :
  String.length s = 2%nat → digits_from 0 s = Some n → zfill 2 n = s.
Proof.
  destruct s as [|c1 [|c2 [|c3 s]]]; try done. intros _. cbn [digits_from].
  destruct (digit_of c1) as [a|] eqn:H1; [|done].
  destruct (digit_of c2) as [b|] eqn:H2; [|done]. intros [= <-].
  apply digit_of_Some in H1 as [Ha <-], H2 as [Hb <-].
  by rewrite <- zfill_digits2.
Qed.

Lemma digits_from_4 s n :
  String.length s = 4%nat → digits_from 0 s = Some n → zfill 4 n = s.
Proof.
  destruct s as [|c1 [|c2 [|c3 [|c4 [|c5 s]]]]]; try done. intros _.
  cbn [digits_from].
  destruct (digit_of c1) as [a|] eqn:H1; [|done].
  destruct (digit_of c2) as [b|] eqn:H2; [|done].
  destruct (digit_of c3) as [c|] eqn:H3; [|done].
  destruct (digit_of c4) as [e|] eqn:H4; [|done]. intros [= <-].
  apply digit_of_Some in H1 as [Ha <-], H2 as [Hb <-], H3 as [Hc <-],
    H4 as [He <-].
  by rewrite <- zfill_digits4.
Qed.

End digits.

(** ** Amounts: the format [,.2f] *)

(** What a number is to the formatter: not a number, an infinity, or a sign
    and a magnitude. *)
Inductive fvalue :=
| FNan
| FInf (neg : bool)
| FFinite (neg : bool) (mag : Q).

Class Printable (A : Type) := fvalue_of : A → fvalue.

#[export] Instance Q_printable : Printable Q :=
  λ q, FFinite (bool_decide (q < 0)%Q) (Qabs q).

#[export] Instance F_printable : Printable float :=
  λ f, match Prim2SF f with
       | S754_zero s => FFinite s 0
       | S754_infinity s => FInf s
       | S754_nan => FNan
       | S754_finite s m e => FFinite s (inject_Z (Zpos m) * Qpower 2 e)
       end.

(** Rounding to the nearest integer, ties to the even one. *)
Definition round_half_even (q : Q) : Z :=
  let n := Qnum q in
  let d := Zpos (Qden q) in
  let fl := (n / d)%Z in
  let r2 := (2 * (n mod d))%Z in
  if (r2 <? d)%Z then fl
  else if (d <? r2)%Z then (fl + 1)%Z
  else if Z.even fl then fl else (fl + 1)%Z.

(** A number below 1000 without padding. *)
Definition decimal3 (n : Z) : string :=
  if (n <? 10)%Z then zfill 1 n
  else if (n <? 100)%Z then zfill 2 n
  else zfill 3 n.

(** Digits in groups of three separated by commas. *)
Fixpoint group3_fuel (fuel : nat) (n : Z) : string :=
  match fuel with
  | O => decimal3 n
  | S fuel' =>
      if (n <? 1000)%Z then decimal3 n
      else group3_fuel fuel' (n / 1000) +:+ "," +:+ zfill 3 (n mod 1000)
  end.

Definition group3 (n : Z) : string :=
  group3_fuel (S (Z.to_nat (Z.log2 n))) n.

(** The same grouping by recursion on the number itself: each step divides
    it by 1000, so the recursion is well founded and needs no fuel. *)
Equations? group3_wf (n : Z) : string by wf (Z.to_nat n) lt :=
  group3_wf n with Z_lt_dec n 1000 := {
    | left _ => decimal3 n
    | right _ => group3_wf (n / 1000) +:+ "," +:+ zfill 3 (n mod 1000) }.
Proof. Z.div_mod_to_equations. lia. Qed.

(** The amount in hundredths, rounded. *)
Definition cents (mag : Q) : Z := round_half_even (mag * 100).

Definition format_2f (v : fvalue) : string :=
  match v with
  | FNan => "nan"
  | FInf neg => if neg then "-inf" else "inf"
  | FFinite neg mag =>
      let c := cents mag in
      (if neg then "-" else "")
        +:+ group3 (c / 100) +:+ "." +:+ zfill 2 (c mod 100)
  end.

(** The format [.1f] of the bar texts (lines 296-307): one decimal, no
    grouping. *)
Definition tenths (mag : Q) : Z := round_half_even (mag * 10).

Definition format_1f (v : fvalue) : string :=
  match v with
  | FNan => "nan"
  | FInf neg => if neg then "-inf" else "inf"
  | FFinite neg mag =>
      let t := tenths mag in
      (if neg then "-" else "")
        +:+ pretty (t / 10)%Z +:+ "." +:+ zfill 1 (t mod 10)
  end.

(** [f"R$ {x:,.2f}"]. *)
Definition format_money `{Printable A} (x : A) : string :=
  "R$ " +:+ format_2f (fvalue_of x).

(** ** Rounding and grouping *)

(** The rounded value is within half a unit, and even on a tie. *)
Lemma round_half_even_Z (n : Z) (d : positive) :
  let z := round_half_even (n # d) in
  (2 * Z.abs (n - z * Zpos d) ≤ Zpos d)%Z ∧
  ((2 * Z.abs (n - z * Zpos d) = Zpos d)%Z → Z.even z = true).
Proof.
  unfold round_half_even. simpl.
  pose proof (Z.div_mod n (Zpos d) ltac:(done)) as Hdm.
  pose proof (Z.mod_pos_bound n (Zpos d) ltac:(done)) as Hr.
  set (q := (n / Zpos d)%Z) in *. set (r := (n mod Zpos d)%Z) in *.
  assert (Hq : (n - q * Zpos d = r)%Z) by lia.
  assert (Hq1 : (n - (q + 1) * Zpos d = r - Zpos d)%Z) by lia.
  repeat case_match; rewrite ?Hq, ?Hq1;
    repeat match goal with
      | H : (_ <? _)%Z = true |- _ => apply Z.ltb_lt in H
      | H : (_ <? _)%Z = false |- _ => apply Z.ltb_ge in H
      end; (split; [lia|]); try lia; intros _; try done.
  rewrite Z.even_add. by destruct (Z.even q).
Qed.

Lemma round_half_even_error (q : Q) :
  (Qabs (q - inject_Z (round_half_even q)) <= 1 # 2)%Q.
Proof.
  destruct q as [n d]. destruct (round_half_even_Z n d) as [Hz _].
  set (z := round_half_even (n # d)) in *.
  unfold Qle, Qabs, Qminus, Qplus, Qopp, inject_Z. simpl. lia.
Qed.

Lemma sign_scaled (x1 x2 d1 d2 : Z) :
  (0 < d1 → 0 < d2 → x1 * d2 = x2 * d1 →
   (x1 < 0 ↔ x2 < 0) ∧ (0 < x1 ↔ 0 < x2))%Z.
Proof. intros. nia. Qed.

(** Rounding depends on the number, not on the fraction that denotes it. *)
#[export] Instance round_half_even_proper : Proper (Qeq ==> eq) round_half_even.
Proof.
  intros [n1 d1] [n2 d2] Hq. unfold Qeq in Hq. simpl in Hq.
  assert (Hfl : (n1 / Zpos d1 = n2 / Zpos d2)%Z).
  { change (Qfloor (n1 # d1) = Qfloor (n2 # d2)). by apply Qfloor_comp. }
  unfold round_half_even. cbn [Qnum Qden]. rewrite <- Hfl.
  set (fl := (n1 / Zpos d1)%Z) in *.
  assert (Hm1 : (n1 mod Zpos d1 = n1 - Zpos d1 * fl)%Z)
    by (unfold fl; rewrite Z.mod_eq; lia).
  assert (Hm2 : (n2 mod Zpos d2 = n2 - Zpos d2 * fl)%Z)
    by (rewrite Hfl; rewrite Z.mod_eq; lia).
  rewrite Hm1, Hm2.
  destruct (sign_scaled (2 * (n1 - Zpos d1 * fl) - Zpos d1)
              (2 * (n2 - Zpos d2 * fl) - Zpos d2) (Zpos d1) (Zpos d2))
    as [Hlt Hgt]; [lia|lia|nia|].
  repeat case_match;
    repeat match goal with
      | H : (_ <? _)%Z = true |- _ => apply Z.ltb_lt in H
      | H : (_ <? _)%Z = false |- _ => apply Z.ltb_ge in H
      end; lia.
Qed.

(** Equal amounts are shown by the same text. *)
Lemma format_2f_Qeq (q1 q2 : Q) :
  (q1 == q2)%Q → format_2f (fvalue_of q1) = format_2f (fvalue_of q2).
Proof.
  intros Hq. unfold fvalue_of, Q_printable, format_2f, cents.
  assert (bool_decide (q1 < 0)%Q = bool_decide (q2 < 0)%Q) as ->
    by (apply bool_decide_ext; by rewrite Hq).
  assert (round_half_even (Qabs q1 * 100) = round_half_even (Qabs q2 * 100))
    as -> by (by rewrite Hq).
  done.
Qed.

#[export] Instance format_money_proper :
  Proper (Qeq ==> eq) (format_money (A:=Q)).
Proof.
  intros q1 q2 Hq. unfold format_money. by rewrite (format_2f_Qeq q1 q2).
Qed.

(** Any fuel above the binary length of the number gives the same string:
    the fuel [group3] passes is enough. *)
Lemma group3_fuel_enough f1 f2 n :
  (0 ≤ n < 2 ^ Z.of_nat f1)%Z → (n < 2 ^ Z.of_nat f2)%Z →
  group3_fuel f1 n = group3_fuel f2 n.
Proof.
  revert f2 n. induction f1 as [|f1 IH]; intros [|f2] n Hn1 Hn2; try done.
  - simpl in *. assert (n = 0)%Z as -> by lia. done.
  - simpl in *. assert (n = 0)%Z as -> by lia. done.
  - simpl. case_match; [done|]. f_equal. 
    rewrite Nat2Z.inj_succ, Z.pow_succ_r in Hn1, Hn2 by lia.
    apply IH; Z.div_mod_to_equations; lia.
Qed.

Lemma group3_unfold n :
  (0 ≤ n)%Z →
  group3 n = if (n <? 1000)%Z then decimal3 n
             else group3 (n / 1000) +:+ "," +:+ zfill 3 (n mod 1000).
Proof.
  intros Hn. unfold group3 at 1. cbn [group3_fuel].
  case_match eqn:Hlt; [done|]. apply Z.ltb_ge in Hlt. f_equal.
  assert (Hlog : ∀ m, (0 ≤ m → m < 2 ^ Z.of_nat (S (Z.to_nat (Z.log2 m))))%Z).
  { intros m Hm. rewrite Nat2Z.inj_succ, Z2Nat.id by apply Z.log2_nonneg.
    destruct (decide (m = 0%Z)) as [->|Hm0]; [done|]. apply Z.log2_spec. lia. }
  apply group3_fuel_enough.
  - split; [Z.div_mod_to_equations; lia|].
    rewrite Z2Nat.id by apply Z.log2_nonneg.
    pose proof (Hlog n Hn) as Hb.
    rewrite Nat2Z.inj_succ, Z2Nat.id, Z.pow_succ_r in Hb
      by apply Z.log2_nonneg.
    Z.div_mod_to_equations; lia.
  - apply Hlog. Z.div_mod_to_equations; lia.
Qed.

(** The fuel of [group3] never runs out: it yields what the recursion
    without fuel yields. *)
Lemma group3_wf_eq n : group3 n = group3_wf n.
Proof.
  funelim (group3_wf n).
  - unfold group3. cbn [group3_fuel]. by rewrite (proj2 (Z.ltb_lt n 1000)).
  - rewrite group3_unfold, (proj2 (Z.ltb_ge n 1000)) by lia. by rewrite H.
Qed.


(** The format on amounts of the script: grouping, rounding of ties to the
    even hundredth, the sign of an amount that rounds to zero, the binary
    value of 2.675, and not-a-number. *)
Example format_money_examples :
  format_money (1234567.891)%Q = "R$ 1,234,567.89" ∧
  format_money (-1234.5)%Q = "R$ -1,234.50" ∧
  format_money (0.125)%Q = "R$ 0.12" ∧
  format_money (0.375)%Q = "R$ 0.38" ∧
  format_money (-0.001)%Q = "R$ -0.00" ∧
  format_money (2.675)%float = "R$ 2.67" ∧
  format_money (1e6)%float = "R$ 1,000,000.00" ∧
  format_money (PrimFloat.div 0 0) = "R$ nan".
Proof. vm_compute. repeat split. Qed.
