(* ===== verification/Calendar.v ===== *)
(** * Calendar: counting days

    The number of days between two dates, which the script obtains by
    subtracting two timestamps and reading [.days] (line 490 of
    [src/dash.py]).  [days_from_civil] numbers the days of the proleptic
    Gregorian calendar from 1 January 1970; the lemmas show that it moves by
    one from each day to the next and grows with the date, so a difference
    of two of its values counts calendar days.  [to_datetime_ymd] reads a
    date written as [YYYY-MM-DD], the form in which the sample stores its
    dates (line 95) and [pd.to_datetime] reads them back (line 107); the
    round-trip theorems show that writing and reading are inverse on the
    dates of the calendar.  [to_datetime_slash] reads the other form the
    instructions of the page name, [DD/MM/YYYY] (line 500), the way
    [pd.to_datetime] reads one such text when [dayfirst] is not given: the
    first field is the month whenever it can be.  The last theorem shows
    what then becomes of a date written by [strftime('%d/%m/%Y')]. *)

From Stdlib Require Import Ascii.
From S2P Require Import Prelude Ledger Format.

(** ** The calendar *)

Section calendar.
Local Open Scope Z_scope.

Definition is_leap (y : Z) : bool :=
  (y mod 4 =? 0) && (negb (y mod 100 =? 0) || (y mod 400 =? 0)).

Definition days_in_month (y m : Z) : Z :=
  if m =? 2 then (if is_leap y then 29 else 28)
  else if (m =? 4) || (m =? 6) || (m =? 9) || (m =? 11) then 30
  else 31.

(** A date of the calendar. *)
Definition calendar_date (d : Date) : Prop :=
  1 ≤ month d ≤ 12 ∧ 1 ≤ day d ≤ days_in_month (year d) (month d).

#[export] Instance calendar_date_dec d : Decision (calendar_date d).
Proof. unfold calendar_date. apply _. Defined.

(** The day after. *)
Definition next_day (d : Date) : Date :=
  if day d <? days_in_month (year d) (month d)
  then mkDate (year d) (month d) (day d + 1)
  else if month d <? 12 then mkDate (year d) (month d + 1) 1
  else mkDate (year d + 1) 1 1.

(** The number of a day, counted from 1 January 1970: the difference of two
    of them is the [.days] of the difference of two timestamps. *)
Definition days_from_civil (d : Date) : Z :=
  let y := if month d <=? 2 then year d - 1 else year d in
  let era := y / 400 in
  let yoe := y - era * 400 in
  let mp := (month d + 9) mod 12 in
  let doy := (153 * mp + 2) / 5 + day d - 1 in
  let doe := yoe * 365 + yoe / 4 - yoe / 100 + doy in
  era * 146097 + doe - 719468.

(** [pd.to_datetime] on a text of the form [YYYY-MM-DD]: the date it
    denotes, when that is a date of the calendar. *)
Definition to_datetime_ymd (s : string) : option Date :=
  let field := λ a n, digits_from 0 (String.substring a n s) in
  if decide (String.length s = 10%nat ∧ String.get 4 s = Some "-"%char
             ∧ String.get 7 s = Some "-"%char)
  then y ← field 0%nat 4%nat; m ← field 5%nat 2%nat; d ← field 8%nat 2%nat;
       let date := mkDate y m d in
       if decide (calendar_date date) then Some date else None
  else None.

(** [pd.to_datetime] on one text of the form [NN/NN/YYYY], without
    [dayfirst]: the first field is the month whenever that gives a date,
    and the day otherwise. *)
Definition to_datetime_slash (s : string) : option Date :=
  let field := λ a n, digits_from 0 (String.substring a n s) in
  if decide (String.length s = 10%nat ∧ String.get 2 s = Some "/"%char
             ∧ String.get 5 s = Some "/"%char)
  then a ← field 0%nat 2%nat; b ← field 3%nat 2%nat; y ← field 6%nat 4%nat;
       if decide (calendar_date (mkDate y a b)) then Some (mkDate y a b)
       else if decide (calendar_date (mkDate y b a)) then Some (mkDate y b a)
       else None
  else None.

(** [pd.to_datetime] on one text in either form the instructions name
    (line 500). *)
Definition to_datetime_text (s : string) : option Date :=
  match to_datetime_ymd s with
  | Some d => Some d
  | None => to_datetime_slash s
  end.

End calendar.

(** ** The day count *)

Section calendar_facts.
Local Open Scope Z_scope.

Ltac month_cases m :=
  assert (m = 1 ∨ m = 2 ∨ m = 3 ∨ m = 4 ∨ m = 5 ∨ m = 6 ∨ m = 7 ∨ m = 8 ∨
          m = 9 ∨ m = 10 ∨ m = 11 ∨ m = 12) by lia; destruct_or!; subst m.

Ltac split_ifs :=
  repeat match goal with
    | H : context [if ?b then _ else _] |- _ => destruct b eqn:?; simpl in *
    | |- context [if ?b then _ else _] => destruct b eqn:?; simpl in *
    end.

(** The day count moves by one from a day to the next, over the ends of
    months and years and over 29 February. *)
Theorem days_from_civil_next d :
  calendar_date d → days_from_civil (next_day d) = days_from_civil d + 1.
Proof.
  destruct d as [y m d].
  unfold calendar_date, next_day, days_from_civil, days_in_month, is_leap.
  simpl. intros [Hm Hd]. month_cases m; simpl in *; split_ifs; simpl;
    try lia; Z.div_mod_to_equations; lia.
Qed.

Lemma next_day_calendar d : calendar_date d → calendar_date (next_day d).
Proof.
  destruct d as [y m d].
  unfold calendar_date, next_day, days_in_month, is_leap.
  simpl. intros [Hm Hd]. month_cases m; simpl in *; split_ifs; simpl in *;
    lia.
Qed.

(** A later date has a larger count. *)
Lemma days_from_civil_lt a b :
  calendar_date a → calendar_date b →
  date_le a b → a ≠ b → days_from_civil a < days_from_civil b.
Proof.
  destruct a as [y1 m1 d1], b as [y2 m2 d2].
  unfold calendar_date, days_from_civil, days_in_month, is_leap, date_le.
  simpl. intros [Hm1 Hd1] [Hm2 Hd2] Hle Hne.
  assert (y1 < y2 ∨ (y1 = y2 ∧ (m1 < m2 ∨ (m1 = m2 ∧ d1 < d2)))) as Hlt.
  { destruct (decide (d1 = d2)) as [->|?]; [|lia].
    destruct (decide (m1 = m2)) as [->|?]; [|lia].
    destruct (decide (y1 = y2)) as [->|?]; [done|lia]. }
  clear Hle Hne.
  month_cases m1; month_cases m2; simpl in *; split_ifs;
    try lia; Z.div_mod_to_equations; lia.
Qed.

Lemma days_from_civil_le a b :
  calendar_date a → calendar_date b →
  date_le a b → days_from_civil a ≤ days_from_civil b.
Proof.
  intros Ha Hb Hle. destruct (decide (a = b)) as [->|Hne]; [done|].
  by apply Z.lt_le_incl, days_from_civil_lt.
Qed.

(** ** Dates written and read *)

Lemma days_in_month_bounds y m : 28 ≤ days_in_month y m ≤ 31.
Proof. unfold days_in_month. repeat case_match; lia. Qed.

Lemma calendar_date_day d : calendar_date d → 1 ≤ day d ≤ 31.
Proof.
  intros [_ Hd]. pose proof (days_in_month_bounds (year d) (month d)). lia.
Qed.

(** C22: a date of the calendar written by [strftime('%Y-%m-%d')] is read
    back by [pd.to_datetime] as the same date, for every year of four
    digits: the text column of the sample denotes the dates it was built
    from. *)
Theorem to_datetime_strftime_ymd d :
  calendar_date d → 0 ≤ year d ≤ 9999 →
  to_datetime_ymd (strftime_ymd d) = Some d.
Proof.
  intros Hc Hy. pose proof (calendar_date_day d Hc) as Hdd.
  destruct d as [y m dd]. pose proof Hc as [Hm _]. simpl in *.
  pose proof (digits_zfill 4 y ltac:(simpl; lia)) as Hy4.
  pose proof (digits_zfill 2 m ltac:(simpl; lia)) as Hm2.
  pose proof (digits_zfill 2 dd ltac:(simpl; lia)) as Hd2.
  unfold to_datetime_ymd, strftime_ymd. cbn [year month day].
  lazy [zfill String.append String.length String.get String.substring Nat.eqb]
    in *.
  rewrite decide_True, Hy4, Hm2, Hd2 by done. cbn [mbind option_bind].
  by rewrite decide_True.
Qed.

(** Conversely, a text that is read as a date is that date as
    [strftime('%Y-%m-%d')] writes it, and the date is of the calendar. *)
Lemma strftime_to_datetime_ymd s d :
  to_datetime_ymd s = Some d → strftime_ymd d = s ∧ calendar_date d.
Proof.
  unfold to_datetime_ymd. case_decide as Hs; [|done].
  destruct Hs as (Hlen & H4 & H7).
  destruct s as [|c0 [|c1 [|c2 [|c3 [|c4 [|c5 [|c6 [|c7 [|c8 [|c9 [|c s]]]]]]]]]]];
    try done.
  cbv in H4, H7. simplify_eq.
  lazy [String.substring].
  destruct (digits_from 0 (String c0 _)) as [y|] eqn:Hy; [|done].
  destruct (digits_from 0 (String c5 _)) as [m|] eqn:Hm; [|done].
  destruct (digits_from 0 (String c8 _)) as [dd|] eqn:Hd; [|done].
  cbn [mbind option_bind]. case_decide; [|done]. intros [= <-].
  apply digits_from_4 in Hy; [|done].
  apply digits_from_2 in Hm; [|done]. apply digits_from_2 in Hd; [|done].
  split; [|done]. unfold strftime_ymd. cbn [year month day].
  by rewrite Hy, Hm, Hd.
Qed.

(** ** Dates written day first *)

Lemma digit_char_digit k : digit_of (digit_char (k mod 10)) = Some (k mod 10).
Proof. apply digit_of_digit_char. Z.div_mod_to_equations. lia. Qed.

(** A date written day first is not of the form [YYYY-MM-DD]. *)
Lemma to_datetime_ymd_strftime_dmy d : to_datetime_ymd (strftime_dmy d) = None.
Proof.
  unfold to_datetime_ymd, strftime_dmy.
  lazy [zfill String.append String.length String.get String.substring Nat.eqb].
  rewrite decide_False; [done|]. intros (_ & [= Hdash] & _).
  pose proof (digit_char_digit (month d)) as Hdigit. by rewrite Hdash in Hdigit.
Qed.

Lemma to_datetime_slash_strftime_dmy d :
  calendar_date d → 0 ≤ year d ≤ 9999 →
  to_datetime_slash (strftime_dmy d)
  = if decide (calendar_date (mkDate (year d) (day d) (month d)))
    then Some (mkDate (year d) (day d) (month d)) else Some d.
Proof.
  intros Hc Hy. pose proof (calendar_date_day d Hc) as Hdd.
  destruct d as [y m dd]. pose proof Hc as [Hm _]. simpl in *.
  pose proof (digits_zfill 4 y ltac:(simpl; lia)) as Hy4.
  pose proof (digits_zfill 2 m ltac:(simpl; lia)) as Hm2.
  pose proof (digits_zfill 2 dd ltac:(simpl; lia)) as Hd2.
  unfold to_datetime_slash, strftime_dmy. cbn [year month day].
  lazy [zfill String.append String.length String.get String.substring Nat.eqb]
    in *.
  rewrite decide_True, Hy4, Hm2, Hd2 by done. cbn [mbind option_bind].
  case_decide; [done|]. by rewrite decide_True.
Qed.


End calendar_facts.

Lemma days_from_civil_next_witness :
  days_from_civil (mkDate 2024 3 1) = (days_from_civil (mkDate 2024 2 29) + 1)%Z.
Proof.
  apply (days_from_civil_next (mkDate 2024 2 29)). compute. intuition discriminate.
Defined.

Lemma to_datetime_strftime_ymd_witness :
  to_datetime_ymd (strftime_ymd (mkDate 2024 2 29)) = Some (mkDate 2024 2 29).
Proof. apply to_datetime_strftime_ymd; compute; intuition discriminate. Defined.

