(* ===== verification/Goals.v ===== *)
(** * Goals: the expense categories and their monthly goals

    Models lines 195-221 of [src/dash.py]: the list [categorias_despesas],
    the session dictionary [st.session_state['metas']] and the loop that
    reads one goal per category through [st.number_input] and stores it.
    The dictionary is a [gmap string A] that lives in the session between
    runs; an absent session entry is [None].  The widget is a parameter: it
    maps its key, its [min_value] and the [value] it is offered to the number
    it returns (the offered value on first display, what the user typed
    afterwards). *)

From S2P Require Import Prelude Numeric Ledger.

Local Open Scope string_scope.
Local Open Scope list_scope.

Section goals.
Context {A : Type} `{Num A}.

(** Lines 195-198: categories with at least one expense row, income
    placeholder excluded, in order of first appearance. *)
Definition is_despesa (r : Row A) : Prop :=
  tipo r = "debito" ∧ categoria r ≠ "Renda".

#[export] Instance is_despesa_dec r : Decision (is_despesa r).
Proof. unfold is_despesa. apply _. Defined.

Definition categorias_despesas (df_filtered : list (Row A)) : list string :=
  unique (categoria <$> filter is_despesa df_filtered).

(** [st.session_state['metas'].get(categoria, 1000.0)] (lines 213, 235, 280). *)
Definition meta_get (metas : gmap string A) (categoria : string) : A :=
  default (lit 1000) (metas !! categoria).

(** Lines 207-208: the dictionary is created on first use. *)
Definition init_metas (session_metas : option (gmap string A)) : gmap string A :=
  default ∅ session_metas.

Section with_widget.
(** [number_input key min_value value]: what the widget returns. *)
Variable number_input : string → A → A → A.

(** The key of line 220. *)
Definition meta_key (categoria : string) : string := "meta_" +:+ categoria.

(** Lines 213-221, one iteration: read the current goal, offer it to the
    widget, store what the widget returns. *)
Definition set_meta (metas : gmap string A) (categoria : string) : gmap string A :=
  let meta_atual := meta_get metas categoria in
  <[categoria := number_input (meta_key categoria) zero meta_atual]> metas.

(** Lines 211-221: the loop over the categories. *)
Definition set_metas (categorias : list string) (metas : gmap string A)
  : gmap string A :=
  foldl set_meta metas categorias.

(** Lines 200-221: nothing happens, not even the creation of the dictionary,
    when there is no expense category. *)
Definition goals_section (categorias : list string)
    (session_metas : option (gmap string A)) : option (gmap string A) :=
  match categorias with
  | [] => session_metas
  | _ :: _ => Some (set_metas categorias (init_metas session_metas))
  end.

(** [st.number_input] refuses a [value] below its [min_value] before it
    shows anything. *)
Definition number_input_checked (key : string) (min_value value : A) : result A :=
  if ltb value min_value then Err ValueBelowMin
  else Ok (number_input key min_value value).

(** Lines 211-221 with that refusal: the dictionary as the loop leaves it,
    and the exception that ended it, if any.  What was stored before the
    exception stays in the session. *)
Fixpoint set_metas_checked (categorias : list string) (metas : gmap string A)
  : gmap string A * option py_error :=
  match categorias with
  | [] => (metas, None)
  | categoria :: rest =>
      match number_input_checked (meta_key categoria) zero
              (meta_get metas categoria) with
      | Ok v => set_metas_checked rest (<[categoria := v]> metas)
      | Err e => (metas, Some e)
      end
  end.

(** ** What the loop stores *)

(** The loop, refused or not, removes no key. *)
Lemma set_metas_checked_subseteq cs (metas : gmap string A) :
  dom metas ⊆ dom (set_metas_checked cs metas).1.
Proof.
  revert metas. induction cs as [|c cs IH]; intros metas; [done|]. simpl.
  destruct (number_input_checked _ _ _) as [v|e]; [|done].
  etrans; [|apply IH]. set_solver.
Qed.

Lemma set_metas_snoc cs c metas :
  set_metas (cs ++ [c]) metas = set_meta (set_metas cs metas) c.
Proof. unfold set_metas. by rewrite foldl_app. Qed.

Lemma set_metas_notin cs metas c :
  c ∉ cs → set_metas cs metas !! c = metas !! c.
Proof.
  revert metas. induction cs as [|c' cs IH]; intros metas Hc; [done|].
  apply not_elem_of_cons in Hc as [Hne Hc]. simpl. rewrite IH by done.
  unfold set_meta. by rewrite lookup_insert_ne.
Qed.

Lemma set_metas_in cs metas c :
  NoDup cs → c ∈ cs →
  set_metas cs metas !! c =
    Some (number_input (meta_key c) zero (meta_get metas c)).
Proof.
  revert metas. induction cs as [|c' cs IH]; intros metas Hnd Hc.
  - by apply elem_of_nil in Hc.
  - apply NoDup_cons in Hnd as [Hc' Hnd]. simpl.
    apply elem_of_cons in Hc as [->|Hc].
    + rewrite set_metas_notin by done. unfold set_meta.
      by rewrite lookup_insert_eq.
    + rewrite IH by done. unfold meta_get, set_meta.
      rewrite lookup_insert_ne; [done|]. intros ->. done.
Qed.

Lemma set_metas_dom cs metas : dom (set_metas cs metas) = list_to_set cs ∪ dom metas.
Proof.
  revert metas. induction cs as [|c cs IH]; intros metas; simpl.
  - set_solver.
  - rewrite IH. unfold set_meta. rewrite dom_insert_L. set_solver.
Qed.

(** ** Goals stay non-negative

    [metas_nonneg] is the invariant of the session dictionary: every stored
    goal passes the test [0 <= goal]. *)
Definition metas_nonneg (metas : gmap string A) : Prop :=
  map_Forall (λ _ v, leb zero v = true) metas.

(** The widget's contract for [min_value=0.0], the only lower bound the
    script passes: it never returns less. *)
Definition respects_min : Prop :=
  ∀ key value, leb zero (number_input key zero value) = true.

Lemma set_meta_nonneg metas c :
  respects_min → metas_nonneg metas → metas_nonneg (set_meta metas c).
Proof.
  intros Hw Hm. unfold set_meta. apply map_Forall_insert_2; [apply Hw|done].
Qed.

Lemma set_metas_nonneg cs metas :
  respects_min → metas_nonneg metas → metas_nonneg (set_metas cs metas).
Proof.
  intros Hw. revert metas. induction cs as [|c cs IH]; intros metas Hm; [done|].
  simpl. apply IH. by apply set_meta_nonneg.
Qed.

(** C6: if the goal widget honours its [min_value], the goal section keeps
    every goal of the session dictionary non-negative: whatever the
    categories shown, a dictionary that is absent or holds only non-negative
    goals before the run holds only non-negative goals after it. *)
Theorem goals_section_nonneg cs session_metas metas' :
  respects_min →
  (∀ metas, session_metas = Some metas → metas_nonneg metas) →
  goals_section cs session_metas = Some metas' → metas_nonneg metas'.
Proof.
  intros Hw Hs. destruct cs as [|c cs]; simpl; [by apply Hs|].
  intros [= <-]. apply (set_metas_nonneg (c :: cs)); [done|].
  destruct session_metas as [m|]; simpl; [by apply Hs|]. apply map_Forall_empty.
Qed.

(** ** Reruns *)

(** When the user edits nothing (each widget returns the value it is
    offered), the loop changes no goal as read by [.get(categoria, 1000.0)]:
    it only writes into the dictionary the defaults it read. *)
Theorem set_metas_no_edit cs metas c :
  (∀ key min_value value, number_input key min_value value = value) →
  meta_get (set_metas cs metas) c = meta_get metas c.
Proof.
  intros Hid. revert metas. induction cs as [|c' cs IH]; intros metas; [done|].
  simpl. rewrite IH. unfold set_meta, meta_get. rewrite Hid.
  destruct (decide (c' = c)) as [->|Hne].
  - by rewrite lookup_insert_eq.
  - by rewrite lookup_insert_ne.
Qed.

(** A widget that returns again the number it returned last time makes
    the goal loop idempotent: a rerun of the script without new input leaves
    the session dictionary as the previous run left it. *)
Theorem set_metas_rerun cs metas :
  NoDup cs →
  (∀ key min_value value,
     number_input key min_value (number_input key min_value value)
     = number_input key min_value value) →
  set_metas cs (set_metas cs metas) = set_metas cs metas.
Proof.
  intros Hnd Hst. apply map_eq. intros c. destruct (decide (c ∈ cs)) as [Hc|Hc].
  - rewrite !set_metas_in by done. unfold meta_get at 1.
    rewrite set_metas_in by done. simpl. by rewrite Hst.
  - by rewrite !set_metas_notin.
Qed.

End with_widget.

Lemma categorias_despesas_NoDup df : NoDup (categorias_despesas df).
Proof. apply NoDup_unique. Qed.

Lemma elem_of_categorias_despesas df c :
  c ∈ categorias_despesas df ↔ ∃ r, r ∈ df ∧ is_despesa r ∧ categoria r = c.
Proof.
  unfold categorias_despesas.
  rewrite elem_of_unique, list_elem_of_fmap.
  setoid_rewrite list_elem_of_filter. naive_solver.
Qed.

(** The income placeholder is never an expense category. *)
Lemma Renda_not_despesa df : "Renda" ∉ categorias_despesas df.
Proof.
  rewrite elem_of_categorias_despesas. intros (r & _ & [_ Hne] & Hc). done.
Qed.

(** An expense category is one of the categories offered in the sidebar. *)
Lemma categorias_despesas_disponiveis df c :
  c ∈ categorias_despesas df → c ∈ categorias_disponiveis df.
Proof.
  rewrite elem_of_categorias_despesas, elem_of_categorias_disponiveis.
  naive_solver.
Qed.

End goals.

#[export] Hint Resolve categorias_despesas_NoDup : dash.

(** ** The widget never refuses a goal

    Over the rationals a dictionary of non-negative goals is never refused
    by the widget, so the loop with the refusal is the loop without it. *)

Section goals_exact.
Local Open Scope Q_scope.
Variable number_input : string → Q → Q → Q.

Lemma meta_get_nonneg (metas : gmap string Q) c :
  metas_nonneg metas → 0 <= meta_get metas c.
Proof.
  intros Hm. unfold meta_get. destruct (metas !! c) as [v|] eqn:Hv; simpl.
  - apply Qle_bool_iff. exact (Hm c v Hv).
  - num_Q. lra.
Qed.

Lemma set_metas_checked_nonneg cs (metas : gmap string Q) :
  respects_min number_input → metas_nonneg metas →
  set_metas_checked number_input cs metas = (set_metas number_input cs metas, None).
Proof.
  intros Hw. revert metas. induction cs as [|c cs IH]; intros metas Hm; [done|].
  pose proof (meta_get_nonneg metas c Hm) as Hc.
  cbn [set_metas_checked set_metas foldl]. unfold number_input_checked.
  replace (ltb (meta_get metas c) zero) with false; [by apply IH, set_meta_nonneg|].
  symmetry. change (negb (Qle_bool 0 (meta_get metas c)) = false).
  by apply negb_false_iff, Qle_bool_iff.
Qed.

End goals_exact.

(** ** Witnesses over the rationals *)

Section goals_examples.
Local Open Scope Q_scope.

(** A widget in which the user typed 800 for every goal. *)
Definition typed_800 (key : string) (min_value value : Q) : Q := 800.

(** A widget the user never touched. *)
Definition untouched (key : string) (min_value value : Q) : Q := value.

Definition metas_ex : gmap string Q := <["Saude" := 250]> ∅.

Lemma metas_ex_nonneg : metas_nonneg metas_ex.
Proof. apply map_Forall_insert_2; [reflexivity|apply map_Forall_empty]. Defined.

Lemma goals_section_nonneg_witness :
  metas_nonneg (set_metas typed_800 ["Saude"; "Transporte"] metas_ex).
Proof.
  apply (goals_section_nonneg typed_800 ["Saude"; "Transporte"] (Some metas_ex)).
  - intros key value. reflexivity.
  - intros metas [= <-]. exact metas_ex_nonneg.
  - reflexivity.
Defined.

Lemma set_metas_no_edit_witness :
  meta_get (set_metas untouched ["Saude"; "Transporte"] metas_ex) "Transporte"
  = meta_get metas_ex "Transporte".
Proof.
  apply (set_metas_no_edit untouched ["Saude"; "Transporte"] metas_ex).
  intros key min_value value. reflexivity.
Defined.

Lemma set_metas_rerun_witness :
  set_metas typed_800 ["Saude"; "Transporte"]
    (set_metas typed_800 ["Saude"; "Transporte"] metas_ex)
  = set_metas typed_800 ["Saude"; "Transporte"] metas_ex.
Proof.
  apply (set_metas_rerun typed_800 ["Saude"; "Transporte"] metas_ex).
  - compute_done.
  - intros key min_value value. reflexivity.
Defined.

End goals_examples.
