(* ===== verification/Badges.v ===== *)
(** * Badges: the achievement awarded to each expense category

    Models lines 227-268 of [src/dash.py].  For every expense category the
    script computes the amount spent, reads the goal and walks an
    [if]/[elif] chain that assigns the Python variables [badge_type] and
    [badge_color]; the chain has no final [else], so the variables keep the
    binding of the previous iteration when no branch fires, and are unbound
    (a [NameError] at the [append]) when that happens in the first one.  The
    loop therefore carries the binding explicitly.

    The theorems of the first part are stated over the exact rationals
    ([Q_num]), where a branch always fires; the last part is about binary64
    ([F_num]), where a branch fires exactly when the amount and the goal are
    numbers, and runs the definitions on examples. *)

From Stdlib Require Import Floats.
From S2P Require Import Prelude Numeric Binary64 Ledger Goals.

Local Open Scope string_scope.
Local Open Scope list_scope.

(** The six badges and their colours, as the string pairs of lines 239-259. *)
Inductive BadgeType :=
| Ouro | Prata | Bronze | AcimaDaMeta | AlertaAlto | AlertaCritico.

Inductive BadgeColor := gold | silver | bronze | yellow | orange | red.

#[export] Instance BadgeType_eq_dec : EqDecision BadgeType.
Proof. solve_decision. Defined.

#[export] Instance BadgeColor_eq_dec : EqDecision BadgeColor.
Proof. solve_decision. Defined.

(** The binding of [(badge_type, badge_color)]. *)
Definition Badge : Type := BadgeType * BadgeColor.

(** An element of [badges_conquistadas]. *)
Definition BadgeEntry : Type := string * BadgeType * BadgeColor.

(** What lines 264-268 show. *)
Inductive BadgeMsg :=
| MsgBadge (badge_type : BadgeType) (categoria : string)   (* st.success *)
| MsgKeepSaving.                                           (* st.info *)

Section badges.
Context {A : Type} `{Num A}.
Local Open Scope dash_scope.

(** Lines 230-233 (and 275-278): the amount spent in a category. *)
Definition gasto_categoria (df_filtered : list (Row A)) (categoria_ : string) : A :=
  abs (series_sum
         (valor <$> filter (λ r, categoria r = categoria_ ∧ tipo r = "debito")
                      df_filtered)).

(** Lines 237-259: the chain.  [prev] is the binding the variables have when
    the chain is entered; the result is their binding when it is left. *)
Definition badge_chain (gasto_categoria meta_categoria : A) (prev : option Badge)
  : option Badge :=
  if gasto_categoria <=? meta_categoria then
    if gasto_categoria <=? meta_categoria * lit 0.7 then
      Some (Ouro, gold)
    else if (gasto_categoria >? meta_categoria * lit 0.70)
            && (gasto_categoria <=? meta_categoria * lit 0.85) then
      Some (Prata, silver)
    else if (gasto_categoria >? meta_categoria * lit 0.85)
            && (gasto_categoria <=? meta_categoria) then
      Some (Bronze, bronze)
    else prev
  else
    if (gasto_categoria >? meta_categoria)
       && (gasto_categoria <=? meta_categoria * lit 1.2) then
      Some (AcimaDaMeta, yellow)
    else if (gasto_categoria >? meta_categoria * lit 1.2)
            && (gasto_categoria <=? meta_categoria * lit 1.5) then
      Some (AlertaAlto, orange)
    else if gasto_categoria >? meta_categoria * lit 1.5 then
      Some (AlertaCritico, red)
    else prev.

(** Lines 229-261: the loop.  [vars] is the binding of the two variables,
    [badges_conquistadas] the list built so far.  Reading an unbound variable
    at the [append] raises [NameError]. *)
Fixpoint badges_loop (df_filtered : list (Row A)) (metas : gmap string A)
    (categorias : list string) (vars : option Badge)
    (badges_conquistadas : list BadgeEntry) : result (list BadgeEntry) :=
  match categorias with
  | [] => Ok badges_conquistadas
  | categoria :: rest =>
      let gasto := gasto_categoria df_filtered categoria in
      let meta := meta_get metas categoria in
      match badge_chain gasto meta vars with
      | Some (badge_type, badge_color) =>
          badges_loop df_filtered metas rest (Some (badge_type, badge_color))
            (badges_conquistadas ++ [(categoria, badge_type, badge_color)])
      | None => Err NameError
      end
  end.

(** Lines 227-261 from their initial state. *)
Definition badges (df_filtered : list (Row A)) (metas : gmap string A)
  : result (list BadgeEntry) :=
  badges_loop df_filtered metas (categorias_despesas df_filtered) None [].

(** Lines 264-268: one success box per badge, or the encouragement when
    the list is empty. *)
Definition badge_messages (badges_conquistadas : list BadgeEntry) : list BadgeMsg :=
  match badges_conquistadas with
  | [] => [MsgKeepSaving]
  | _ :: _ => (λ e, MsgBadge e.1.2 e.1.1) <$> badges_conquistadas
  end.

(** The chain without its redundant lower-bound tests: a plain cascade over
    the five thresholds, in the arithmetic of the script. *)
Definition badge_cascade (gasto_categoria meta_categoria : A) : BadgeType :=
  if gasto_categoria <=? meta_categoria then
    if gasto_categoria <=? meta_categoria * lit 0.7 then Ouro
    else if gasto_categoria <=? meta_categoria * lit 0.85 then Prata
    else Bronze
  else
    if gasto_categoria <=? meta_categoria * lit 1.2 then AcimaDaMeta
    else if gasto_categoria <=? meta_categoria * lit 1.5 then AlertaAlto
    else AlertaCritico.

(** Once the variables are bound the chain leaves them bound, and the loop
    never raises. *)
Lemma badge_chain_bound gasto meta prev :
  is_Some prev → is_Some (badge_chain gasto meta prev).
Proof. intros Hp. unfold badge_chain. repeat case_match; eauto. Qed.

Lemma badges_loop_bound df metas categorias vars acc :
  is_Some vars → ∃ l, badges_loop df metas categorias vars acc = Ok l.
Proof.
  revert vars acc. induction categorias as [|c cs IH]; intros vars acc Hv;
    simpl; [eauto|].
  destruct (badge_chain_bound (gasto_categoria df c) (meta_get metas c) vars Hv)
    as [[t col] ->].
  by apply IH.
Qed.

End badges.

(** The colour that goes with each badge in the source. *)
Definition color_of (t : BadgeType) : BadgeColor :=
  match t with
  | Ouro => gold | Prata => silver | Bronze => bronze
  | AcimaDaMeta => yellow | AlertaAlto => orange | AlertaCritico => red
  end.

(** Badges from best to worst. *)
Definition badge_rank (t : BadgeType) : nat :=
  match t with
  | Ouro => 0 | Prata => 1 | Bronze => 2
  | AcimaDaMeta => 3 | AlertaAlto => 4 | AlertaCritico => 5
  end.

(** ** The chain over the exact rationals *)

Section badges_over_Q.
Local Open Scope Q_scope.
Implicit Types (gasto meta : Q) (df : list (Row Q)) (metas : gmap string Q).

(** The chain without its redundant lower-bound tests: a plain cascade over
    the five thresholds. *)
Definition badge_ref gasto meta : BadgeType :=
  if decide (gasto <= meta) then
    if decide (gasto <= meta * 0.7) then Ouro
    else if decide (gasto <= meta * 0.85) then Prata
    else Bronze
  else
    if decide (gasto <= meta * 1.2) then AcimaDaMeta
    else if decide (gasto <= meta * 1.5) then AlertaAlto
    else AlertaCritico.

(** Over exact arithmetic a branch of the chain always fires, whatever the
    amounts and whatever the variables held before: the binding it leaves is
    the badge of the plain cascade with the colour the source pairs with it. *)
Lemma badge_chain_ref gasto meta prev :
  badge_chain gasto meta prev
  = Some (badge_ref gasto meta, color_of (badge_ref gasto meta)).
Proof.
  unfold badge_chain, badge_ref. q_cases; repeat case_decide; try done; lra.
Qed.

(** The entry the loop appends for a category. *)
Definition badge_entry df metas (c : string) : BadgeEntry :=
  let t := badge_ref (gasto_categoria df c) (meta_get metas c) in
  (c, t, color_of t).

Lemma badges_loop_ref df metas cs vars acc :
  badges_loop df metas cs vars acc = Ok (acc ++ (badge_entry df metas <$> cs)).
Proof.
  revert vars acc. induction cs as [|c cs IH]; intros vars acc; simpl.
  - by rewrite app_nil_r.
  - rewrite badge_chain_ref, IH, <- app_assoc. done.
Qed.

(** C1: over exact arithmetic the badge loop never raises [NameError] and
    never reuses the badge of an earlier category: it returns exactly one
    entry per expense category, in order of first appearance, each with the
    badge the thresholds 0.7, 0.85, 1, 1.2 and 1.5 of the goal give to the
    amount spent and with that badge's colour. *)
Theorem badges_exact df metas :
  badges df metas = Ok (badge_entry df metas <$> categorias_despesas df).
Proof. unfold badges. by rewrite badges_loop_ref. Qed.

(** The thresholds are ordered for every goal, so spending more never earns
    a better badge. *)
Lemma badge_ref_mono gasto1 gasto2 meta :
  gasto1 <= gasto2 →
  (badge_rank (badge_ref gasto1 meta) ≤ badge_rank (badge_ref gasto2 meta))%nat.
Proof.
  intros Hle. unfold badge_ref. repeat case_decide; simpl; try lia; lra.
Qed.

(** For a fixed goal the badge the chain leaves is monotone in the
    amount spent: a larger expense never earns a better badge. *)
Theorem badge_chain_mono gasto1 gasto2 meta prev1 prev2 t1 c1 t2 c2 :
  gasto1 <= gasto2 →
  badge_chain gasto1 meta prev1 = Some (t1, c1) →
  badge_chain gasto2 meta prev2 = Some (t2, c2) →
  (badge_rank t1 ≤ badge_rank t2)%nat.
Proof.
  intros Hle. rewrite !badge_chain_ref. intros [= <- <-] [= <- <-].
  by apply badge_ref_mono.
Qed.

(** An amount is never negative: it is an absolute value. *)
Lemma gasto_categoria_nonneg df c : 0 <= gasto_categoria df c.
Proof. unfold gasto_categoria. num_Q. apply Qabs_nonneg. Qed.

(** The badges at the boundaries of the goal itself. *)
Lemma badge_ref_zero_goal gasto :
  0 <= gasto →
  badge_ref gasto 0 = if decide (gasto <= 0) then Ouro else AlertaCritico.
Proof.
  intros Hg. unfold badge_ref. repeat case_decide; try done; lra.
Qed.

(** C39: the encouragement of line 268 is dead code: the badge section runs
    only when there is an expense category, and then the loop, when it
    returns, has produced a badge, so the list shown is never empty. *)
Theorem keep_saving_unreachable df metas bs :
  categorias_despesas df ≠ [] →
  badges df metas = Ok bs →
  MsgKeepSaving ∉ badge_messages bs.
Proof.
  intros Hne. unfold badges. rewrite badges_loop_ref. intros [= <-].
  destruct (categorias_despesas df) as [|c cs]; [done|]. simpl.
  rewrite not_elem_of_cons. split; [done|].
  intros (e & He & _)%list_elem_of_fmap. done.
Qed.

(** The scenarios of the specification: two debits of 100 and 50 in a
    category whose goal is 100, an income row, and a category without a
    goal that has spent 500. *)
Definition ledger_spec : list (Row Q) :=
  [ example_row 3 "Alimentacao" (-100) "debito";
    example_row 5 "Renda" 2000 "credito";
    example_row 10 "Alimentacao" (-50) "debito";
    example_row 12 "Transporte" (-500) "debito" ].

Definition goals_spec : gmap string Q := <["Alimentacao" := 100]> ∅.

Lemma badge_chain_mono_witness :
  (badge_rank Ouro ≤ badge_rank AlertaAlto)%nat.
Proof.
  apply (badge_chain_mono 50 150 100 None None Ouro gold AlertaAlto orange);
    [lra | reflexivity | reflexivity].
Defined.

Lemma keep_saving_unreachable_witness :
  MsgKeepSaving ∉ badge_messages
    [("Alimentacao", AlertaAlto, orange); ("Transporte", Ouro, gold)].
Proof.
  apply (keep_saving_unreachable ledger_spec goals_spec);
    [discriminate | vm_compute; reflexivity].
Defined.

End badges_over_Q.

(** ** The chain in binary64 *)

Section badges_binary64.
Local Open Scope float_scope.

(** In binary64 an amount or a goal that is NaN fails every comparison of
    the chain, so no branch assigns and the variables keep whatever they
    held: the chain lacks the final [else] that would make it total. *)
Lemma badge_chain_nan (meta : float) (prev : option Badge) :
  badge_chain nan meta prev = prev.
Proof. unfold badge_chain. by rewrite !leb_nan_l, !ltb_nan_r. Qed.

Lemma badge_chain_nan_meta (gasto : float) (prev : option Badge) :
  badge_chain gasto nan prev = prev.
Proof.
  unfold badge_chain. by rewrite !nan_mul_lit, !leb_nan_r, !ltb_nan_l.
Qed.

(** In binary64, when the amount and the goal are numbers (infinities
    included) a branch of the chain fires whatever rounding does to the
    thresholds, and the binding it leaves is the badge of the plain cascade
    with its colour: the lower-bound tests of the chain never decide. *)
Lemma badge_chain_numbers (gasto meta : float) (prev : option Badge) :
  isnan gasto = false → isnan meta = false →
  badge_chain gasto meta prev
  = Some (badge_cascade gasto meta, color_of (badge_cascade gasto meta)).
Proof.
  intros Hg Hm.
  assert (isnan (meta * lit 0.7)%dash = false) as H70 by mul_lit_number.
  assert (isnan (meta * lit 0.85)%dash = false) as H85 by mul_lit_number.
  assert (isnan (meta * lit 1.2)%dash = false) as H120 by mul_lit_number.
  assert (isnan (meta * lit 1.5)%dash = false) as H150 by mul_lit_number.
  unfold badge_chain, badge_cascade.
  change (@lit float _ (70 # 100)) with (@lit float _ (7 # 10)).
  destruct (gasto <=? meta)%dash eqn:E1.
  - destruct (gasto <=? meta * lit 0.7)%dash eqn:E2; [done|].
    rewrite (leb_false_ltb _ _ Hg H70 E2). cbn [andb].
    destruct (gasto <=? meta * lit 0.85)%dash eqn:E3; [done|].
    by rewrite (leb_false_ltb _ _ Hg H85 E3).
  - rewrite (leb_false_ltb _ _ Hg Hm E1). cbn [andb].
    destruct (gasto <=? meta * lit 1.2)%dash eqn:E2; [done|].
    rewrite (leb_false_ltb _ _ Hg H120 E2). cbn [andb].
    destruct (gasto <=? meta * lit 1.5)%dash eqn:E3; [done|].
    by rewrite (leb_false_ltb _ _ Hg H150 E3).
Qed.

(** C28: what the chain does in binary64, for every amount, goal and
    previous binding: when the amount or the goal is a NaN no branch fires
    and the variables keep what they held; otherwise, infinities included
    and whatever rounding does to the thresholds, it assigns the badge of
    the plain cascade with that badge's colour. *)
Theorem badge_chain_binary64 (gasto meta : float) (prev : option Badge) :
  badge_chain gasto meta prev
  = if isnan gasto || isnan meta then prev
    else Some (badge_cascade gasto meta, color_of (badge_cascade gasto meta)).
Proof.
  destruct (isnan gasto) eqn:Hg; cbn [orb].
  { apply isnan_true in Hg as ->. apply badge_chain_nan. }
  destruct (isnan meta) eqn:Hm.
  { apply isnan_true in Hm as ->. apply badge_chain_nan_meta. }
  by apply badge_chain_numbers.
Qed.

(** The chain entered with unbound variables leaves them unbound exactly
    when the amount or the goal is NaN. *)
Lemma badge_chain_None (gasto meta : float) :
  badge_chain gasto meta None = None ↔ isnan gasto = true ∨ isnan meta = true.
Proof.
  split.
  - intros Hc. destruct (isnan gasto) eqn:Hg; [by left|].
    destruct (isnan meta) eqn:Hm; [by right|].
    by rewrite badge_chain_numbers in Hc.
  - intros [->%isnan_true| ->%isnan_true];
      [apply badge_chain_nan|apply badge_chain_nan_meta].
Qed.

(** C26: in binary64 the badge section raises [NameError] exactly when the
    amount or the goal of the first expense category is NaN; a NaN in a
    later category never raises. *)
Theorem badges_binary64_NameError (df : list (Row float)) (metas : gmap string float) :
  badges df metas = Err NameError ↔
  ∃ c cs, categorias_despesas df = c :: cs ∧
    (isnan (gasto_categoria df c) = true ∨ isnan (meta_get metas c) = true).
Proof.
  unfold badges. destruct (categorias_despesas df) as [|c cs]; simpl.
  { split; [done|]. by intros (? & ? & ? & _). }
  destruct (badge_chain _ _ None) as [[t col]|] eqn:E.
  - split.
    + destruct (badges_loop_bound df metas cs (Some (t, col)) [(c, t, col)])
        as [l Hl]; [done|]. simpl in Hl. by rewrite Hl.
    + intros (? & ? & [= <- <-] & Hn). apply badge_chain_None in Hn.
      congruence.
  - split; [|done]. intros _. exists c, cs. split; [done|].
    by apply badge_chain_None.
Qed.

(** A ledger in which the amounts of one category are an infinite debit and
    an infinite refund ([pd.to_numeric] reads the texts inf and -inf as
    numbers, and [dropna] keeps them). *)
Definition ledger_inf : list (Row float) :=
  [ example_row 2 "Lazer" neg_infinity "debito";
    example_row 3 "Lazer" infinity "debito" ].

Definition ledger_inf_second : list (Row float) :=
  example_row 1 "Mercado" (-100) "debito" :: ledger_inf.

(** The missing [else] is reachable from a ledger that survives
    [process_data]: when the first expense category sums to NaN the loop
    raises [NameError]; when a later one does, it is shown with the badge of
    the category before it. *)
Example badges_nan_ledger :
  gasto_categoria ledger_inf "Lazer" = nan ∧
  badges ledger_inf ∅ = Err NameError ∧
  badges ledger_inf_second ∅
    = Ok [("Mercado", Ouro, gold); ("Lazer", Ouro, gold)].
Proof. vm_compute. repeat split. Qed.


End badges_binary64.
