(* ===== verification/Kpi.v ===== *)
(** * Kpi: the three headline figures

    Models lines 161-180 of [src/dash.py]: total income, total expense and
    balance over [df_filtered], and the colour rule of the balance card.
    The expense figure is the absolute value of the sum of the debit
    amounts; the specification describes it as the sum of their absolute
    values.  The theorems say when the two agree, that the script's figure
    is never the larger one, and that the per-category amounts of [Badges]
    add up to it.  The three cards (lines 165-186) are [metric_renda],
    [metric_despesa] and [metric_saldo]; [arrow_color] is the rule by which
    [st.metric] paints the change line, written from its documentation.
    Over exact numbers the cards do not depend on the order of the rows of
    the file; in binary64 they can. *)

From Stdlib Require Import Ascii Floats.
From S2P Require Import Prelude Numeric Ledger Format Goals Badges.

Local Open Scope string_scope.
Local Open Scope list_scope.

Inductive DeltaColor := inverse | normal.

#[export] Instance DeltaColor_eq_dec : EqDecision DeltaColor.
Proof. solve_decision. Defined.

Section kpi.
Context {A : Type} `{Num A}.
Local Open Scope dash_scope.

(** Line 161. *)
Definition total_creditos (df_filtered : list (Row A)) : A :=
  series_sum (valor <$> creditos df_filtered).

(** Line 162. *)
Definition total_debitos (df_filtered : list (Row A)) : A :=
  abs (series_sum (valor <$> debitos df_filtered)).

(** Line 163. *)
Definition saldo (df_filtered : list (Row A)) : A :=
  total_creditos df_filtered - total_debitos df_filtered.

(** Line 180. *)
Definition delta_color (df_filtered : list (Row A)) : DeltaColor :=
  if saldo df_filtered >=? zero then inverse else normal.

(** The expense figure as the specification words it: the sum of the
    absolute amounts of the debit rows. *)
Definition total_expense_spec (df_filtered : list (Row A)) : A :=
  series_sum ((λ r, abs (valor r)) <$> debitos df_filtered).

End kpi.

(** ** The cards (lines 165-186) *)

(** A headline card: the value and the change line under it. *)
Record Metric := mkMetric {
  m_value : string;
  m_delta : string;
  m_delta_color : DeltaColor;
}.

(** How [st.metric] paints the change line. *)
Inductive ArrowColor := ArrowGreen | ArrowRed.

#[export] Instance ArrowColor_eq_dec : EqDecision ArrowColor.
Proof. solve_decision. Defined.

(** [st.metric] reads the direction of the change off its text: a leading
    minus sign is a decrease. *)
Definition delta_negative (delta : string) : bool :=
  match delta with
  | String "-"%char _ => true
  | _ => false
  end.

(** [normal] paints an increase green and a decrease red; [inverse] swaps
    the two. *)
Definition arrow_color (m : Metric) : ArrowColor :=
  match m_delta_color m, delta_negative (m_delta m) with
  | normal, false | inverse, true => ArrowGreen
  | normal, true | inverse, false => ArrowRed
  end.

Section cards.
Context {A : Type} `{Num A} `{Printable A}.

(** Lines 166-170. *)
Definition metric_renda (df_filtered : list (Row A)) : Metric :=
  let total := total_creditos df_filtered in
  {| m_value := format_money total;
     m_delta := "+" +:+ format_2f (fvalue_of total);
     m_delta_color := normal |}.

(** Lines 173-177. *)
Definition metric_despesa (df_filtered : list (Row A)) : Metric :=
  let total := total_debitos df_filtered in
  {| m_value := format_money total;
     m_delta := "-" +:+ format_2f (fvalue_of total);
     m_delta_color := normal |}.

(** Lines 180-186. *)
Definition metric_saldo (df_filtered : list (Row A)) : Metric :=
  let s := saldo df_filtered in
  {| m_value := format_money s;
     m_delta := format_2f (fvalue_of s);
     m_delta_color := delta_color df_filtered |}.

End cards.

(** The sign convention of the input format: debits carry non-positive
    amounts. *)
Definition debits_nonpos (df : list (Row Q)) : Prop :=
  Forall (λ r, (valor r <= 0)%Q) (debitos df).

Section kpi_exact.
Local Open Scope Q_scope.
Implicit Types (df : list (Row Q)) (r : Row Q).

Lemma debits_nonpos_valores df :
  debits_nonpos df → Forall (λ x, x <= 0) (valor <$> debitos df).
Proof. intros Hs. by apply Forall_fmap. Qed.

(** C36: when every debit row carries a non-positive amount, the expense
    figure of the script is the sum of absolute amounts the specification
    asks for. *)
Theorem total_debitos_spec df :
  debits_nonpos df → total_debitos df == total_expense_spec df.
Proof.
  intros Hs. unfold total_debitos, total_expense_spec. num_Q.
  rewrite abs_series_sum_nonpos by by apply debits_nonpos_valores.
  by rewrite <- list_fmap_compose.
Qed.

(** Without the sign convention the script's expense figure can only
    fall short of the sum of absolute amounts, never exceed it. *)
Theorem total_debitos_le_spec df : total_debitos df <= total_expense_spec df.
Proof.
  unfold total_debitos, total_expense_spec. num_Q.
  etrans; [apply abs_series_sum_le|]. by rewrite <- list_fmap_compose.
Qed.

(** A refund entered as a debit with a positive amount. *)
Definition ledger_refund : list (Row Q) :=
  [ example_row 5 "Mercado" (-100) "debito";
    example_row 9 "Mercado" 30 "debito" ].


(** ** Rows that do not count *)


(** A row that is neither a credit nor a debit moves no figure. *)
Lemma kpi_other_tipo r df :
  tipo r ≠ "credito" → tipo r ≠ "debito" →
  total_creditos (r :: df) = total_creditos df ∧
  total_debitos (r :: df) = total_debitos df.
Proof.
  intros Hc Hd. unfold total_creditos, total_debitos, creditos, debitos.
  by rewrite !filter_cons_False.
Qed.

(** ** Categories add up *)

Lemma gasto_categoria_nonpos df c :
  debits_nonpos df →
  gasto_categoria df c
  == - series_sum (valor <$> filter (λ r, categoria r = c) (debitos df)).
Proof.
  intros Hs. unfold gasto_categoria. num_Q. rewrite <- debitos_categoria.
  apply Qabs_neg, series_sum_nonpos, Forall_fmap.
  unfold debits_nonpos in Hs. rewrite Forall_forall in *.
  intros r [_ Hr]%list_elem_of_filter. by apply Hs.
Qed.

(** C7: under the sign convention, and when no debit is filed under the
    income placeholder, the amounts spent per expense category add up to the
    total expense shown in the headline. *)
Theorem gastos_sum_to_total df :
  debits_nonpos df →
  (∀ r, r ∈ debitos df → categoria r ≠ "Renda") →
  series_sum (gasto_categoria df <$> categorias_despesas df) == total_debitos df.
Proof.
  intros Hs Hr. unfold total_debitos. num_Q.
  rewrite Qabs_neg by by apply series_sum_nonpos, debits_nonpos_valores.
  rewrite <- (series_sum_groupby categoria valor (categorias_despesas df)).
  - rewrite <- series_sum_fmap_opp. apply series_sum_fmap_ext.
    intros c _. by apply gasto_categoria_nonpos.
  - apply categorias_despesas_NoDup.
  - intros r Hin. apply elem_of_categorias_despesas. exists r.
    pose proof (Hr r Hin). apply list_elem_of_filter in Hin as [Ht Hin].
    by repeat split.
Qed.

(** ** Witnesses *)

Lemma debits_nonpos_ledger_spec : debits_nonpos ledger_spec.
Proof. unfold debits_nonpos. vm_compute. repeat constructor; discriminate. Defined.

Lemma total_debitos_spec_witness :
  total_debitos ledger_spec == total_expense_spec ledger_spec.
Proof. apply (total_debitos_spec ledger_spec debits_nonpos_ledger_spec). Defined.


Lemma gastos_sum_to_total_witness :
  series_sum (gasto_categoria ledger_spec <$> categorias_despesas ledger_spec)
  == total_debitos ledger_spec.
Proof.
  apply (gastos_sum_to_total ledger_spec debits_nonpos_ledger_spec).
  intros r Hr. vm_compute in Hr.
  repeat (apply elem_of_cons in Hr as [->|Hr]; [discriminate|]).
  by apply elem_of_nil in Hr.
Defined.

End kpi_exact.

(** ** The colour of the change lines *)

Lemma delta_negative_app s t :
  s ≠ "" → delta_negative (s +:+ t) = delta_negative s.
Proof. by destruct s. Qed.

Lemma digit_char_not_minus d : digit_char (d mod 10) ≠ "-"%char.
Proof.
  pose proof (Z.mod_pos_bound d 10 ltac:(done)).
  assert (d mod 10 = 0 ∨ d mod 10 = 1 ∨ d mod 10 = 2 ∨ d mod 10 = 3 ∨
          d mod 10 = 4 ∨ d mod 10 = 5 ∨ d mod 10 = 6 ∨ d mod 10 = 7 ∨
          d mod 10 = 8 ∨ d mod 10 = 9)%Z as Hd by lia.
  destruct_or!; rewrite Hd; done.
Qed.

Lemma zfill_positive w n :
  zfill (S w) n ≠ "" ∧ delta_negative (zfill (S w) n) = false.
Proof.
  revert n. induction w as [|w IH]; intros n.
  - simpl. split; [done|]. pose proof (digit_char_not_minus n).
    unfold delta_negative. by repeat case_match.
  - change (zfill (S (S w)) n)
      with (zfill (S w) (n / 10) +:+ String (digit_char (n mod 10)) "").
    destruct (IH (n / 10)%Z) as [Hne Hneg]. split.
    + by destruct (zfill (S w) (n / 10)).
    + by rewrite delta_negative_app.
Qed.

Lemma decimal3_positive n :
  decimal3 n ≠ "" ∧ delta_negative (decimal3 n) = false.
Proof. unfold decimal3. repeat case_match; apply zfill_positive. Qed.

Lemma group3_fuel_positive f n :
  group3_fuel f n ≠ "" ∧ delta_negative (group3_fuel f n) = false.
Proof.
  revert n. induction f as [|f IH]; intros n; simpl;
    [apply decimal3_positive|].
  case_match; [apply decimal3_positive|].
  destruct (IH (n / 1000)%Z) as [Hne Hneg]. split.
  - by destruct (group3_fuel f (n / 1000)).
  - by rewrite delta_negative_app.
Qed.

(** The text of an amount starts with a minus sign exactly when the
    formatter is given a negative sign. *)
Lemma delta_negative_format_2f neg mag :
  delta_negative (format_2f (FFinite neg mag)) = neg.
Proof.
  unfold format_2f. destruct neg; [done|].
  change ("" +:+ ?s) with s. rewrite delta_negative_app; apply group3_fuel_positive.
Qed.

Section cards_exact.
Local Open Scope Q_scope.

(** ** The order of the rows *)

#[export] Instance total_creditos_perm :
  Proper ((≡ₚ) ==> Qeq) (total_creditos (A:=Q)).
Proof.
  intros df df' Hp. unfold total_creditos, creditos. by rewrite Hp.
Qed.

#[export] Instance total_debitos_perm :
  Proper ((≡ₚ) ==> Qeq) (total_debitos (A:=Q)).
Proof.
  intros df df' Hp. unfold total_debitos, debitos. num_Q. by rewrite Hp.
Qed.

#[export] Instance saldo_perm : Proper ((≡ₚ) ==> Qeq) (saldo (A:=Q)).
Proof. intros df df' Hp. unfold saldo. num_Q. by rewrite Hp. Qed.

Lemma delta_color_perm (df df' : list (Row Q)) :
  df ≡ₚ df' → delta_color df = delta_color df'.
Proof.
  intros Hs%saldo_perm. unfold delta_color. num_Q.
  destruct (Qle_bool 0 (saldo df)) eqn:H1, (Qle_bool 0 (saldo df')) eqn:H2;
    try done; rewrite ?Qle_bool_iff, <- ?not_true_iff_false, ?Qle_bool_iff in *;
    rewrite Hs in *; done.
Qed.


(** C10: the change line of the balance card is painted red whatever the
    balance: the script asks for the inverse palette exactly when the
    balance is not negative, which turns the green of an increase into
    red, and keeps the normal palette, red, for a negative balance. *)
Theorem saldo_arrow_red (df : list (Row Q)) :
  arrow_color (metric_saldo df) = ArrowRed.
Proof.
  unfold arrow_color, metric_saldo, delta_color. cbn [m_delta m_delta_color].
  unfold fvalue_of, Q_printable. rewrite delta_negative_format_2f.
  num_Q. case_bool_decide; q_cases; try done; lra.
Qed.

End cards_exact.

(** ** The order of the rows in binary64 *)

(** A credit of the given amount. *)
Definition credit_row (v : float) : Row float :=
  mkRow (mkDate 2024 1 15) "x" "Renda" v "credito" "" (mkPeriod 2024 1).

(** Three credits of 0.1, 0.1 and 1.005 show an income of 1.20; the same
    rows in the reverse order show 1.21. *)
Example cards_row_order_binary64 :
  let df := credit_row <$> [0.1; 0.1; 1.005]%float in
  m_value (metric_renda df) = "R$ 1.20" ∧
  m_value (metric_renda (reverse df)) = "R$ 1.21".
Proof. vm_compute. done. Qed.

