(* ===== verification/Charts.v ===== *)
(** * Charts: the series behind the four charts

    Models lines 326-410 of [src/dash.py]: the expense per category drawn as
    a pie and as a ranking ([despesas_por_categoria]), the cumulative balance
    over time ([df_timeline], [saldo_acumulado]) and the monthly income and
    expense bars ([df_mensal]).  The drawing itself is Plotly's; what is
    modelled is the data handed to it.  The theorems relate each series to
    the headline figures of [Kpi] and to the per-category amounts of
    [Badges], and show that the points of the timeline that close a day do
    not depend on how the sort orders the rows of that day. *)

From stdpp Require Import sorting.
From S2P Require Import Prelude Numeric Frame Ledger Format Goals Badges Kpi.

Local Open Scope string_scope.
Local Open Scope list_scope.

(** Months in calendar order. *)
Definition period_le (a b : Period) : Prop :=
  (p_year a < p_year b ∨ (p_year a = p_year b ∧ p_month a ≤ p_month b))%Z.

#[export] Instance period_le_dec : RelDecision period_le.
Proof. intros a b. unfold period_le. apply _. Defined.

#[export] Instance period_le_po : PartialOrder period_le.
Proof.
  split; [split|]; unfold period_le.
  - intros a. lia.
  - intros a b c. lia.
  - intros [] []; simpl. intros. f_equal; lia.
Qed.

#[export] Instance period_le_total : Total period_le.
Proof. intros a b. unfold period_le. lia. Qed.

Section charts.
Context {A : Type} `{Num A} `{Sorter}.
Local Open Scope dash_scope.

(** Line 326: the series behind the pie and the ranking. *)
Definition despesas_por_categoria (df_filtered : list (Row A))
  : list (string * A) :=
  prod_map id abs
    <$> groupby_sum string_le categoria valor (debitos df_filtered).

(** Lines 328 and 340: both charts are drawn unless the series is empty. *)
Definition fig_pie (df_filtered : list (Row A)) : option (list (string * A)) :=
  match despesas_por_categoria df_filtered with
  | [] => None
  | series => Some series
  end.

(** Line 356. *)
Definition df_timeline (df_filtered : list (Row A)) : list (Row A) :=
  sort_by date_le data df_filtered.

(** Line 357. *)
Definition saldo_acumulado (df_filtered : list (Row A)) : list A :=
  cumsum (valor <$> df_timeline df_filtered).

(** Lines 361-363: the points of the line. *)
Definition fig_timeline (df_filtered : list (Row A)) : list (Date * A) :=
  zip (data <$> df_timeline df_filtered) (saldo_acumulado df_filtered).

(** Line 388: index and columns of the pivoted frame. *)
Definition mensal_index (df_filtered : list (Row A)) : list Period :=
  group_keys period_le mes df_filtered.

Definition mensal_columns (df_filtered : list (Row A)) : list string :=
  group_keys string_le tipo df_filtered.

(** Line 388: a cell holds the sum of its group, or the fill value when the
    month has no row of the type. *)
Definition mensal_sum (df_filtered : list (Row A)) (m : Period) (t : string) : A :=
  match filter (λ r, mes r = m ∧ tipo r = t) df_filtered with
  | [] => lit 0
  | g => series_sum (valor <$> g)
  end.

(** Lines 388-390: the frame after the debit column is made positive. *)
Definition df_mensal (df_filtered : list (Row A)) (m : Period) (t : string) : A :=
  if decide (t = "debito") then abs (mensal_sum df_filtered m t)
  else mensal_sum df_filtered m t.

(** Lines 394-410: one group of bars per column present, each bar labelled
    with its month. *)
Definition trace_mensal (df_filtered : list (Row A)) (t : string)
  : option (list (string * A)) :=
  if decide (t ∈ mensal_columns df_filtered)
  then Some ((λ m, (period_str m, df_mensal df_filtered m t))
               <$> mensal_index df_filtered)
  else None.

Definition trace_receitas df_filtered := trace_mensal df_filtered "credito".
Definition trace_despesas df_filtered := trace_mensal df_filtered "debito".

(** ** The series of the pie *)

Lemma despesas_por_categoria_gasto df :
  despesas_por_categoria df
  = (λ c, (c, gasto_categoria df c))
      <$> group_keys string_le categoria (debitos df).
Proof.
  unfold despesas_por_categoria, groupby_sum. rewrite <- list_fmap_compose.
  apply list_fmap_ext. intros _ c _. simpl. unfold gasto_categoria, group.
  by rewrite debitos_categoria.
Qed.

Lemma despesas_por_categoria_index df :
  (despesas_por_categoria df).*1 = group_keys string_le categoria (debitos df).
Proof.
  rewrite despesas_por_categoria_gasto, <- list_fmap_compose.
  apply list_fmap_id.
Qed.

(** Every slice of the pie is the amount the badge and progress sections
    compute for that category, and the slices come in ascending order of
    category name, one per category. *)
Theorem pie_series df :
  let index := (despesas_por_categoria df).*1 in
  despesas_por_categoria df = (λ c, (c, gasto_categoria df c)) <$> index ∧
  StronglySorted string_le index ∧ NoDup index.
Proof.
  intros index. unfold index. rewrite despesas_por_categoria_index.
  split; [apply despesas_por_categoria_gasto|].
  split; [apply Sorted_group_keys; apply _|apply NoDup_group_keys].
Qed.

End charts.

(** A ledger in which every row is a credit or a debit. *)
Definition only_credito_debito {A} (df : list (Row A)) : Prop :=
  Forall (λ r, tipo r = "credito" ∨ tipo r = "debito") df.

Section charts_exact.
Context `{Sorter}.
Local Open Scope Q_scope.
Implicit Types (df : list (Row Q)) (r : Row Q).

(** The categories of the pie are the expense categories that receive a
    goal, plus the income placeholder when a debit is filed under it. *)
Theorem pie_categories df c :
  c ∈ (despesas_por_categoria df).*1 ↔
  c ∈ categorias_despesas df ∨
  (c = "Renda" ∧ ∃ r, r ∈ df ∧ tipo r = "debito" ∧ categoria r = "Renda").
Proof.
  rewrite despesas_por_categoria_index, elem_of_group_keys.
  rewrite elem_of_categorias_despesas. unfold debitos, is_despesa.
  setoid_rewrite list_elem_of_filter.
  destruct (decide (c = "Renda")) as [->|Hc]; naive_solver.
Qed.

(** C30: under the sign convention the slices of the pie add up to the total
    expense of the headline. *)
Theorem pie_total df :
  debits_nonpos df →
  series_sum (despesas_por_categoria df).*2 == total_debitos df.
Proof.
  intros Hs. unfold total_debitos. num_Q.
  rewrite Qabs_neg by by apply series_sum_nonpos, debits_nonpos_valores.
  rewrite despesas_por_categoria_gasto, <- list_fmap_compose.
  rewrite <- (series_sum_groupby categoria valor
                (group_keys string_le categoria (debitos df))).
  - rewrite <- series_sum_fmap_opp. apply series_sum_fmap_ext.
    intros c _. by apply gasto_categoria_nonpos.
  - apply NoDup_group_keys.
  - intros r Hr. apply elem_of_group_keys. eauto.
Qed.

(** ** The timeline *)

Lemma df_timeline_perm df : df_timeline df ≡ₚ df.
Proof. apply sort_by_perm. Qed.

Lemma df_timeline_sorted df :
  StronglySorted (on_key date_le data) (df_timeline df).
Proof. apply sort_by_sorted; apply _. Qed.

Lemma series_sum_creditos_debitos df :
  only_credito_debito df →
  series_sum (valor <$> df)
  == series_sum (valor <$> creditos df) + series_sum (valor <$> debitos df).
Proof.
  unfold creditos, debitos.
  induction 1 as [|r df Hr _ IH]; [reflexivity|].
  rewrite !filter_cons, fmap_cons, series_sum_cons, IH.
  destruct Hr as [Hr|Hr]; rewrite Hr; repeat case_decide; try done;
    rewrite fmap_cons, series_sum_cons; lra.
Qed.

(** A column of amounts taken from a frame that has a row is not empty. *)
Lemma valor_fmap_nonempty (rows rows' : list (Row Q)) :
  rows ≡ₚ rows' → rows' ≠ [] → valor <$> rows ≠ [].
Proof.
  intros Hp Hne Hnil%fmap_nil_inv. apply Hne, Permutation_nil_r.
  by rewrite <- Hp, Hnil.
Qed.

(** Whatever order the sort gives rows of the same day, the timeline of a
    ledger that has a row has a last point, the sum of every amount of the
    filtered ledger. *)
Theorem saldo_acumulado_final df :
  df ≠ [] →
  ∃ v, last (saldo_acumulado df) = Some v ∧ v == series_sum (valor <$> df).
Proof.
  intros Hne. unfold saldo_acumulado.
  destruct (last_cumsum_total (valor <$> df_timeline df)) as (v & Hl & Hv).
  { by apply (valor_fmap_nonempty _ df), Hne; apply df_timeline_perm. }
  exists v. split; [done|]. rewrite Hv. apply series_sum_perm.
  by rewrite df_timeline_perm.
Qed.

(** C31: when debits are non-positive and every row is a credit or a debit,
    the timeline of a ledger that has a row ends at the balance shown in
    the headline. *)
Theorem timeline_ends_at_saldo df :
  debits_nonpos df → only_credito_debito df → df ≠ [] →
  ∃ v, last (saldo_acumulado df) = Some v ∧ v == saldo df.
Proof.
  intros Hs Ht (v & Hl & Hv)%saldo_acumulado_final. exists v. split; [done|].
  rewrite Hv, series_sum_creditos_debitos by done.
  unfold saldo, total_creditos, total_debitos. num_Q.
  rewrite Qabs_neg by by apply series_sum_nonpos, debits_nonpos_valores.
  lra.
Qed.

(** C8: for every date, the rows of the timeline dated up to it form a
    prefix, and when there is such a row the cumulative balance has a point
    at the end of that prefix whose value is the sum of the amounts dated up
    to it: the value that closes a day is the same for every sort the
    library may run. *)
Theorem timeline_at_date df d :
  let upto := filter (λ r, date_le (data r) d) in
  let n := length (upto df) in
  take n (df_timeline df) = upto (df_timeline df) ∧
  (upto df ≠ [] →
   ∃ v, last (take n (saldo_acumulado df)) = Some v ∧
        v == series_sum (valor <$> upto df)).
Proof.
  intros upto n.
  assert (Hp : upto (df_timeline df) ≡ₚ upto df)
    by (unfold upto; by rewrite df_timeline_perm).
  assert (Ht : take n (df_timeline df) = upto (df_timeline df)).
  { unfold n. rewrite <- (Permutation_length Hp).
    apply (sorted_take_filter date_le data d), df_timeline_sorted. }
  split; [done|]. intros Hne. unfold saldo_acumulado.
  rewrite cumsum_take, <- fmap_take, Ht.
  destruct (last_cumsum_total (valor <$> upto (df_timeline df)))
    as (v & Hl & Hv); [by apply (valor_fmap_nonempty _ (upto df))|].
  exists v. split; [done|]. rewrite Hv. apply series_sum_perm. by rewrite Hp.
Qed.

(** ** The monthly bars *)

Lemma mensal_sum_filter df m t :
  mensal_sum df m t
  = series_sum (valor <$> filter (λ r, mes r = m ∧ tipo r = t) df).
Proof. unfold mensal_sum. by destruct (filter _ df). Qed.

(** The sums of a column over the months add up to the sum of the rows of
    that type. *)
Lemma mensal_column_total df t :
  series_sum ((λ m, mensal_sum df m t) <$> mensal_index df)
  == series_sum (valor <$> filter (λ r, tipo r = t) df).
Proof.
  rewrite <- (series_sum_groupby mes valor (mensal_index df)
                (filter (λ r, tipo r = t) df)).
  - apply series_sum_fmap_ext. intros m _.
    by rewrite mensal_sum_filter, list_filter_filter.
  - apply NoDup_group_keys.
  - intros r [_ Hr]%list_elem_of_filter. apply elem_of_group_keys. eauto.
Qed.

Lemma mensal_sum_debito_nonpos df m :
  debits_nonpos df → mensal_sum df m "debito" <= 0.
Proof.
  intros Hs. rewrite mensal_sum_filter. apply series_sum_nonpos, Forall_fmap.
  unfold debits_nonpos, debitos in Hs. rewrite Forall_forall in *.
  intros r [[_ Ht] Hr]%list_elem_of_filter.
  apply Hs, list_elem_of_filter. done.
Qed.

Lemma df_mensal_debito df m :
  df_mensal df m "debito" = Qabs (mensal_sum df m "debito").
Proof. reflexivity. Qed.

Lemma trace_mensal_Some df t bars :
  trace_mensal df t = Some bars →
  bars.*2 = (λ m, df_mensal df m t) <$> mensal_index df.
Proof.
  unfold trace_mensal. case_decide; [|done]. intros [= <-].
  by rewrite <- list_fmap_compose.
Qed.

Lemma trace_mensal_None df t :
  trace_mensal df t = None ↔ filter (λ r, tipo r = t) df = [].
Proof.
  unfold trace_mensal, mensal_columns. case_decide as Ht.
  - split; [done|]. intros Hf. apply elem_of_group_keys in Ht as (r & Hr & Hrt).
    assert (r ∈ filter (λ r, tipo r = t) df) as Hin
      by by apply list_elem_of_filter.
    rewrite Hf in Hin. by apply elem_of_nil in Hin.
  - split; [|done]. intros _. apply filter_none, Forall_forall.
    intros r Hr Hrt. apply Ht, elem_of_group_keys. eauto.
Qed.

(** The income bars of the monthly chart add up to the total income of
    the headline. *)
Theorem trace_receitas_total df bars :
  trace_receitas df = Some bars → series_sum bars.*2 == total_creditos df.
Proof.
  intros ->%trace_mensal_Some. unfold total_creditos, creditos.
  rewrite <- mensal_column_total. apply series_sum_fmap_ext. intros m _.
  unfold df_mensal. by rewrite decide_False.
Qed.

(** Under the sign convention the expense bars of the monthly chart add
    up to the total expense of the headline. *)
Theorem trace_despesas_total df bars :
  debits_nonpos df →
  trace_despesas df = Some bars → series_sum bars.*2 == total_debitos df.
Proof.
  intros Hs ->%trace_mensal_Some. unfold total_debitos. num_Q.
  rewrite Qabs_neg by by apply series_sum_nonpos, debits_nonpos_valores.
  unfold debitos.
  rewrite <- (mensal_column_total df "debito"), <- series_sum_fmap_opp.
  apply series_sum_fmap_ext. intros m _. rewrite df_mensal_debito.
  by apply Qabs_neg, mensal_sum_debito_nonpos.
Qed.

(** Without the sign convention the expense bars can only exceed the
    headline expense, never fall short of it: a month is made positive on
    its own before the months are compared. *)
Theorem trace_despesas_ge df bars :
  trace_despesas df = Some bars → total_debitos df <= series_sum bars.*2.
Proof.
  intros ->%trace_mensal_Some. unfold total_debitos, debitos. num_Q.
  rewrite <- (mensal_column_total df "debito").
  etrans; [apply abs_series_sum_le|]. rewrite <- list_fmap_compose.
  apply Qle_lteq. right. apply series_sum_fmap_ext. intros m _.
  by rewrite df_mensal_debito.
Qed.

(** ** Witnesses *)

(** Two months, out of date order, two rows on the same day. *)
Definition ledger_two_months : list (Row Q) :=
  [ dated_row 2024 2 10 "Mercado" (-80) "debito";
    dated_row 2024 1 5 "Renda" 2000 "credito";
    dated_row 2024 1 20 "Transporte" (-120) "debito";
    dated_row 2024 2 1 "Renda" 2100 "credito";
    dated_row 2024 1 20 "Mercado" (-300) "debito" ].

Lemma debits_nonpos_two_months : debits_nonpos ledger_two_months.
Proof. unfold debits_nonpos. vm_compute. repeat constructor; discriminate. Defined.

Lemma only_credito_debito_two_months : only_credito_debito ledger_two_months.
Proof. repeat constructor; (by left) || (by right). Defined.

End charts_exact.

Lemma pie_total_witness :
  (series_sum (despesas_por_categoria ledger_two_months).*2
   == total_debitos ledger_two_months)%Q.
Proof. apply (pie_total ledger_two_months debits_nonpos_two_months). Defined.

Lemma saldo_acumulado_final_witness :
  ∃ v, last (saldo_acumulado ledger_two_months) = Some v ∧
       (v == series_sum (valor <$> ledger_two_months))%Q.
Proof. by apply (saldo_acumulado_final ledger_two_months). Defined.

Lemma timeline_at_date_witness :
  ∃ v, last (take 3 (saldo_acumulado ledger_two_months)) = Some v ∧
       (v == 1580)%Q.
Proof.
  destruct (timeline_at_date ledger_two_months (mkDate 2024 1 20)) as [_ Hv].
  destruct Hv as (v & Hl & Hs); [done|]. exists v. split; [exact Hl|].
  rewrite Hs. reflexivity.
Defined.

Lemma timeline_ends_at_saldo_witness :
  ∃ v, last (saldo_acumulado ledger_two_months) = Some v ∧
       (v == saldo ledger_two_months)%Q.
Proof.
  by apply (timeline_ends_at_saldo ledger_two_months
              debits_nonpos_two_months only_credito_debito_two_months).
Defined.

Lemma trace_receitas_total_witness :
  (series_sum [2000; 2100] == total_creditos ledger_two_months)%Q.
Proof.
  apply (trace_receitas_total ledger_two_months
           [("2024-01", 2000%Q); ("2024-02", 2100%Q)]).
  reflexivity.
Defined.

Lemma trace_despesas_total_witness :
  (series_sum [420; 80] == total_debitos ledger_two_months)%Q.
Proof.
  apply (trace_despesas_total ledger_two_months
           [("2024-01", 420%Q); ("2024-02", 80%Q)]
           debits_nonpos_two_months).
  reflexivity.
Defined.

Lemma trace_despesas_ge_witness :
  (total_debitos ledger_two_months <= series_sum [420; 80])%Q.
Proof.
  apply (trace_despesas_ge ledger_two_months
           [("2024-01", 420%Q); ("2024-02", 80%Q)]).
  reflexivity.
Defined.
