(* ===== verification/Sample.v ===== *)
(** * Sample: the generated example ledger

    Models lines 72-101 of [src/dash.py]: the loop that builds the sample
    stored in the session when the user asks for example data.  The values
    [np.random] draws are a parameter ([Draw], one per transaction, for
    each day of January 2024); [draws_ok] states what the calls promise of
    them.  A date is stored as the text [strftime('%Y-%m-%d')] writes and
    read as [pd.to_datetime] reads it.  The theorems show that the sample
    always passes [process_data] and meets every convention the other
    files assume of a ledger. *)

From S2P Require Import Prelude Numeric Frame Ledger Format Calendar.
From S2P Require Import Goals Badges Kpi Charts.

Local Open Scope string_scope.
Local Open Scope list_scope.

(** [str.lower] on the letters A to Z. *)
Definition lower_char (c : Ascii.ascii) : Ascii.ascii :=
  let n := Ascii.N_of_ascii c in
  if ((65 <=? n) && (n <=? 90))%N then Ascii.ascii_of_N (n + 32) else c.

Fixpoint lower (s : string) : string :=
  match s with
  | EmptyString => EmptyString
  | String c s => String (lower_char c) (lower s)
  end.

(** Line 78. *)
Definition categorias_exemplo : list string :=
  ["Alimentação"; "Transporte"; "Saúde"; "Entretenimento"; "Educação";
   "Moradia"].

(** Line 74: the days of January 2024. *)
Definition dates : list Date :=
  (λ d, mkDate 2024 1 (Z.of_nat d)) <$> seq 1 31.

Section sample.
Context {A : Type} `{Num A} `{Printable A}.
Local Open Scope dash_scope.

(** What the generator draws for one transaction: the category (line 83),
    whether it is a debit (line 84) and the amount before its sign (lines
    87 and 90). *)
Record Draw := mkDraw {
  dr_categoria : string;
  dr_debito : bool;
  dr_uniform : A;
}.

(** [round(valor, 2)]. *)
Definition round2 (x : A) : A :=
  match fvalue_of x with
  | FFinite negative mag =>
      let v := lit (inject_Z (cents mag) / 100) in
      if negative then - v else v
  | _ => x
  end.

(** Lines 83-100: the row of one draw.  The date is stored as the text
    [strftime('%Y-%m-%d')] writes (line 95); the cell holds what
    [pd.to_datetime] reads in it (line 107). *)
Definition sample_row (date : Date) (d : Draw) : RawRow A :=
  let data := to_datetime_ymd (strftime_ymd date) in
  if dr_debito d then
    mkRaw data ("Gasto em " +:+ lower (dr_categoria d))
      (dr_categoria d) (Some (round2 (- dr_uniform d))) "debito" "Exemplo"
  else
    mkRaw data
      (if dr_uniform d >? lit 2000 then "Salário" else "Freelance")
      "Renda" (Some (round2 (dr_uniform d))) "credito" "Exemplo".

(** Lines 80-101: the loops over the days and over the draws of each day. *)
Definition sample_data (draws : Date → list Draw) : list (RawRow A) :=
  date ← dates; sample_row date <$> draws date.

End sample.

Arguments Draw A : clear implicits.

(** ** The sample over the rationals *)

Section sample_exact.
Local Open Scope Q_scope.
Implicit Types (d : Draw Q) (draws : Date → list (Draw Q)).

(** What [np.random] promises of a draw: a category of the list, and an
    amount within the interval of its branch. *)
Definition draw_ok d : Prop :=
  dr_categoria d ∈ categorias_exemplo ∧
  if dr_debito d then 20 <= dr_uniform d ∧ dr_uniform d < 500
  else 1000 <= dr_uniform d ∧ dr_uniform d < 3000.

(** Line 82: one to three transactions a day. *)
Definition draws_ok draws : Prop :=
  ∀ date, date ∈ dates →
    (1 ≤ length (draws date) ≤ 3)%nat ∧ Forall draw_ok (draws date).

(** The processed row of a draw. *)
Definition sample_clean (date : Date) d : Row Q :=
  if dr_debito d then
    mkRow date ("Gasto em " +:+ lower (dr_categoria d)) (dr_categoria d)
      (round2 (- dr_uniform d)) "debito" "Exemplo" (to_period date)
  else
    mkRow date (if Qle_bool (dr_uniform d) 2000 then "Freelance" else "Salário")
      "Renda" (round2 (dr_uniform d)) "credito" "Exemplo" (to_period date).

Lemma cents_nonneg (mag : Q) : 0 <= mag → (0 ≤ cents mag)%Z.
Proof.
  intros Hm. unfold cents.
  destruct (Z_lt_le_dec (round_half_even (mag * 100)) 0) as [Hneg|]; [|done].
  pose proof (round_half_even_error (mag * 100)) as He.
  apply Qabs_Qle_condition in He as [_ He].
  assert (inject_Z (round_half_even (mag * 100)) <= inject_Z (-1)) as Hle
    by (rewrite <- Zle_Qle; lia).
  change (inject_Z (-1)) with (-1) in Hle. lra.
Qed.

Lemma round2_sign (x : Q) :
  (x < 0 → round2 x <= 0) ∧ (0 <= x → 0 <= round2 x).
Proof.
  unfold round2, fvalue_of, Q_printable. num_Q.
  pose proof (cents_nonneg (Qabs x) (Qabs_nonneg x)) as Hc.
  rewrite Zle_Qle in Hc. change (inject_Z 0) with 0 in Hc. unfold Qdiv. change (/ 100) with (1 # 100).
  split; intros Hx.
  - rewrite bool_decide_eq_true_2 by done. lra.
  - rewrite bool_decide_eq_false_2 by lra. lra.
Qed.

(** The dates of the sample are read back from their text. *)
Lemma sample_date_read date :
  date ∈ dates → to_datetime_ymd (strftime_ymd date) = Some date.
Proof.
  revert date. apply Forall_forall.
  by apply (bool_decide_unpack _); vm_compute.
Qed.

Lemma clean_of_sample_row date d :
  date ∈ dates → clean_of (sample_row date d) = Some (sample_clean date d).
Proof.
  intros Hdate%sample_date_read.
  unfold clean_of, sample_row, sample_clean, numeric_valor, clean_row.
  rewrite Hdate. destruct (dr_debito d); simpl; [done|]. num_Q.
  by destruct (Qle_bool (dr_uniform d) 2000).
Qed.

Lemma omap_fmap_Some {B C D} (f : C → option D) (g : B → C) (h : B → D)
    (l : list B) :
  (∀ x, f (g x) = Some (h x)) → omap f (g <$> l) = h <$> l.
Proof.
  intros Hf. induction l as [|x l IH]; [done|]. csimpl. by rewrite Hf, IH.
Qed.

Lemma list_bind_ext_elem_of {B C} (f g : B → list C) (l : list B) :
  (∀ x, x ∈ l → f x = g x) → l ≫= f = l ≫= g.
Proof.
  induction l as [|x l IH]; intros Hfg; [done|]. csimpl.
  rewrite (Hfg x) by left. f_equal. apply IH. intros y Hy. apply Hfg. by right.
Qed.

Lemma omap_bind {B C D} (f : C → option D) (g : B → list C) (l : list B) :
  omap f (l ≫= g) = l ≫= (λ x, omap f (g x)).
Proof.
  induction l as [|x l IH]; [done|]. csimpl. by rewrite omap_app, IH.
Qed.

(** Processing the sample never raises and keeps every row. *)
Lemma process_sample_data draws :
  process_data (sample_data draws)
  = Ok (date ← dates; sample_clean date <$> draws date).
Proof.
  rewrite process_data_Ok.
  - f_equal. unfold sample_data. rewrite omap_bind.
    apply list_bind_ext_elem_of. intros date Hdate.
    apply omap_fmap_Some. intros d. by apply clean_of_sample_row.
  - unfold sample_data. apply Forall_bind, Forall_forall. intros date Hdate.
    apply Forall_fmap, Forall_forall. intros d _. unfold sample_row. simpl.
    rewrite (sample_date_read date Hdate). by destruct (dr_debito d).
Qed.

(** What each row of the processed sample looks like. *)
Definition sample_row_ok (r : Row Q) : Prop :=
  (∃ k, (1 ≤ k ≤ 31)%Z ∧ data r = mkDate 2024 1 k) ∧
  ((tipo r = "debito" ∧ valor r <= 0 ∧ categoria r ∈ categorias_exemplo) ∨
   (tipo r = "credito" ∧ 0 <= valor r ∧ categoria r = "Renda")).

Lemma elem_of_dates date :
  date ∈ dates ↔ ∃ k, (1 ≤ k ≤ 31)%Z ∧ date = mkDate 2024 1 k.
Proof.
  unfold dates. rewrite list_elem_of_fmap. setoid_rewrite elem_of_seq. split.
  - intros (n & -> & Hn). exists (Z.of_nat n). split; [lia|done].
  - intros (k & Hk & ->). exists (Z.to_nat k). split; [|lia].
    by rewrite Z2Nat.id by lia.
Qed.

Lemma sample_clean_ok date d :
  date ∈ dates → draw_ok d → sample_row_ok (sample_clean date d).
Proof.
  intros Hdate%elem_of_dates [Hc Hu]. unfold sample_clean.
  destruct (dr_debito d); (split; [done|]); simpl; [left|right];
    split_and!; try done.
  - apply round2_sign. lra.
  - apply round2_sign. lra.
Qed.

Lemma sample_rows_ok draws :
  draws_ok draws →
  Forall sample_row_ok (date ← dates; sample_clean date <$> draws date).
Proof.
  intros Hd. apply Forall_bind, Forall_forall. intros date Hdate.
  destruct (Hd date Hdate) as [_ Hall]. unfold compose. rewrite Forall_fmap.
  eapply Forall_impl; [exact Hall|]. intros d. by apply sample_clean_ok.
Qed.

Lemma length_bind_bounds {B C} (f : B → list C) (l : list B) lo hi :
  (∀ x, x ∈ l → lo ≤ length (f x) ≤ hi)%nat →
  (lo * length l ≤ length (l ≫= f) ≤ hi * length l)%nat.
Proof.
  induction l as [|x l IH]; intros Hf; csimpl; [lia|].
  rewrite length_app. pose proof (Hf x ltac:(by left)).
  pose proof (IH ltac:(intros; apply Hf; by right)). lia.
Qed.

(** C15: whatever the generator draws, the sample it stores is processed
    without loss and meets the conventions of the input format: debits are
    not positive, every row is a credit or a debit, no debit is filed under
    the income placeholder, every date is a day of January 2024, and there
    are between 31 and 93 rows. *)
Theorem sample_conventions draws df :
  draws_ok draws → process_data (sample_data draws) = Ok df →
  debits_nonpos df ∧ only_credito_debito df ∧
  (∀ r, r ∈ debitos df → categoria r ≠ "Renda") ∧
  Forall (λ r, to_period (data r) = mkPeriod 2024 1 ∧ valid_date (data r)) df ∧
  (31 ≤ length df ≤ 93)%nat.
Proof.
  intros Hd. rewrite process_sample_data. intros [= <-].
  pose proof (sample_rows_ok draws Hd) as Hall.
  assert (Hrenda : "Renda" ∉ categorias_exemplo) by compute_done.
  split; [|split; [|split; [|split]]].
  - unfold debits_nonpos, debitos. apply Forall_forall.
    rewrite Forall_forall in Hall.
    intros r [Ht Hr%Hall]%list_elem_of_filter.
    destruct Hr as [_ [(_ & Hv & _)|(Hc & _)]]; [done|congruence].
  - eapply Forall_impl; [exact Hall|]. intros r [_ [[? _]|[? _]]]; auto.
  - rewrite Forall_forall in Hall. unfold debitos.
    intros r [Ht Hr%Hall]%list_elem_of_filter.
    destruct Hr as [_ [(_ & _ & Hc)|(Hc & _)]]; [|congruence].
    intros Heq. by rewrite Heq in Hc.
  - eapply Forall_impl; [exact Hall|]. intros r [(k & Hk & ->) _].
    split; [done|]. unfold valid_date. simpl. lia.
  - assert (Hlen : length dates = 31%nat) by done.
    pose proof (length_bind_bounds
                  (λ date, sample_clean date <$> draws date) dates 1 3) as Hb.
    rewrite Hlen in Hb. apply Hb. intros date Hdate. rewrite length_fmap.
    by destruct (Hd date Hdate).
Qed.

End sample_exact.

(** ** Witnesses *)

(** Each day a fare of 35.50 and a salary of 2500. *)
Definition draws_example (date : Date) : list (Draw Q) :=
  [mkDraw "Transporte" true 35.5%Q; mkDraw "Moradia" false 2500%Q].

Lemma draws_example_ok : draws_ok draws_example.
Proof.
  intros date _. split; [simpl; lia|].
  repeat constructor; simpl; try lra; set_solver.
Qed.

Lemma sample_conventions_witness :
  let df := date ← dates; sample_clean date <$> draws_example date in
  debits_nonpos df ∧ only_credito_debito df ∧
  (∀ r, r ∈ debitos df → categoria r ≠ "Renda") ∧
  Forall (λ r, to_period (data r) = mkPeriod 2024 1 ∧ valid_date (data r)) df ∧
  (31 ≤ length df ≤ 93)%nat.
Proof.
  apply (sample_conventions draws_example _ draws_example_ok
           (process_sample_data draws_example)).
Defined.
