(* ===== verification/Table.v ===== *)
(** * Table: the filterable statement of transactions

    Models lines 425-470 of [src/dash.py]: the three widgets above the
    table, the filters they drive ([df_tabela]), the formatting of amounts
    and dates as text, and the descending sort on the formatted date
    ([df_display]).  The text search compiles what the user typed as a
    regular expression; the matcher is a parameter, [None] on a text that
    is not a pattern.  The theorems say which rows the table shows, and in
    which order: the sort compares the text [dd/mm/YYYY], so rows come by
    day of the month first, and the comment of line 463, most recent first,
    holds only while every row is of the same month. *)

From Stdlib Require Import Floats.
From stdpp Require Import sorting.
From S2P Require Import Prelude Numeric Frame Ledger Format.

Local Open Scope string_scope.
Local Open Scope list_scope.

(** A row as the table shows it (lines 460-461 and 467). *)
Record DisplayRow := mkDisplay {
  d_data : string;
  d_descricao : string;
  d_categoria : string;
  d_valor : string;
  d_tipo : string;
  d_tags : string;
}.

#[export] Instance DisplayRow_eq_dec : EqDecision DisplayRow.
Proof. solve_decision. Defined.

Section table.
Context {A : Type} `{Num A} `{Printable A} `{Sorter}.
Local Open Scope dash_scope.

(** [re.compile] with [IGNORECASE], then [search]: [None] when the text is
    not a valid pattern, otherwise the test a description passes when the
    pattern occurs in it. *)
Variable re_search : string → option (string → bool).

(** Lines 429-432: the choices of the type selector. *)
Definition tipo_options (df_filtered : list (Row A)) : list string :=
  "Todos" :: unique (tipo <$> df_filtered).

(** Lines 450-451. *)
Definition filter_tipo (tipo_filtro : string) (df_tabela : list (Row A))
  : list (Row A) :=
  if decide (tipo_filtro ≠ "Todos")
  then filter (λ r, tipo r = tipo_filtro) df_tabela
  else df_tabela.

(** Line 453. *)
Definition filter_valor_min (valor_min : A) (df_tabela : list (Row A))
  : list (Row A) :=
  filter (λ r, (abs (valor r) >=? valor_min) = true) df_tabela.

(** Lines 455-456: an empty search text filters nothing; any other text is
    compiled as a pattern. *)
Definition filter_descricao (busca_descricao : string)
    (df_tabela : list (Row A)) : result (list (Row A)) :=
  if decide (busca_descricao = "") then Ok df_tabela
  else match re_search busca_descricao with
       | Some found => Ok (filter (λ r, found (descricao r) = true) df_tabela)
       | None => Err PatternError
       end.

(** Lines 448-456. *)
Definition df_tabela (tipo_filtro : string) (valor_min : A)
    (busca_descricao : string) (df_filtered : list (Row A))
  : result (list (Row A)) :=
  filter_descricao busca_descricao
    (filter_valor_min valor_min (filter_tipo tipo_filtro df_filtered)).

(** Lines 460-461: amounts and dates become text. *)
Definition display_row (r : Row A) : DisplayRow :=
  {| d_data := strftime_dmy (data r); d_descricao := descricao r;
     d_categoria := categoria r; d_valor := format_money (valor r);
     d_tipo := tipo r; d_tags := tags r |}.

(** Lines 459-464: the formatted frame, sorted on the text of the date,
    descending. *)
Definition df_display (df_tabela : list (Row A)) : list DisplayRow :=
  sort_by (flip string_le) d_data (display_row <$> df_tabela).

(** Lines 448-470: what [st.dataframe] receives. *)
Definition extrato (tipo_filtro : string) (valor_min : A)
    (busca_descricao : string) (df_filtered : list (Row A))
  : result (list DisplayRow) :=
  let? rows := df_tabela tipo_filtro valor_min busca_descricao df_filtered in
  Ok (df_display rows).

(** ** The rows of the table *)

Lemma filter_tipo_sublist t rows : filter_tipo t rows `sublist_of` rows.
Proof. unfold filter_tipo. case_decide; [apply sublist_filter|done]. Qed.

Lemma elem_of_filter_tipo t rows r :
  r ∈ filter_tipo t rows ↔ r ∈ rows ∧ (t = "Todos" ∨ tipo r = t).
Proof using Type.
  clear. unfold filter_tipo.
  case_decide; rewrite ?list_elem_of_filter; naive_solver.
Qed.

Lemma df_tabela_sublist t v b df rows :
  df_tabela t v b df = Ok rows → rows `sublist_of` df.
Proof.
  unfold df_tabela, filter_descricao. intros Hrows.
  assert (Hv : filter_valor_min v (filter_tipo t df) `sublist_of` df).
  { etrans; [apply sublist_filter|apply filter_tipo_sublist]. }
  case_decide; [by injection Hrows as <-|].
  destruct (re_search b); [|done]. injection Hrows as <-.
  etrans; [apply sublist_filter|done].
Qed.


Lemma df_display_perm rows : df_display rows ≡ₚ display_row <$> rows.
Proof. apply sort_by_perm. Qed.

Lemma df_display_sorted rows :
  StronglySorted (on_key (flip string_le) d_data) (df_display rows).
Proof. apply sort_by_sorted; apply _. Qed.

(** When the rows bear distinct dates the order of the table is fixed,
    whatever sort the library runs. *)
Lemma df_display_unique rows :
  Forall (λ r, valid_date (data r)) rows → NoDup (data <$> rows) →
  df_display rows
  = merge_sort_by (flip string_le) d_data (display_row <$> rows).
Proof using Type.
  clear re_search. intros Hv Hnd. unfold df_display.
  apply (sort_by_unique (flip string_le) d_data). rewrite Forall_forall in Hv.
  intros ? ? (r1 & -> & Hr1)%list_elem_of_fmap (r2 & -> & Hr2)%list_elem_of_fmap.
  cbn [d_data display_row]. intros Hd%strftime_dmy_inj; [|by apply Hv..].
  f_equal.
  apply list_elem_of_lookup in Hr1 as [i Hi], Hr2 as [j Hj].
  assert (i = j) as ->; [|congruence].
  apply (NoDup_lookup (data <$> rows) i j (data r1)); [done| |];
    rewrite list_lookup_fmap; [by rewrite Hi|by rewrite Hj, Hd].
Qed.

(** The frame the table shows is the formatting of a reordering of the
    rows, in which no row is above a row that is later in the order of day,
    month and year. *)
Lemma df_display_rows rows :
  Forall (λ r, valid_date (data r)) rows →
  ∃ rows', rows' ≡ₚ rows ∧ df_display rows = display_row <$> rows' ∧
           StronglySorted (λ a b, dmy_le (data b) (data a)) rows'.
Proof.
  intros Hv.
  destruct (Permutation_fmap_inv display_row rows _ (df_display_perm rows))
    as (rows' & Heq & Hp).
  exists rows'. split_and!; [done..|].
  apply (StronglySorted_fmap_inv display_row _ (on_key (flip string_le) d_data));
    [|rewrite <- Heq; apply df_display_sorted].
  rewrite <- Hp, Forall_forall in Hv. intros a b Ha Hb Hab.
  by apply string_le_strftime_dmy; [apply Hv..|].
Qed.

End table.

Arguments extrato {A _ _ _} re_search tipo_filtro valor_min busca_descricao df_filtered.

Section table_exact.
Context `{Sorter} (re_search : string → option (string → bool)).
Local Open Scope Q_scope.
Implicit Types (df rows : list (Row Q)) (r : Row Q).

(** C32: the rows of the table are the rows of the filtered ledger that pass
    the three filters: the type chosen unless it is [Todos], an absolute
    amount of at least the minimum, and a description in which the search
    text is found unless it is empty. *)
Theorem elem_of_df_tabela t v b found df rows r :
  re_search b = Some found →
  df_tabela re_search t v b df = Ok rows →
  r ∈ rows ↔
  r ∈ df ∧ (t = "Todos" ∨ tipo r = t) ∧ v <= Qabs (valor r) ∧
  (b = "" ∨ found (descricao r) = true).
Proof.
  intros Hre. unfold df_tabela, filter_descricao, filter_valor_min.
  rewrite Hre. num_Q. rewrite <- Qle_bool_iff.
  case_decide; intros [= <-];
    rewrite !list_elem_of_filter, elem_of_filter_tipo; naive_solver.
Qed.

(** With the widgets untouched the table shows every row of the
    filtered ledger. *)
Theorem extrato_default df :
  extrato re_search "Todos" 0 "" df = Ok (df_display df).
Proof.
  unfold extrato, df_tabela, filter_descricao, filter_valor_min, filter_tipo.
  rewrite decide_True by done. rewrite decide_False by (intros Hn; by apply Hn).
  cbn [bind]. rewrite filter_all; [done|]. apply Forall_forall. intros r _.
  num_Q. apply Qle_bool_iff, Qabs_nonneg.
Qed.

(** While every row is of the same month the table lists the rows most
    recent first, whatever sort the library runs. *)
Theorem extrato_same_month df m :
  Forall (λ r, valid_date (data r)) df →
  Forall (λ r, to_period (data r) = m) df →
  ∃ rows', rows' ≡ₚ df ∧ df_display df = display_row <$> rows' ∧
           StronglySorted (λ a b, date_le (data b) (data a)) rows'.
Proof.
  intros Hv Hm. destruct (df_display_rows df Hv) as (rows' & Hp & Heq & Hs).
  exists rows'. split_and!; [done..|].
  apply (StronglySorted_weaken _ (λ a b, dmy_le (data b) (data a))); [|done].
  rewrite <- Hp, Forall_forall in Hm. intros a b Ha Hb Hle.
  pose proof (Hm a Ha) as Hma. rewrite <- (Hm b Hb) in Hma.
  injection Hma as Hy Hmo. unfold dmy_le, dmy_compare in Hle. unfold date_le.
  rewrite Hy, Hmo, !Z.compare_refl in Hle.
  destruct (Z.compare_spec (day (data b)) (day (data a))); [lia|lia|done].
Qed.

(** Two rows, the second one day more recent than the first. *)
Definition ledger_jan_feb : list (Row Q) :=
  [ dated_row 2024 1 31 "Mercado" (-80) "debito";
    dated_row 2024 2 1 "Renda" 2000 "credito" ].

(** C9: across months the table is not in date order: of two rows dated 31
    January and 1 February the older one is listed first, in whichever
    order the ledger holds them and whatever sort the library runs. *)
Theorem extrato_not_recent_first :
  d_data <$> df_display ledger_jan_feb = ["31/01/2024"; "01/02/2024"] ∧
  d_data <$> df_display (reverse ledger_jan_feb) = ["31/01/2024"; "01/02/2024"].
Proof.
  rewrite !df_display_unique; [by vm_compute|compute_done..].
Qed.

End table_exact.

(** ** Witnesses *)

(** A matcher that rejects an unbalanced parenthesis and finds every other
    text everywhere. *)
Definition re_paren (pattern : string) : option (string → bool) :=
  if decide (pattern = "(") then None else Some (λ _, true).


Lemma elem_of_df_tabela_witness :
  let r := dated_row 2024 1 31 "Mercado" (-80)%Q "debito" in
  r ∈ [r] ↔
  r ∈ ledger_jan_feb ∧ ("debito" = "Todos" ∨ tipo r = "debito") ∧
  (50 <= Qabs (valor r))%Q ∧ ("x" = "" ∨ true = true).
Proof.
  apply (elem_of_df_tabela re_paren "debito" 50%Q "x" (λ _, true)
           ledger_jan_feb); reflexivity.
Defined.

Lemma extrato_same_month_witness :
  let df := [example_row 3 "Mercado" (-80)%Q "debito";
             example_row 10 "Renda" 2000%Q "credito"] in
  ∃ rows', rows' ≡ₚ df ∧ df_display df = display_row <$> rows' ∧
           StronglySorted (λ a b, date_le (data b) (data a)) rows'.
Proof.
  apply (extrato_same_month _ (mkPeriod 2024 1));
    repeat constructor; compute; intuition discriminate.
Defined.
