(* ===== verification/Stats.v ===== *)
(** * Stats: the summary statistics

    Models lines 475-491 of [src/dash.py]: the number of transactions, the
    mean debit ([ticket_medio]), the smallest debit amount shown as the
    largest expense ([maior_despesa]) and the number of days the filtered
    ledger spans ([dias_analisados]).  A mean or a minimum of an empty
    series is not a number, here [None], which the cards print as [nan]. *)

From stdpp Require Import pretty.
From S2P Require Import Prelude Numeric Frame Ledger Format Calendar Goals Badges Kpi.

Local Open Scope string_scope.
Local Open Scope list_scope.

Section stats.
Context {A : Type} `{Num A} `{Printable A}.
Local Open Scope dash_scope.

(** [Series.mean]: not a number on an empty series. *)
Definition series_mean (l : list A) : option A :=
  match l with
  | [] => None
  | _ => Some (series_sum l / lit (inject_Z (Z.of_nat (length l))))
  end.

(** [Series.min]: not a number on an empty series. *)
Definition series_min (l : list A) : option A :=
  match l with
  | [] => None
  | x :: l => Some (foldl py_min x l)
  end.

(** Line 478. *)
Definition total_transacoes (df_filtered : list (Row A)) : nat :=
  length df_filtered.

(** Line 482. *)
Definition ticket_medio (df_filtered : list (Row A)) : option A :=
  series_mean (valor <$> debitos df_filtered).

(** Line 486. *)
Definition maior_despesa (df_filtered : list (Row A)) : option A :=
  series_min (valor <$> debitos df_filtered).

(** Lines 483 and 487: the figure shown, [f"R$ {abs(x):,.2f}"]. *)
Definition metric_abs (x : option A) : string :=
  match x with
  | Some v => format_money (abs v)
  | None => "R$ nan"
  end.

(** Line 490: the days from the first to the last date, both included;
    there is none on an empty frame. *)
Definition dias_analisados (df_filtered : list (Row A)) : option Z :=
  match max_date df_filtered, min_date df_filtered with
  | Some hi, Some lo => Some (days_from_civil hi - days_from_civil lo + 1)%Z
  | _, _ => None
  end.

(** Line 491. *)
Definition periodo_analisado (df_filtered : list (Row A)) : string :=
  match dias_analisados df_filtered with
  | Some n => pretty n +:+ " dias"
  | None => "nan dias"
  end.

End stats.

(** ** The figures over the rationals *)

Section stats_exact.
Local Open Scope Q_scope.
Implicit Types (df : list (Row Q)) (l : list Q).

Lemma py_min_cases (a b : Q) :
  (py_min a b = a ∧ a <= b) ∨ (py_min a b = b ∧ b <= a).
Proof. unfold py_min. num_Q. q_cases; [left|right]; split; try done; lra. Qed.

(** The minimum is a value of the series, below every other. *)
Lemma foldl_py_min_spec x l :
  foldl py_min x l ∈ x :: l ∧ Forall (λ y, foldl py_min x l <= y) (x :: l).
Proof.
  revert x. induction l as [|y l IH]; intros x; simpl.
  - split; [set_solver|]. constructor; [lra|done].
  - destruct (IH (py_min x y)) as [Hin Hall].
    apply Forall_cons in Hall as [Hm Hall].
    destruct (py_min_cases x y) as [[Hxy Hle]|[Hxy Hle]]; rewrite Hxy in *.
    + split; [set_solver|]. repeat constructor; [done|lra|done].
    + split; [set_solver|]. repeat constructor; [lra|done|done].
Qed.

Lemma series_min_spec l m :
  series_min l = Some m → m ∈ l ∧ Forall (λ y, m <= y) l.
Proof. destruct l as [|x l]; [done|]. intros [= <-]. apply foldl_py_min_spec. Qed.

(** The mean debit shown, times the number of debit rows, is the total
    expense of the headline, whatever the signs of the amounts. *)
Theorem ticket_medio_total df t :
  ticket_medio df = Some t →
  Qabs t * inject_Z (Z.of_nat (length (debitos df))) == total_debitos df.
Proof.
  unfold ticket_medio, series_mean, total_debitos. rewrite <- (length_fmap valor).
  destruct (valor <$> debitos df) as [|x l]; [done|]. intros [= <-]. num_Q.
  cbn [length]. set (n := inject_Z _).
  assert (0 < n) as Hn.
  { unfold n, Qlt. simpl. lia. }
  unfold Qdiv. rewrite Qabs_Qmult.
  assert (Qabs (/ n) == / n) as ->
    by by apply Qabs_pos, Qlt_le_weak, Qinv_lt_0_compat.
  field. lra.
Qed.

(** C34: under the sign convention the figure shown as the largest expense
    is the amount of a debit row, and no debit row has a larger absolute
    amount. *)
Theorem maior_despesa_largest df m :
  debits_nonpos df → maior_despesa df = Some m →
  (∃ r, r ∈ debitos df ∧ valor r = m) ∧
  ∀ r, r ∈ debitos df → Qabs (valor r) <= Qabs m.
Proof.
  intros Hs [Hin Hall]%series_min_spec.
  apply list_elem_of_fmap in Hin as (r & -> & Hr). split; [by exists r|].
  unfold debits_nonpos in Hs. rewrite Forall_fmap, Forall_forall in *.
  intros r' Hr'. pose proof (Hall r' Hr'). pose proof (Hs r' Hr').
  pose proof (Hs r Hr). simpl in *. rewrite !Qabs_neg by done. lra.
Qed.

(** On a ledger that is not empty the number of days analysed exists
    and is at least one. *)
Theorem dias_analisados_pos df :
  Forall (λ r, calendar_date (data r)) df → df ≠ [] →
  ∃ n, dias_analisados df = Some n ∧ (1 ≤ n)%Z.
Proof.
  intros Hc Hne. unfold dias_analisados.
  destruct df as [|r df]; [done|]. clear Hne.
  destruct (max_date (r :: df)) as [hi|] eqn:Hhi; [|done].
  destruct (min_date (r :: df)) as [lo|] eqn:Hlo; [|done].
  eexists; split; [done|].
  pose proof (max_date_elem _ _ Hhi) as (rh & -> & Hrh)%list_elem_of_fmap.
  pose proof (min_date_elem _ _ Hlo) as (rl & -> & Hrl)%list_elem_of_fmap.
  apply min_date_le in Hlo. rewrite Forall_forall in Hc, Hlo.
  pose proof (days_from_civil_le (data rl) (data rh) (Hc _ Hrl) (Hc _ Hrh)
                (Hlo _ Hrh)). lia.
Qed.

(** A refund entered as a debit with a positive amount hides behind a
    smaller expense: the card shows 10.00 while a debit row carries 30. *)
Example maior_despesa_refund :
  let df := [example_row 5 "Mercado" (-10) "debito";
             example_row 9 "Mercado" 30 "debito"] in
  metric_abs (maior_despesa df) = "R$ 10.00".
Proof. by vm_compute. Qed.

(** A ledger without debits shows [nan] in both cards. *)
Example stats_without_debits :
  let df := [example_row 5 "Renda" 2000 "credito"] in
  metric_abs (ticket_medio df) = "R$ nan" ∧
  metric_abs (maior_despesa df) = "R$ nan" ∧
  periodo_analisado df = "1 dias".
Proof. by vm_compute. Qed.

End stats_exact.

(** ** Witnesses *)

Lemma ticket_medio_total_witness :
  (Qabs (-650 # 3) * inject_Z (Z.of_nat (length (debitos ledger_spec)))
   == total_debitos ledger_spec)%Q.
Proof. apply (ticket_medio_total ledger_spec (-650 # 3)). reflexivity. Defined.

Lemma maior_despesa_largest_witness :
  (∃ r, r ∈ debitos ledger_spec ∧ valor r = (-500)%Q) ∧
  ∀ r, r ∈ debitos ledger_spec → (Qabs (valor r) <= Qabs (-500))%Q.
Proof.
  apply (maior_despesa_largest ledger_spec (-500)%Q debits_nonpos_ledger_spec).
  reflexivity.
Defined.

Lemma dias_analisados_pos_witness :
  ∃ n, dias_analisados ledger_spec = Some n ∧ (1 ≤ n)%Z.
Proof.
  apply (dias_analisados_pos ledger_spec); [|done].
  repeat constructor; compute; intuition discriminate.
Defined.
