(* ===== verification/Progress.v ===== *)
(** * Progress: the progress figures of each expense category

    Models lines 273-317 of [src/dash.py]: for each expense category the
    percentage of the goal consumed ([percentual_real]), the value clamped
    for the bar ([percentual_barra]), the record appended to
    [progress_data], the branch that chooses how the bar is drawn, the text
    on the bar and the two amounts shown beside it.  The
    three first branches call [st.progress], which accepts a number between
    0 and 1 only; the last one draws a full red bar in HTML. *)

From Stdlib Require Import Floats.
From S2P Require Import Prelude Numeric Ledger Format Goals Badges.

Local Open Scope string_scope.
Local Open Scope list_scope.

(** How the bar of a category is drawn (lines 295-311). *)
Inductive BarStyle :=
| BarPlain      (* percentual_real <= 70: plain text *)
| BarWarning    (* <= 85: warning sign *)
| BarAlarm      (* <= 100: siren *)
| BarRed.       (* above 100: red HTML bar *)

#[export] Instance BarStyle_eq_dec : EqDecision BarStyle.
Proof. solve_decision. Defined.

Section progress.
Context {A : Type} `{Num A} `{Printable A}.
Local Open Scope dash_scope.

(** Line 281. *)
Definition percentual_real (gasto_categoria meta_categoria : A) : A :=
  if meta_categoria >? zero then (gasto_categoria / meta_categoria) * lit 100
  else zero.

(** Line 282. *)
Definition percentual_barra (percentual_real : A) : A :=
  py_min percentual_real (lit 100).

(** The dictionary appended to [progress_data] (lines 284-289). *)
Record ProgressEntry := mkProgress {
  pe_categoria : string;
  pe_gasto : A;
  pe_meta : A;
  pe_percentual : A;
}.

(** Lines 295-311: the branch taken. *)
Definition bar_style (percentual_real : A) : BarStyle :=
  if percentual_real <=? lit 70 then BarPlain
  else if percentual_real <=? lit 85 then BarWarning
  else if percentual_real <=? lit 100 then BarAlarm
  else BarRed.

(** The number handed to [st.progress] in the first three branches; the
    red bar takes none. *)
Definition progress_value (percentual_real : A) : option A :=
  match bar_style percentual_real with
  | BarRed => None
  | _ => Some (percentual_barra percentual_real / lit 100)
  end.

(** The text on the bar (lines 296-307): the percentage itself, not the
    clamped one, behind the sign of its band. *)
Definition bar_text (style : BarStyle) (percentual_real : A) : string :=
  let text := format_1f (fvalue_of percentual_real) +:+ "% da meta" in
  match style with
  | BarPlain => text
  | BarWarning => "⚠️ " +:+ text
  | BarAlarm | BarRed => "🚨 " +:+ text
  end.

(** What one iteration shows: the bar with its text, and the two metrics
    of lines 313-317. *)
Record ProgressView := mkView {
  pv_entry : ProgressEntry;
  pv_style : BarStyle;
  pv_value : option A;
  pv_text : string;
  pv_gasto : string;
  pv_meta : string;
}.

(** Lines 274-317, one iteration. *)
Definition progress_step (df_filtered : list (Row A)) (metas : gmap string A)
    (categoria : string) : ProgressView :=
  let gasto := gasto_categoria df_filtered categoria in
  let meta := meta_get metas categoria in
  let real := percentual_real gasto meta in
  {| pv_entry := {| pe_categoria := categoria; pe_gasto := gasto;
                    pe_meta := meta; pe_percentual := real |};
     pv_style := bar_style real;
     pv_value := progress_value real;
     pv_text := bar_text (bar_style real) real;
     pv_gasto := format_money gasto;
     pv_meta := format_money meta |}.

(** Lines 273-317: the loop; [progress_data] is the list of the entries. *)
Definition progress_loop (df_filtered : list (Row A)) (metas : gmap string A)
  : list ProgressView :=
  progress_step df_filtered metas <$> categorias_despesas df_filtered.

Definition progress_data (df_filtered : list (Row A)) (metas : gmap string A)
  : list ProgressEntry :=
  pv_entry <$> progress_loop df_filtered metas.

End progress.

Arguments ProgressEntry A : clear implicits.
Arguments ProgressView A : clear implicits.

(** The bar style that corresponds to each badge: the three badges under the
    goal have a style of their own, the three above it share the red bar. *)
Definition style_of_badge (t : BadgeType) : BarStyle :=
  match t with
  | Ouro => BarPlain
  | Prata => BarWarning
  | Bronze => BarAlarm
  | AcimaDaMeta | AlertaAlto | AlertaCritico => BarRed
  end.

Section progress_exact.
Local Open Scope Q_scope.
Implicit Types (gasto meta p : Q).

(** For a positive goal, comparing the percentage with a constant is
    comparing the amount with that share of the goal. *)
Lemma percent_le_iff gasto meta k :
  0 < meta → (gasto / meta * 100 <= k ↔ gasto * 100 <= k * meta).
Proof.
  intros Hm. split; intros Hle.
  - apply (Qmult_le_r _ _ (/ meta)); [by apply Qinv_lt_0_compat|].
    rewrite <- (Qmult_assoc k), Qmult_inv_r by lra.
    unfold Qdiv in Hle. lra.
  - apply (Qmult_le_r _ _ (/ meta)) in Hle; [|by apply Qinv_lt_0_compat].
    rewrite <- (Qmult_assoc k), Qmult_inv_r in Hle by lra.
    unfold Qdiv. lra.
Qed.

Lemma percentual_real_pos gasto meta :
  0 < meta → percentual_real gasto meta = gasto / meta * 100.
Proof. intros Hm. unfold percentual_real. q_cases; [lra|done]. Qed.

Lemma percentual_real_nonpos gasto meta :
  meta <= 0 → percentual_real gasto meta = 0.
Proof. intros Hm. unfold percentual_real. q_cases; [done|lra]. Qed.

Lemma percentual_real_nonneg gasto meta :
  0 <= gasto → 0 <= percentual_real gasto meta.
Proof.
  intros Hg. destruct (decide (0 < meta)) as [Hm|Hm].
  - rewrite percentual_real_pos by done.
    apply Qmult_le_0_compat; [|lra]. apply Qle_shift_div_l; [done|lra].
  - rewrite percentual_real_nonpos; [lra|]. by apply Qnot_lt_le.
Qed.

Lemma percentual_barra_min p : percentual_barra p == Qmin p 100.
Proof. unfold percentual_barra. by rewrite py_min_Q. Qed.

(** C13: the value of the bar is the percentage clamped at 100 and lies
    between 0 and 100 for every amount spent and every goal, a zero or
    negative goal included. *)
Theorem percentual_barra_bounds gasto meta :
  0 <= gasto →
  let p := percentual_real gasto meta in
  percentual_barra p == Qmin p 100 ∧
  0 <= percentual_barra p ∧ percentual_barra p <= 100.
Proof.
  intros Hg p. pose proof (percentual_real_nonneg gasto meta Hg) as Hp.
  fold p in Hp. split; [apply percentual_barra_min|].
  unfold percentual_barra, py_min. q_cases; lra.
Qed.

(** Whenever the script calls [st.progress], the number it passes is
    within the range the widget accepts, 0 to 1. *)
Theorem progress_value_in_range gasto meta v :
  0 <= gasto →
  progress_value (percentual_real gasto meta) = Some v →
  0 <= v ∧ v <= 1.
Proof.
  intros Hg. pose proof (percentual_real_nonneg gasto meta Hg) as Hp.
  unfold progress_value, bar_style, percentual_barra, py_min.
  generalize dependent (percentual_real gasto meta). intros p Hp.
  q_cases; intros [= <-]; unfold Qdiv; change (/ 100) with (1 # 100); lra.
Qed.

(** The bar style in terms of the amount and the goal. *)
Lemma bar_style_pos gasto meta :
  0 < meta →
  bar_style (percentual_real gasto meta)
  = if decide (gasto <= meta * 0.7) then BarPlain
    else if decide (gasto <= meta * 0.85) then BarWarning
    else if decide (gasto <= meta) then BarAlarm
    else BarRed.
Proof.
  intros Hm. rewrite percentual_real_pos by done. unfold bar_style. num_Q.
  pose proof (percent_le_iff gasto meta 70 Hm).
  pose proof (percent_le_iff gasto meta 85 Hm).
  pose proof (percent_le_iff gasto meta 100 Hm).
  q_cases; repeat case_decide; try done; lra.
Qed.

(** C4: for a positive goal the bar and the badge of a category tell the
    same story: the bar style is the one that corresponds to the badge the
    chain awards. *)
Theorem bar_style_matches_badge gasto meta prev t c :
  0 < meta → 0 <= gasto →
  badge_chain gasto meta prev = Some (t, c) →
  bar_style (percentual_real gasto meta) = style_of_badge t.
Proof.
  intros Hm Hg. rewrite badge_chain_ref, bar_style_pos by done.
  intros [= <- _]. unfold badge_ref.
  repeat case_decide; try done; lra.
Qed.

(** For a goal of zero the two disagree: any positive amount earns the
    critical alert while the bar shows 0 percent in the plain style. *)
Theorem zero_goal_bar_vs_badge gasto prev :
  0 < gasto →
  badge_chain gasto 0 prev = Some (AlertaCritico, red) ∧
  percentual_real gasto 0 = 0 ∧
  bar_style (percentual_real gasto 0) = BarPlain.
Proof.
  intros Hg. rewrite badge_chain_ref, badge_ref_zero_goal by lra.
  rewrite decide_False by lra. rewrite percentual_real_nonpos by lra.
  done.
Qed.

(** One iteration run on a category at 85 percent of the default goal, over
    the rationals, and on one above its goal, in binary64: the text shows
    the percentage itself while the bar is full. *)
Example progress_step_texts :
  let v := progress_step [example_row 5 "Mercado" (-850) "debito"] ∅ "Mercado" in
  let w := progress_step [example_row 5 "Mercado" (-1234.565)%float "debito"] ∅
             "Mercado" in
  (pv_style v, pv_text v, pv_gasto v, pv_meta v)
  = (BarWarning, "⚠️ 85.0% da meta", "R$ 850.00", "R$ 1,000.00") ∧
  (pv_style w, pv_value w, pv_text w, pv_gasto w)
  = (BarRed, None, "🚨 123.5% da meta", "R$ 1,234.57").
Proof. vm_compute. done. Qed.

(** ** Witnesses *)

Lemma percentual_barra_bounds_witness :
  percentual_barra (percentual_real 150 100) == Qmin (percentual_real 150 100) 100 ∧
  0 <= percentual_barra (percentual_real 150 100) ∧
  percentual_barra (percentual_real 150 100) <= 100.
Proof. apply (percentual_barra_bounds 150 100). lra. Defined.

Lemma progress_value_in_range_witness :
  0 <= percentual_barra (percentual_real 500 1000) / 100 ∧
  percentual_barra (percentual_real 500 1000) / 100 <= 1.
Proof.
  apply (progress_value_in_range 500 1000); [lra|].
  vm_compute. reflexivity.
Defined.

Lemma bar_style_matches_badge_witness :
  bar_style (percentual_real 80 100) = style_of_badge Prata.
Proof.
  apply (bar_style_matches_badge 80 100 None Prata silver);
    [lra | lra | reflexivity].
Defined.

Lemma zero_goal_bar_vs_badge_witness :
  badge_chain 35 0 None = Some (AlertaCritico, red) ∧
  percentual_real 35 0 = 0 ∧
  bar_style (percentual_real 35 0) = BarPlain.
Proof. apply (zero_goal_bar_vs_badge 35 None). lra. Defined.

End progress_exact.
