(* ===== verification/Session.v ===== *)
(** * Session: one run of the script, and the runs of a browser tab

    [src/dash.py] is executed from top to bottom each time the user touches
    a widget, against [st.session_state], which survives from run to run.
    [run] is one such execution: it takes the session and what the widgets
    return in this run ([Inputs]) and gives the session the run leaves and
    either what it shows ([View]) or the exception that ends it.  The parts
    are those of the other files, in the order of the script: the sample
    button (lines 72-103), the loading block (lines 113-124), the sidebar
    filters (lines 126-156), the cards, the goals column, the charts, the
    table and the statistics.  A write to the session made before an
    exception stays.  [reachable] is the step relation of a tab: the initial
    session and every session a run leaves; the theorems show the invariant
    of the goals dictionary by induction on it, the only exceptions a run
    over exact numbers can raise, and that a rerun without new input
    changes nothing.  [runs_to] is the same relation from any session, with
    any widgets; no run, however it ends, removes anything from the
    session. *)

From Stdlib Require Import Floats.
From S2P Require Import Prelude Numeric Frame Ledger Format Calendar Goals.
From S2P Require Import Badges Kpi Charts Sample Table Stats Progress.

Local Open Scope string_scope.
Local Open Scope list_scope.

Section session.
Context {A : Type} `{Num A} `{Printable A} `{Sorter}.

(** [st.session_state]: the two entries the script uses. *)
Record Session := mkSession {
  ss_sample_df : option (list (RawRow A));
  ss_metas : option (gmap string A);
}.

(** What the user and the widgets contribute to one run. *)
Record Inputs := mkInputs {
  in_uploaded_file : option (result (list (RawRow A)));
  in_sample_button : option (list (RawRow A));
  in_date_input : list Date → list Date;
  in_multiselect : list string → list string;
  in_number_input : string → A → A → A;
  in_selectbox : list string → string;
  in_valor_min : A;
  in_busca_descricao : string;
  in_re_search : string → option (string → bool);
}.

(** The goals column: the badge messages and the progress bars. *)
Record GoalsView := mkGoalsView {
  gv_badges : list BadgeMsg;
  gv_progress : list (ProgressView A);
}.

(** What a run shows when there is a ledger. *)
Record Page := mkPage {
  pg_renda : Metric;
  pg_despesa : Metric;
  pg_saldo : Metric;
  pg_goals : option GoalsView;
  pg_pie : option (list (string * A));
  pg_timeline : list (Date * A);
  pg_receitas : option (list (string * A));
  pg_despesas : option (list (string * A));
  pg_extrato : list DisplayRow;
  pg_total_transacoes : nat;
  pg_ticket_medio : string;
  pg_maior_despesa : string;
  pg_periodo : string;
}.

Inductive View :=
| Welcome (msg : LoadMsg)                  (* lines 493-529 *)
| Dashboard (msg : LoadMsg) (page : Page). (* lines 126-491 *)

(** Lines 72-103: the button stores the generated sample in the session. *)
Definition press_sample (i : Inputs) (s : Session) : Session :=
  match in_sample_button i with
  | Some sample => {| ss_sample_df := Some sample; ss_metas := ss_metas s |}
  | None => s
  end.

(** Lines 200-317: the goals, the badges and the progress bars, shown when
    there is an expense category.  The goals are written to the session
    before anything that can raise after them. *)
Definition goals_column (i : Inputs) (df_filtered : list (Row A)) (s : Session)
  : Session * result (option GoalsView) :=
  match categorias_despesas df_filtered with
  | [] => (s, Ok None)
  | (_ :: _) as categorias =>
      let '(metas, raised) :=
        set_metas_checked (in_number_input i) categorias
          (init_metas (ss_metas s)) in
      let s' := {| ss_sample_df := ss_sample_df s; ss_metas := Some metas |} in
      match raised with
      | Some e => (s', Err e)
      | None =>
          (s', let? badges_conquistadas := badges df_filtered metas in
               Ok (Some {| gv_badges := badge_messages badges_conquistadas;
                           gv_progress := progress_loop df_filtered metas |}))
      end
  end.

(** Lines 126-156: the frame the rest of the run works on. *)
Definition df_filtered_of (i : Inputs) (df : list (Row A)) : list (Row A) :=
  let df_period := filter_period (in_date_input i (default_date_range df)) df in
  filter_categorias (in_multiselect i (categorias_disponiveis df_period))
    df_period.

(** Lines 126-491. *)
Definition dashboard (i : Inputs) (msg : LoadMsg) (df : list (Row A))
    (s : Session) : Session * result View :=
  let df_filtered := df_filtered_of i df in
  let '(s', goals) := goals_column i df_filtered s in
  (s',
   let? goals := goals in
   let? table :=
     extrato (in_re_search i) (in_selectbox i (tipo_options df_filtered))
       (in_valor_min i) (in_busca_descricao i) df_filtered in
   Ok (Dashboard msg
         {| pg_renda := metric_renda df_filtered;
            pg_despesa := metric_despesa df_filtered;
            pg_saldo := metric_saldo df_filtered;
            pg_goals := goals;
            pg_pie := fig_pie df_filtered;
            pg_timeline := fig_timeline df_filtered;
            pg_receitas := trace_receitas df_filtered;
            pg_despesas := trace_despesas df_filtered;
            pg_extrato := table;
            pg_total_transacoes := total_transacoes df_filtered;
            pg_ticket_medio := metric_abs (ticket_medio df_filtered);
            pg_maior_despesa := metric_abs (maior_despesa df_filtered);
            pg_periodo := periodo_analisado df_filtered |})).

(** One execution of the script: the session it leaves and what it shows,
    or the exception that ends it.  A frame left unprocessed by a failed
    upload reaches line 132, where [.date()] is missing on its text. *)
Definition run (s : Session) (i : Inputs) : Session * result View :=
  let s := press_sample i s in
  match load_df (in_uploaded_file i) (ss_sample_df s) with
  | Err e => (s, Err e)
  | Ok (NoFrame, msg) => (s, Ok (Welcome msg))
  | Ok (RawFrame _, _) => (s, Err AttributeError)
  | Ok (Clean df, msg) => dashboard i msg df s
  end.

(** A run in which the user touches no widget: each returns its initial
    value, the goal widgets the value they are offered. *)
Definition inputs_untouched (uploaded_file : option (result (list (RawRow A))))
  : Inputs :=
  {| in_uploaded_file := uploaded_file;
     in_sample_button := None;
     in_date_input := id;
     in_multiselect := id;
     in_number_input := λ _ min_value value,
                          if ltb value min_value then min_value else value;
     in_selectbox := λ _, "Todos";
     in_valor_min := zero;
     in_busca_descricao := "";
     in_re_search := λ _, None |}.

(** The raw row a processed row comes from. *)
Definition raw_of (r : Row A) : RawRow A :=
  mkRaw (Some (data r)) (descricao r) (categoria r) (Some (valor r)) (tipo r)
    (tags r).

(** The session a browser tab starts with. *)
Definition session_init : Session :=
  {| ss_sample_df := None; ss_metas := None |}.

(** The widget contract the script relies on. *)
Definition widgets_ok (i : Inputs) : Prop := respects_min (in_number_input i).

(** The sessions a tab can be in: reruns from the initial one. *)
Inductive reachable : Session → Prop :=
| reachable_init : reachable session_init
| reachable_run s i : reachable s → widgets_ok i → reachable (run s i).1.

(** Every stored goal is non-negative. *)
Definition session_ok (s : Session) : Prop :=
  ∀ metas, ss_metas s = Some metas → metas_nonneg metas.

End session.

Arguments Session A : clear implicits.
Arguments Inputs A : clear implicits.
Arguments GoalsView A : clear implicits.
Arguments Page A : clear implicits.
Arguments View A : clear implicits.

(** ** What stays in the session *)

Section session_grows.
Context {A : Type} `{Num A} `{Printable A} `{Sorter}.
Implicit Types (s : Session A) (i : Inputs A).

(** Nothing is removed: a stored sample stays, and so does the dictionary
    of goals and every key in it. *)
Definition session_le s s' : Prop :=
  (is_Some (ss_sample_df s) → is_Some (ss_sample_df s')) ∧
  (is_Some (ss_metas s) → is_Some (ss_metas s')) ∧
  dom (init_metas (ss_metas s)) ⊆ dom (init_metas (ss_metas s')).

(** The sessions a session can become: reruns from it, with any inputs. *)
Inductive runs_to s : Session A → Prop :=
| runs_to_refl : runs_to s s
| runs_to_step s' i : runs_to s s' → runs_to s (run s' i).1.

#[export] Instance session_le_preorder : PreOrder session_le.
Proof.
  split; [done|]. intros s1 s2 s3 (? & ? & ?) (? & ? & ?).
  split_and!; [tauto|tauto|set_solver].
Qed.

Lemma press_sample_le i s : session_le s (press_sample i s).
Proof. unfold press_sample. by destruct (in_sample_button i). Qed.

Lemma goals_column_le i df s : session_le s (goals_column i df s).1.
Proof.
  unfold goals_column. destruct (categorias_despesas df) as [|c cs]; [done|].
  pose proof (set_metas_checked_subseteq (in_number_input i) (c :: cs)
                (init_metas (ss_metas s))) as Hd.
  destruct (set_metas_checked _ _ _) as [metas [e|]]; by split_and!.
Qed.

Lemma dashboard_session i msg df s :
  (dashboard i msg df s).1 = (goals_column i (df_filtered_of i df) s).1.
Proof. unfold dashboard. by destruct (goals_column _ _ _). Qed.

Lemma run_le s i : session_le s (run s i).1.
Proof.
  etrans; [apply (press_sample_le i)|]. unfold run.
  destruct (load_df _ _) as [[[| |df] msg]|e]; try done.
  rewrite dashboard_session. apply goals_column_le.
Qed.

(** C25: no run removes anything from the session, however it ends: once
    the sample is stored it stays stored, and a goal entered for a category
    stays in the dictionary through every later run, also when the category
    has left the filtered ledger and when a run raises. *)
Theorem runs_to_le s s' : runs_to s s' → session_le s s'.
Proof.
  induction 1 as [|s' i _ IH]; [done|]. etrans; [exact IH|apply run_le].
Qed.

End session_grows.

(** ** Runs over the rationals *)

Section session_exact.
Context `{Sorter}.
Implicit Types (s : Session Q) (i : Inputs Q) (df : list (Row Q)).

Lemma init_metas_nonneg s : session_ok s → metas_nonneg (init_metas (ss_metas s)).
Proof.
  intros Hs. unfold init_metas. destruct (ss_metas s) as [m|] eqn:Hm; simpl.
  - by apply Hs.
  - apply map_Forall_empty.
Qed.

(** What the goals column does when the widget honours its minimum and the
    session holds non-negative goals: it stores the goals the plain loop
    computes and shows a badge and a bar per category. *)
Lemma goals_column_ok i df s :
  widgets_ok i → session_ok s →
  goals_column i df s
  = match categorias_despesas df with
    | [] => (s, Ok None)
    | (_ :: _) as cs =>
        let metas := set_metas (in_number_input i) cs (init_metas (ss_metas s)) in
        ({| ss_sample_df := ss_sample_df s; ss_metas := Some metas |},
         Ok (Some {| gv_badges := badge_messages (badge_entry df metas <$> cs);
                     gv_progress := progress_loop df metas |}))
    end.
Proof.
  intros Hw Hs. unfold goals_column.
  destruct (categorias_despesas df) as [|c cs] eqn:Hcs; [done|].
  rewrite set_metas_checked_nonneg by auto using init_metas_nonneg.
  cbn zeta. unfold badges. by rewrite badges_loop_ref, Hcs.
Qed.

Lemma goals_column_session_ok i df s :
  widgets_ok i → session_ok s → session_ok (goals_column i df s).1.
Proof.
  intros Hw Hs. rewrite goals_column_ok by done.
  destruct (categorias_despesas df) as [|c cs]; [done|].
  intros m [= <-].
  apply (set_metas_nonneg (in_number_input i) (c :: cs));
    [done|by apply init_metas_nonneg].
Qed.

Lemma press_sample_ok i s : session_ok s → session_ok (press_sample i s).
Proof. unfold press_sample. by destruct (in_sample_button i). Qed.

Lemma run_session_ok s i :
  widgets_ok i → session_ok s → session_ok (run s i).1.
Proof.
  intros Hw Hs%(press_sample_ok i). unfold run.
  destruct (load_df _ _) as [[[| |df] msg]|e]; try done.
  rewrite dashboard_session. by apply goals_column_session_ok.
Qed.

(** C16: in every session a browser tab can reach through runs whose goal
    widgets honour their minimum, every stored goal is non-negative. *)
Theorem reachable_session_ok s : reachable s → session_ok s.
Proof.
  induction 1 as [|s i _ IH Hw]; [done|]. by apply run_session_ok.
Qed.

Lemma dashboard_result i msg df s :
  widgets_ok i → session_ok s →
  (∃ page, (dashboard i msg df s).2 = Ok (Dashboard msg page)) ∨
  ((dashboard i msg df s).2 = Err PatternError ∧
   in_busca_descricao i ≠ "" ∧
   in_re_search i (in_busca_descricao i) = None).
Proof.
  intros Hw Hs. unfold dashboard. rewrite goals_column_ok by done.
  set (df' := df_filtered_of i df).
  assert (Ht : (∃ t, extrato (in_re_search i) (in_selectbox i (tipo_options df'))
                       (in_valor_min i) (in_busca_descricao i) df' = Ok t) ∨
               (extrato (in_re_search i) (in_selectbox i (tipo_options df'))
                  (in_valor_min i) (in_busca_descricao i) df' = Err PatternError ∧
                in_busca_descricao i ≠ "" ∧
                in_re_search i (in_busca_descricao i) = None)).
  { unfold extrato, df_tabela, filter_descricao.
    case_decide; [left; by eexists|].
    destruct (in_re_search i _); [left; by eexists|by right]. }
  destruct (categorias_despesas df'), Ht as [[t ->]|(-> & ? & ?)]; simpl; eauto.
Qed.


(** Without an upload and without a sample in the session the run shows
    the welcome page and leaves the session as it found it. *)
Theorem run_welcome s i :
  in_uploaded_file i = None → in_sample_button i = None →
  ss_sample_df s = None →
  run s i = (s, Ok (Welcome MsgNone)).
Proof.
  intros Hu Hb Hs. unfold run, press_sample, load_df. by rewrite Hb, Hu, Hs.
Qed.

(** ** Reruns *)

(** The widget returns again what it returned last time. *)
Definition widgets_stable i : Prop :=
  ∀ key min_value value,
    in_number_input i key min_value (in_number_input i key min_value value)
    = in_number_input i key min_value value.

Lemma goals_column_rerun i df s :
  widgets_ok i → widgets_stable i → session_ok s →
  goals_column i df (goals_column i df s).1 = goals_column i df s.
Proof.
  intros Hw Hst Hs.
  rewrite (goals_column_ok i df (goals_column i df s).1)
    by auto using goals_column_session_ok.
  rewrite !goals_column_ok by done.
  destruct (categorias_despesas df) as [|c cs] eqn:Hcs; [done|].
  cbn [fst ss_metas ss_sample_df init_metas default]. unfold id.
  rewrite set_metas_rerun; [done| |done].
  rewrite <- Hcs. apply categorias_despesas_NoDup.
Qed.

Lemma press_sample_goals i df s :
  press_sample i (goals_column i df (press_sample i s)).1
  = (goals_column i df (press_sample i s)).1.
Proof.
  unfold goals_column, press_sample.
  destruct (in_sample_button i) as [d|]; [|done].
  destruct (categorias_despesas df); [done|].
  by destruct (set_metas_checked _ _ _) as [m [e|]].
Qed.

Lemma goals_column_sample i df s :
  ss_sample_df (goals_column i df s).1 = ss_sample_df s.
Proof.
  unfold goals_column. destruct (categorias_despesas df); [done|].
  by destruct (set_metas_checked _ _ _) as [m [e|]].
Qed.

Lemma press_sample_idemp i s : press_sample i (press_sample i s) = press_sample i s.
Proof. unfold press_sample. by destruct (in_sample_button i). Qed.

Lemma dashboard_rerun i msg df s :
  widgets_ok i → widgets_stable i → session_ok s →
  dashboard i msg df (dashboard i msg df s).1 = dashboard i msg df s.
Proof.
  intros Hw Hst Hs. rewrite dashboard_session. unfold dashboard.
  by rewrite goals_column_rerun.
Qed.

(** C18: a rerun with the same inputs, by widgets that return again what
    they returned, leaves the same session and shows the same page. *)
Theorem run_rerun s i :
  widgets_ok i → widgets_stable i → session_ok s →
  run (run s i).1 i = run s i.
Proof.
  intros Hw Hst Hs%(press_sample_ok i). unfold run at 2 3.
  destruct (load_df _ (ss_sample_df (press_sample i s)))
    as [[[| raw |df] msg]|e] eqn:Hl; cbn [fst];
    try (unfold run; by rewrite press_sample_idemp, Hl).
  unfold run. cbn zeta. rewrite (dashboard_session i msg df), press_sample_goals.
  rewrite goals_column_sample, Hl, <- (dashboard_session i msg df).
  by apply dashboard_rerun.
Qed.

(** ** The sample *)

(** C14: a run that starts with the sample button shows the dashboard: the
    sample the generator stores is processed and no part of the script
    raises on it, whatever was drawn. *)
Theorem run_sample s i draws :
  widgets_ok i → session_ok s →
  in_uploaded_file i = None → in_sample_button i = Some (sample_data draws) →
  in_busca_descricao i = "" →
  ∃ s' page, run s i = (s', Ok (Dashboard MsgNone page)) ∧
             ss_sample_df s' = Some (sample_data draws).
Proof.
  intros Hw Hs%(press_sample_ok i) Hu Hb Hq. unfold run, load_df.
  assert (Hp : ss_sample_df (press_sample i s) = Some (sample_data draws))
    by (unfold press_sample; by rewrite Hb).
  rewrite Hu, Hp, process_sample_data. cbn [bind].
  destruct (dashboard_result i MsgNone
              (date ← dates; sample_clean date <$> draws date)
              (press_sample i s) Hw Hs) as [[page Hpage]|(_ & Hne & _)];
    [|done].
  eexists (dashboard i MsgNone _ (press_sample i s)).1, page. split.
  - rewrite <- Hpage. apply surjective_pairing.
  - by rewrite dashboard_session, goals_column_sample.
Qed.

End session_exact.

(** ** Witnesses *)

Section session_examples.
Local Open Scope Q_scope.

Definition upload_spec : option (result (list (RawRow Q))) :=
  Some (Ok (raw_of <$> ledger_spec)).

Lemma widgets_ok_untouched u : widgets_ok (inputs_untouched (A:=Q) u).
Proof.
  intros key value. cbn [in_number_input inputs_untouched]. num_Q.
  by destruct (Q_leb_spec 0 value) as [Hv|Hv]; cbn [negb];
    apply Qle_bool_iff; lra.
Qed.

Lemma widgets_stable_untouched u : widgets_stable (inputs_untouched (A:=Q) u).
Proof.
  intros key min_value value. cbn [in_number_input inputs_untouched]. num_Q.
  destruct (Q_leb_spec min_value value) as [Hv|Hv]; cbn [negb].
  - by destruct (Q_leb_spec min_value value) as [Hv'|Hv']; [|lra].
  - by destruct (Q_leb_spec min_value min_value) as [Hv'|Hv']; [|lra].
Qed.

Lemma session_init_ok : session_ok (session_init (A:=Q)).
Proof. intros metas Hm. discriminate Hm. Defined.

Lemma reachable_session_ok_witness :
  session_ok (run session_init (inputs_untouched upload_spec)).1.
Proof.
  apply (reachable_session_ok _
           (reachable_run session_init (inputs_untouched upload_spec)
              reachable_init (widgets_ok_untouched upload_spec))).
Defined.

(** A run whose search text is not a pattern. *)
Definition inputs_paren : Inputs Q :=
  let i := inputs_untouched upload_spec in
  {| in_uploaded_file := in_uploaded_file i;
     in_sample_button := in_sample_button i;
     in_date_input := in_date_input i;
     in_multiselect := in_multiselect i;
     in_number_input := in_number_input i;
     in_selectbox := in_selectbox i;
     in_valor_min := in_valor_min i;
     in_busca_descricao := "(";
     in_re_search := re_paren |}.


Lemma run_welcome_witness :
  run session_init (inputs_untouched None)
  = (session_init (A:=Q), Ok (Welcome MsgNone)).
Proof. by apply (run_welcome session_init (inputs_untouched None)). Defined.

Lemma run_rerun_witness :
  let i := inputs_untouched upload_spec in
  run (run session_init i).1 i = run session_init i.
Proof.
  apply (run_rerun session_init (inputs_untouched upload_spec)
           (widgets_ok_untouched upload_spec)
           (widgets_stable_untouched upload_spec) session_init_ok).
Defined.

(** A run in which the user asks for the example data. *)
Definition inputs_sample : Inputs Q :=
  let i := inputs_untouched None in
  {| in_uploaded_file := None;
     in_sample_button := Some (sample_data draws_example);
     in_date_input := in_date_input i;
     in_multiselect := in_multiselect i;
     in_number_input := in_number_input i;
     in_selectbox := in_selectbox i;
     in_valor_min := in_valor_min i;
     in_busca_descricao := "";
     in_re_search := in_re_search i |}.

Lemma run_sample_witness :
  ∃ s' page, run session_init inputs_sample = (s', Ok (Dashboard MsgNone page)) ∧
             ss_sample_df s' = Some (sample_data draws_example).
Proof.
  apply (run_sample session_init inputs_sample draws_example
           (widgets_ok_untouched None) session_init_ok);
    reflexivity.
Defined.

Lemma runs_to_le_witness :
  session_le (run session_init inputs_sample).1
    (run (run session_init inputs_sample).1 (inputs_untouched upload_spec)).1.
Proof. apply runs_to_le, runs_to_step, runs_to_refl. Defined.

End session_examples.

(** ** A run in binary64 that raises after writing the session *)

Definition upload_inf : option (result (list (RawRow float))) :=
  Some (Ok (raw_of <$> ledger_inf)).

