(* ===== verification/Tracker.v ===== *)
(** * Tracker: the budget tracker of the specification and its refinement

    The specification describes the core of the program as a pure budget
    tracker: [classify] turns an amount spent and a limit into a percentage,
    one of six tiers and a clamped progress value, and [summarize] applies
    it to every expense category of the ledger inside the filter window.
    This file writes that tracker down from the specification's words, over
    exact rationals, and proves how far the script ([Badges], [Progress])
    implements it: exactly, for positive goals and ledgers that follow the
    sign convention; not at all for a goal of zero.  Records that hold
    rationals are compared up to [Qeq]. *)

From S2P Require Import Prelude Numeric Ledger Format Goals Badges Kpi Progress.

Local Open Scope string_scope.
Local Open Scope list_scope.
Local Open Scope Q_scope.

(** ** The specification *)

Inductive Tier :=
| Gold | Silver | BronzeTier | AboveGoal | HighAlert | CriticalAlert.

#[export] Instance Tier_eq_dec : EqDecision Tier.
Proof. solve_decision. Defined.

(** The tier table: ascending bands, closed at their upper bound. *)
Definition tier_of_ratio (ratio_percent : Q) : Tier :=
  if decide (ratio_percent <= 70) then Gold
  else if decide (ratio_percent <= 85) then Silver
  else if decide (ratio_percent <= 100) then BronzeTier
  else if decide (ratio_percent <= 120) then AboveGoal
  else if decide (ratio_percent <= 150) then HighAlert
  else CriticalAlert.

Record Classification := mkClass {
  ratio_percent : Q;
  tier : Tier;
  clamped_progress : Q;
}.

(** [classify(spent, limit)]. *)
Definition classify (spent limit : Q) : Classification :=
  let ratio := if decide (limit <= 0) then 0 else spent / limit * 100 in
  {| ratio_percent := ratio;
     tier := tier_of_ratio ratio;
     clamped_progress := Qmin ratio 100 |}.

Record Summary := mkSummary {
  s_category : string;
  s_spent : Q;
  s_limit : Q;
  s_class : Classification;
}.

(** Step 1 of [summarize]: the records that count. *)
Definition counted (window : Date * Date) (r : Row Q) : Prop :=
  in_period window.1 window.2 r ∧ tipo r = "debito" ∧ categoria r ≠ "Renda".

#[export] Instance counted_dec w r : Decision (counted w r).
Proof. unfold counted. apply _. Defined.

(** Step 2: the sum of absolute amounts of a category. *)
Definition spent_in (rows : list (Row Q)) (c : string) : Q :=
  series_sum ((λ r, Qabs (valor r)) <$> filter (λ r, categoria r = c) rows).

(** [summarize(transactions, filter_window, goals)]. *)
Definition summarize (transactions : list (Row Q)) (window : Date * Date)
    (goals : gmap string Q) : list Summary :=
  let rows := filter (counted window) transactions in
  (λ c, let spent := spent_in rows c in
        let limit := default 1000 (goals !! c) in
        {| s_category := c; s_spent := spent; s_limit := limit;
           s_class := classify spent limit |})
  <$> unique (categoria <$> rows).

(** ** Equality of results up to equality of rationals *)

Definition class_equiv (a b : Classification) : Prop :=
  ratio_percent a == ratio_percent b ∧ tier a = tier b ∧
  clamped_progress a == clamped_progress b.

Definition summary_equiv (a b : Summary) : Prop :=
  s_category a = s_category b ∧ s_spent a == s_spent b ∧
  s_limit a == s_limit b ∧ class_equiv (s_class a) (s_class b).

#[export] Instance class_equiv_equivalence : Equivalence class_equiv.
Proof.
  split.
  - intros a. by repeat split.
  - intros a b (?&?&?). repeat split; by symmetry.
  - intros a b c (?&?&?) (?&?&?). repeat split; by etrans.
Qed.

#[export] Instance summary_equiv_equivalence : Equivalence summary_equiv.
Proof.
  split.
  - intros a. by repeat split.
  - intros a b (?&?&?&?&?&?). repeat split; by symmetry.
  - intros a b c (?&?&?&?&?&?) (?&?&?&?&?&?). repeat split; by etrans.
Qed.

#[export] Instance tier_of_ratio_proper : Proper (Qeq ==> eq) tier_of_ratio.
Proof.
  intros a b Hab. unfold tier_of_ratio.
  repeat case_decide; try done; lra.
Qed.

#[export] Instance classify_proper : Proper (Qeq ==> Qeq ==> class_equiv) classify.
Proof.
  intros s1 s2 Hs l1 l2 Hl. unfold classify.
  assert (Hr : (if decide (l1 <= 0) then 0 else s1 / l1 * 100)
               == (if decide (l2 <= 0) then 0 else s2 / l2 * 100)).
  { repeat case_decide; try done; try lra. by rewrite Hs, Hl. }
  repeat split; simpl; by rewrite Hr.
Qed.

(** ** The script seen as a tracker *)

(** The tier named by each badge. *)
Definition tier_of_badge (t : BadgeType) : Tier :=
  match t with
  | Ouro => Gold | Prata => Silver | Bronze => BronzeTier
  | AcimaDaMeta => AboveGoal | AlertaAlto => HighAlert
  | AlertaCritico => CriticalAlert
  end.

(** What the script shows for one category: its badge (from [Badges]) and
    its progress record (from [Progress]), read as a row of the tracker. *)
Definition summary_of (b : BadgeEntry) (v : ProgressView Q) : Summary :=
  {| s_category := b.1.1;
     s_spent := pe_gasto (pv_entry v);
     s_limit := pe_meta (pv_entry v);
     s_class := {| ratio_percent := pe_percentual (pv_entry v);
                   tier := tier_of_badge b.1.2;
                   clamped_progress := percentual_barra (pe_percentual (pv_entry v)) |} |}.

(** One run of the two loops over [df_filtered]. *)
Definition script_summary (df_filtered : list (Row Q)) (metas : gmap string Q)
  : result (list Summary) :=
  let? bs := badges df_filtered metas in
  Ok (zip_with summary_of bs (progress_loop df_filtered metas)).

(** ** The script implements the tracker for positive goals *)

Section refinement.
Implicit Types (df : list (Row Q)) (goals : gmap string Q) (s e : Date).

(** The badge of an amount against a positive goal is the tier of their
    ratio. *)
Lemma tier_of_badge_ref gasto meta :
  0 < meta →
  tier_of_badge (badge_ref gasto meta) = tier_of_ratio (gasto / meta * 100).
Proof.
  intros Hm. unfold badge_ref, tier_of_ratio.
  pose proof (percent_le_iff gasto meta 70 Hm).
  pose proof (percent_le_iff gasto meta 85 Hm).
  pose proof (percent_le_iff gasto meta 100 Hm).
  pose proof (percent_le_iff gasto meta 120 Hm).
  pose proof (percent_le_iff gasto meta 150 Hm).
  repeat case_decide; try done; lra.
Qed.

(** What the script computes for a category with a positive goal is the
    specification's classification of the same amount and goal. *)
Lemma script_classifies gasto meta :
  0 < meta →
  class_equiv
    {| ratio_percent := percentual_real gasto meta;
       tier := tier_of_badge (badge_ref gasto meta);
       clamped_progress := percentual_barra (percentual_real gasto meta) |}
    (classify gasto meta).
Proof.
  intros Hm. unfold classify. rewrite decide_False by lra.
  rewrite percentual_real_pos by done. repeat split; simpl.
  - by apply tier_of_badge_ref.
  - apply percentual_barra_min.
Qed.

Lemma meta_get_pos goals c :
  map_Forall (λ _ l, 0 < l) goals → 0 < meta_get goals c.
Proof.
  intros Hg. unfold meta_get. destruct (goals !! c) as [l|] eqn:E; simpl.
  - by apply (Hg c).
  - num_Q. lra.
Qed.

(** The rows the script sums for a category are the rows the specification
    counts for it. *)
Lemma counted_rows df s e c :
  c ≠ "Renda" →
  filter (λ r, categoria r = c ∧ tipo r = "debito") (filter_period [s; e] df)
  = filter (λ r, categoria r = c) (filter (counted (s, e)) df).
Proof.
  intros Hc. simpl. rewrite !list_filter_filter. apply list_filter_iff.
  intros r. unfold counted. simpl. naive_solver.
Qed.

Lemma counted_categories df s e :
  categorias_despesas (filter_period [s; e] df)
  = unique (categoria <$> filter (counted (s, e)) df).
Proof.
  unfold categorias_despesas. simpl. rewrite list_filter_filter.
  do 2 f_equal. apply list_filter_iff. intros r.
  unfold counted, is_despesa. simpl. tauto.
Qed.

Lemma gasto_is_spent df s e c :
  debits_nonpos df → c ≠ "Renda" →
  gasto_categoria (filter_period [s; e] df) c
  == spent_in (filter (counted (s, e)) df) c.
Proof.
  intros Hs Hc. unfold gasto_categoria, spent_in. num_Q.
  rewrite counted_rows by done. rewrite abs_series_sum_nonpos.
  - by rewrite <- list_fmap_compose.
  - apply Forall_fmap, Forall_forall.
    intros r [_ [(_ & Ht & _) Hr]%list_elem_of_filter]%list_elem_of_filter.
    unfold debits_nonpos in Hs. rewrite Forall_forall in Hs. apply Hs.
    by apply list_elem_of_filter.
Qed.

(** C2: the script refines the budget tracker of the specification.  On a
    ledger that follows the sign convention and with positive goals, the
    two loops of the script over the period-filtered frame never fail and
    show, category by category and in the same order, what [summarize]
    returns for the whole ledger and that period: the same amount spent, the
    same limit, the same percentage, the tier named by the badge and the
    same clamped progress. *)
Theorem script_refines_summarize df s e goals :
  debits_nonpos df →
  map_Forall (λ _ l, 0 < l) goals →
  ∃ out, script_summary (filter_period [s; e] df) goals = Ok out ∧
         Forall2 summary_equiv out (summarize df (s, e) goals).
Proof.
  intros Hs Hg. unfold script_summary, badges, progress_loop.
  rewrite badges_loop_ref. cbn [bind]. rewrite app_nil_l.
  eexists. split; [reflexivity|].
  rewrite zip_with_fmap_l, zip_with_fmap_r, zip_with_diag.
  unfold summarize. rewrite counted_categories.
  apply Forall2_fmap, Forall_Forall2_diag, Forall_forall. intros c Hc.
  assert (c ≠ "Renda") as Hne.
  { intros ->. rewrite <- counted_categories in Hc.
    by apply Renda_not_despesa in Hc. }
  pose proof (gasto_is_spent df s e c Hs Hne) as Hsp.
  pose proof (meta_get_pos goals c Hg) as Hpos.
  split; [done|]. split; [exact Hsp|]. split; [reflexivity|]. simpl.
  etrans; [by apply script_classifies|]. by apply classify_proper.
Qed.

(** C29: for a goal of zero the script departs from the specification: the
    specification classifies any amount as gold with a ratio of zero, while
    the script awards the critical alert to every positive amount. *)
Theorem zero_goal_departs_from_spec gasto prev :
  0 < gasto →
  tier (classify gasto 0) = Gold ∧
  badge_chain gasto 0 prev = Some (AlertaCritico, red).
Proof.
  intros Hg. split; [done|].
  rewrite badge_chain_ref, badge_ref_zero_goal by lra.
  by rewrite decide_False by lra.
Qed.

(** ** Witnesses *)

Lemma script_refines_summarize_witness :
  ∃ out,
    script_summary
      (filter_period [mkDate 2024 1 1; mkDate 2024 1 31] ledger_spec) goals_spec
    = Ok out ∧
    Forall2 summary_equiv out
      (summarize ledger_spec (mkDate 2024 1 1, mkDate 2024 1 31) goals_spec).
Proof.
  apply (script_refines_summarize ledger_spec (mkDate 2024 1 1)
           (mkDate 2024 1 31) goals_spec debits_nonpos_ledger_spec).
  apply map_Forall_insert_2; [reflexivity|apply map_Forall_empty].
Defined.

Lemma zero_goal_departs_from_spec_witness :
  tier (classify 35 0) = Gold ∧
  badge_chain 35 0 None = Some (AlertaCritico, red).
Proof. apply (zero_goal_departs_from_spec 35 None). lra. Defined.

End refinement.
