(* ===== verification/Texts.v ===== *)
(** * Texts: the literal texts of the page

    The style sheet, the title, the HTML of the red progress bar, the
    welcome page and the footer of [src/dash.py], byte for byte as the
    source has them (UTF-8, line breaks and indentation included).  A double
    quote inside a text is written [dq]. *)

From Stdlib Require Import Ascii.
From S2P Require Import Prelude.

Local Open Scope string_scope.

(** The double quote. *)
Definition dq : string := String (ascii_of_nat 34) EmptyString.

(** Lines 22-53: the style sheet. *)
Definition css : string :=
  "
<style>
    .main-header {
        font-size: 2.5rem;
        font-weight: bold;
        text-align: center;
        color: #1f77b4;
        margin-bottom: 2rem;
    }
    .metric-container {
        background: linear-gradient(90deg, #667eea 0%, #764ba2 100%);
        padding: 1rem;
        border-radius: 10px;
        color: white;
        text-align: center;
        margin: 0.5rem 0;
    }
    .badge-container {
        display: flex;
        flex-wrap: wrap;
        gap: 10px;
        justify-content: center;
        margin: 1rem 0;
    }
    .progress-container {
        margin: 1rem 0;
        padding: 1rem;
        border-radius: 10px;
        background-color: #f0f2f6;
    }
</style>
".

(** Line 56. *)
Definition title_html : string :=
  "<h1 class=" +:+ dq +:+ "main-header" +:+ dq +:+ ">💰 Dashboard de Finanças Pessoais</h1>".

(** Line 57. *)
Definition subtitle : string :=
  "### 🎓 Semana de Educação Financeira - Ferramenta Interativa de Aprendizado".

(** Lines 303-307: the HTML of the red bar up to its text. *)
Definition red_bar_open : string :=
  "
                    <div style=" +:+ dq +:+ "margin-bottom: 10px;" +:+ dq +:+ ">
                        <div style=" +:+ dq +:+ "background-color: #ff4444; height: 20px; border-radius: 10px; width: 100%; position: relative;" +:+ dq +:+ ">
                            <div style=" +:+ dq +:+ "position: absolute; top: 50%; left: 50%; transform: translate(-50%, -50%); color: white; font-weight: bold; font-size: 12px;" +:+ dq +:+ ">
                                ".

(** Lines 307-311: the HTML of the red bar after its text. *)
Definition red_bar_close : string :=
  "
                            </div>
                        </div>
                    </div>
                    ".

(** Line 495. *)
Definition info_upload : string :=
  "👆 Faça upload do seu arquivo CSV ou use os dados de exemplo para começar!".

(** Lines 498-513: the expected format of the file. *)
Definition formato_esperado : string :=
  "
        **Colunas obrigatórias:**
        - `data`: Data da transação (formato YYYY-MM-DD ou DD/MM/YYYY)
        - `descricao`: Descrição da transação
        - `categoria`: Categoria da transação (ex: Alimentação, Transporte, etc.)
        - `valor`: Valor da transação (positivo para creditos, negativo para debitos)
        - `tipo`: Tipo da transação ('credito' ou 'debito')
        - `tags`: Observações adicionais (opcional)
        
        **Exemplo:**
        ```
        data,descricao,categoria,valor,tipo,tags
        2024-01-15,Supermercado ABC,Alimentação,-150.50,debito,
        2024-01-20,Salário,Renda,3000.00,credito,
        ```
        ".

(** Lines 516-529: about the dashboard. *)
Definition sobre : string :=
  "
    ### 🎓 Sobre este Dashboard
    
    Este dashboard foi desenvolvido como ferramenta educacional para a **Semana de Educação Financeira**. 
    
    **Recursos disponíveis:**
    - 📊 Visualizações interativas de receitas e despesas
    - 🎯 Sistema de metas por categoria
    - 🏆 Gamificação com badges de conquista
    - 📈 Análise temporal do saldo
    - 🔍 Filtros avançados para análise detalhada
    
    **Objetivo pedagógico:** Demonstrar como a tecnologia pode tornar o controle financeiro mais envolvente e educativo!
    ".

(** Lines 533-539: the footer. *)
Definition footer_html : string :=
  "
<div style='text-align: center; color: #666;'>
    <p>💡 <strong>Dashboard de Finanças Pessoais</strong> | Desenvolvido para Educação Financeira</p>
    <p>🎓 Ferramenta interativa para aprendizado de conceitos financeiros</p>
    <p> Prof. josé Américo</p>
</div>
".

