(* ===== verification/Render.v ===== *)
(** * Render: what a run puts on the page, in order

    [src/dash.py] is executed top to bottom; each call of Streamlit appends
    an element to the page, and an exception ends the run with the page as
    it is.  This file models the script as it is written: a computation in
    the monad [Script], which threads the session, collects the elements in
    the order of the calls and stops at the first exception.  The page
    configuration, the style sheet and the title (lines 3-57), the upload
    widgets (lines 60-72), the welcome page (lines 493-529) and the footer
    (lines 531-539) are rendered by [chrome], [sidebar_upload], [welcome]
    and [footer]; the sections of the dashboard render what the component
    files compute.

    A section that computes and then shows is written as the computation
    of the component file followed by the piece that renders its result
    ([kpi_cards], [badge_boxes], [progress_rows], [charts_figures],
    [stats_cards]); [Shown] renders a view with the same pieces.

    The theorems relate the script to [Session.run] (same session, same
    exception), and show what the page holds: the upload widgets on every
    run, the footer exactly when the run does not raise, no two widgets
    with the same key, and only calls that Streamlit accepts ([well_formed]:
    columns that exist, number widgets offered a value not below their
    minimum). *)

From stdpp Require Import pretty.
From S2P Require Import Prelude Numeric Frame Ledger Format Calendar Goals.
From S2P Require Import Badges Kpi Charts Sample Table Stats Progress Session.
From S2P Require Import Texts.

Local Open Scope string_scope.
Local Open Scope list_scope.

(** ** The page *)

(** Where an element goes: the main area, the sidebar, a column of the
    current row (the number of columns [st.columns] made and the index of
    this one) or an expander. *)
Inductive Slot :=
| Main
| Sidebar
| Column (count index : nat)
| Expander (label : string).

#[export] Instance Slot_eq_dec : EqDecision Slot.
Proof. solve_decision. Defined.

Section elements.
Context {A : Type}.

(** A trace of a chart: its name in the legend and its points. *)
Definition Trace (X : Type) : Type := string * list (X * A).

(** The figures handed to [st.plotly_chart]: the texts they show and their
    data.  Colours and sizes are left out. *)
Inductive Figure :=
| FigPie (title : string) (series : list (string * A))            (* 329-334 *)
| FigBar (title x_label y_label : string)
    (series : list (string * A))                                  (* 341-349 *)
| FigTimeline (title xaxis_title yaxis_title annotation_text : string)
    (trace : Trace Date)                                          (* 359-381 *)
| FigMensal (title xaxis_title yaxis_title barmode : string)
    (traces : list (Trace string)).                               (* 392-418 *)

(** One call of Streamlit. *)
Inductive Element :=
| SetPageConfig (page_title page_icon layout initial_sidebar_state : string)
| Markdown (body : string)
| Header (body : string)
| Subheader (body : string)
| Write (body : string)
| Info (body : string)
| Success (body : string)
| ErrorBox (body : string) (e : py_error)
| FileUploader (label help : string)
| Button (label : string)
| DateInput (label : string) (value : list Date)
    (min_value max_value : option Date)
| Multiselect (label : string) (options default : list string)
| MetricCard (label value : string) (delta : option (string * DeltaColor))
| StyleMetricCards
| NumberInput (label : string) (key : option string) (min_value : option A)
    (value step : A)
| ProgressBar (value : A) (text : string)
| PlotlyChart (fig : Figure)
| Selectbox (label : string) (options : list string)
| TextInput (label placeholder : string)
| Dataframe (rows : list DisplayRow).

Definition Placed : Type := Slot * Element.

(** The key a widget was given explicitly (line 220 is the only one). *)
Definition key_of (e : Placed) : option string :=
  match e.2 with
  | NumberInput _ key _ _ _ => key
  | _ => None
  end.

Definition keys (page : list Placed) : list string := omap key_of page.

(** The widgets that take input from the user. *)
Definition is_input (e : Element) : bool :=
  match e with
  | FileUploader _ _ | Button _ | DateInput _ _ _ _ | Multiselect _ _ _
  | NumberInput _ _ _ _ _ | Selectbox _ _ | TextInput _ _ => true
  | _ => false
  end.

(** What a page shows: its elements other than the input widgets. *)
Definition outputs (page : list Placed) : list Placed :=
  filter (λ p, is_input p.2 = false) page.

End elements.

Arguments Trace A X : clear implicits.
Arguments Figure A : clear implicits.
Arguments Element A : clear implicits.
Arguments Placed A : clear implicits.

(** ** The monad of the script *)

Section script.
Context {A : Type} `{Num A} `{Printable A} `{Sorter}.

(** A piece of the script: from the session it finds to the session it
    leaves, the elements it rendered and its value, or the exception that
    ended it. *)
Definition Script (X : Type) : Type :=
  Session A → Session A * list (Placed A) * result X.

#[export] Instance script_ret : MRet Script := λ X x s, (s, [], Ok x).

#[export] Instance script_bind : MBind Script := λ X Y f m s,
  match m s with
  | (s1, page1, Ok x) =>
      let '(s2, page2, r) := f x s1 in (s2, page1 ++ page2, r)
  | (s1, page1, Err e) => (s1, page1, Err e)
  end.

(** A call of Streamlit that renders an element. *)
Definition emit (slot : Slot) (e : Element A) : Script unit :=
  λ s, (s, [(slot, e)], Ok tt).

(** A Python exception. *)
Definition raise {X} (e : py_error) : Script X := λ s, (s, [], Err e).

(** A computation of a component that may raise. *)
Definition lift {X} (r : result X) : Script X := λ s, (s, [], r).

Definition get_session : Script (Session A) := λ s, (s, [], Ok s).
Definition put_session (s : Session A) : Script unit := λ _, (s, [], Ok tt).

(** A [for] loop. *)
Fixpoint for_each {X} (l : list X) (body : X → Script unit) : Script unit :=
  match l with
  | [] => mret tt
  | x :: l => body x;; for_each l body
  end.

(** ** The sections of the script *)

(** Lines 3-8. *)
Definition page_config : Element A :=
  SetPageConfig "💰 Dashboard Finanças Pessoais" "💰" "wide" "expanded".

(** Lines 3-57: page configuration, style sheet, title. *)
Definition chrome : Script unit :=
  emit Main page_config;;
  emit Main (Markdown css);;
  emit Main (Markdown title_html);;
  emit Main (Markdown subtitle).

(** Lines 60-103: the upload widgets; pressing the button stores the
    sample. *)
Definition sidebar_upload (i : Inputs A) : Script unit :=
  emit Sidebar (Header "⚙️ Configurações");;
  emit Sidebar (Subheader "📁 Upload do Extrato");;
  emit Sidebar (FileUploader "Arraste e solte seu arquivo CSV aqui:"
                  "Formato esperado: data, descricao, categoria, valor, tipo, tags");;
  emit Sidebar (Button "📊 Usar Dados de Exemplo");;
  s ← get_session;
  put_session (press_sample i s).

(** Lines 113-124: the binding of [df], with the message of the upload
    branch. *)
Definition load (i : Inputs A) : Script (Frame A) :=
  match in_uploaded_file i with
  | Some (Ok raw) =>
      match process_data raw with
      | Ok rows =>
          emit Main (Success "✅ Arquivo carregado com sucesso!");;
          mret (Clean rows)
      | Err e =>
          emit Main (ErrorBox "❌ Erro ao carregar arquivo: " e);;
          mret (RawFrame raw)
      end
  | Some (Err e) =>
      emit Main (ErrorBox "❌ Erro ao carregar arquivo: " e);;
      mret NoFrame
  | None =>
      s ← get_session;
      match ss_sample_df s with
      | Some raw => rows ← lift (process_data raw); mret (Clean rows)
      | None => mret NoFrame
      end
  end.

(** Lines 128-156: the filters of the sidebar; the value is
    [df_filtered]. *)
Definition sidebar_filters_script (i : Inputs A) (df : list (Row A))
  : Script (list (Row A)) :=
  emit Sidebar (Subheader "🔍 Filtros");;
  let value := default_date_range df in
  emit Sidebar (DateInput "Período:" value (min_date df) (max_date df));;
  let df_period := filter_period (in_date_input i value) df in
  let categorias_disponiveis := categorias_disponiveis df_period in
  emit Sidebar (Multiselect "Categorias:" categorias_disponiveis
                  categorias_disponiveis);;
  mret (filter_categorias (in_multiselect i categorias_disponiveis) df_period).

(** A card with its change line. *)
Definition card (label : string) (m : Metric) : Element A :=
  MetricCard label (m_value m) (Some (m_delta m, m_delta_color m)).

(** Lines 165-189: the three headline cards and their style. *)
Definition kpi_cards (renda despesa saldo : Metric) : Script unit :=
  emit (Column 3 0) (card "💵 Renda Total" renda);;
  emit (Column 3 1) (card "💸 Despesa Total" despesa);;
  emit (Column 3 2) (card "💰 Saldo" saldo);;
  emit Main StyleMetricCards.

(** Lines 159-189: the figures of the headline, on their cards. *)
Definition kpi_script (df_filtered : list (Row A)) : Script unit :=
  kpi_cards (metric_renda df_filtered) (metric_despesa df_filtered)
    (metric_saldo df_filtered).

(** Lines 211-221, one iteration: the widget is rendered in the column
    [i % 2] unless it refuses the value offered, and what it returns is
    stored in the session. *)
Definition goal_input (i : Inputs A) (entry : nat * string) : Script unit :=
  let '(index, categoria) := entry in
  s ← get_session;
  let metas := init_metas (ss_metas s) in
  let meta_atual := meta_get metas categoria in
  v ← lift (number_input_checked (in_number_input i) (meta_key categoria) zero
              meta_atual);
  emit (Column 2 (index mod 2))
    (NumberInput ("Meta " +:+ categoria) (Some (meta_key categoria)) (Some zero)
       meta_atual (lit 50));;
  put_session {| ss_sample_df := ss_sample_df s;
                 ss_metas := Some (<[categoria := v]> metas) |}.

(** The badge names of lines 239-258. *)
Definition badge_type_text (t : BadgeType) : string :=
  match t with
  | Ouro => "🥇 Ouro"
  | Prata => "🥈 Prata"
  | Bronze => "🥉 Bronze"
  | AcimaDaMeta => "📊 Acima da Meta"
  | AlertaAlto => "⚠️ Alerta Alto"
  | AlertaCritico => "🚨 Alerta Crítico"
  end.

(** Lines 264-268. *)
Definition badge_box (msg : BadgeMsg) : Element A :=
  match msg with
  | MsgBadge badge_type categoria =>
      Success (badge_type_text badge_type +:+ " - " +:+ categoria)
  | MsgKeepSaving => Info "Continue economizando para ganhar badges! 💪"
  end.

(** Lines 292-317: the row of one category. *)
Definition progress_row (v : ProgressView A) : Script unit :=
  emit (Column 3 0) (Write ("**" +:+ pe_categoria (pv_entry v) +:+ "**"));;
  emit (Column 3 0)
    match pv_value v with
    | Some value => ProgressBar value (pv_text v)
    | None => Markdown (red_bar_open +:+ pv_text v +:+ red_bar_close)
    end;;
  emit (Column 3 1) (MetricCard "Gasto" (pv_gasto v) None);;
  emit (Column 3 2) (MetricCard "Meta" (pv_meta v) None).

(** Lines 264-268: the boxes of the badge column. *)
Definition badge_boxes (msgs : list BadgeMsg) : Script unit :=
  for_each msgs (λ msg, emit (Column 2 1) (badge_box msg)).

(** Lines 273-317: the rows of the progress section. *)
Definition progress_rows (rows : list (ProgressView A)) : Script unit :=
  for_each rows progress_row.

(** Lines 192-317: goals, badges and progress bars. *)
Definition goals_script (i : Inputs A) (df_filtered : list (Row A))
  : Script unit :=
  emit Main (Header "🎯 Metas e Conquistas");;
  match categorias_despesas df_filtered with
  | [] => mret tt
  | (_ :: _) as categorias =>
      emit (Column 2 0) (Subheader "📊 Definir Metas Mensais por Categoria");;
      s ← get_session;
      put_session {| ss_sample_df := ss_sample_df s;
                     ss_metas := Some (init_metas (ss_metas s)) |};;
      for_each (zip (seq 0 (length categorias)) categorias) (goal_input i);;
      emit (Column 2 1) (Subheader "🏆 Badges Conquistadas");;
      s ← get_session;
      let metas := init_metas (ss_metas s) in
      badges_conquistadas ← lift (badges df_filtered metas);
      badge_boxes (badge_messages badges_conquistadas);;
      emit Main (Subheader "📈 Progresso das Metas");;
      progress_rows (progress_loop df_filtered metas)
  end.

(** Lines 320-420: the four charts, of the series handed to them. *)
Definition charts_figures (pie : option (list (string * A)))
    (timeline : list (Date * A)) (receitas despesas : option (list (string * A)))
  : Script unit :=
  emit Main (Header "📊 Análises Visuais");;
  match pie with
  | Some series =>
      emit (Column 2 0)
        (PlotlyChart (FigPie "🍕 Distribuição de Despesas por Categoria" series));;
      emit (Column 2 1)
        (PlotlyChart (FigBar "📊 Ranking de Despesas por Categoria"
                        "Valor (R$)" "Categoria" series))
  | None => mret tt
  end;;
  emit Main (Subheader "📈 Evolução do Saldo ao Longo do Tempo");;
  emit Main (PlotlyChart (FigTimeline "Evolução do Saldo Acumulado" "Data"
                            "Saldo (R$)" "Linha Zero"
                            ("Saldo Acumulado", timeline)));;
  emit Main (Subheader "📅 Análise Mensal");;
  let receitas := option_list (pair "Receitas" <$> receitas) in
  let despesas := option_list (pair "Despesas" <$> despesas) in
  emit Main (PlotlyChart (FigMensal "Receitas vs Despesas por Mês" "Mês"
                            "Valor (R$)" "group" (receitas ++ despesas))).

(** Lines 326-410: the series of the filtered ledger, charted. *)
Definition charts_script (df_filtered : list (Row A)) : Script unit :=
  charts_figures (fig_pie df_filtered) (fig_timeline df_filtered)
    (trace_receitas df_filtered) (trace_despesas df_filtered).

(** Lines 423-470: the table; the search is applied after its three
    widgets are on the page. *)
Definition table_script (i : Inputs A) (df_filtered : list (Row A))
  : Script unit :=
  emit Main (Header "📋 Extrato Detalhado");;
  let options := tipo_options df_filtered in
  emit (Column 3 0) (Selectbox "Tipo de Transação:" options);;
  emit (Column 3 1) (NumberInput "Valor Mínimo:" None None zero (lit 10));;
  emit (Column 3 2) (TextInput "Buscar na Descrição:" "Digite para buscar...");;
  table ← lift (extrato (in_re_search i) (in_selectbox i options)
                  (in_valor_min i) (in_busca_descricao i) df_filtered);
  emit Main (Dataframe table).

(** Lines 473-491: the four cards of the statistics. *)
Definition stats_cards (total_transacoes : nat)
    (ticket_medio maior_despesa periodo : string) : Script unit :=
  emit Main (Header "📊 Estatísticas Resumidas");;
  emit (Column 4 0)
    (MetricCard "Total de Transações" (pretty total_transacoes) None);;
  emit (Column 4 1) (MetricCard "Ticket Médio (Despesas)" ticket_medio None);;
  emit (Column 4 2) (MetricCard "Maior Despesa" maior_despesa None);;
  emit (Column 4 3) (MetricCard "Período Analisado" periodo None).

(** Lines 478-491: the statistics of the filtered ledger, on their cards. *)
Definition stats_script (df_filtered : list (Row A)) : Script unit :=
  stats_cards (total_transacoes df_filtered)
    (metric_abs (ticket_medio df_filtered))
    (metric_abs (maior_despesa df_filtered)) (periodo_analisado df_filtered).

(** Lines 126-491. *)
Definition dashboard_script (i : Inputs A) (df : list (Row A)) : Script unit :=
  df_filtered ← sidebar_filters_script i df;
  kpi_script df_filtered;;
  goals_script i df_filtered;;
  charts_script df_filtered;;
  table_script i df_filtered;;
  stats_script df_filtered.

(** Lines 493-529: the instructions shown when there is no ledger. *)
Definition welcome : Script unit :=
  emit Main (Info info_upload);;
  emit (Expander "📋 Formato esperado do arquivo CSV") (Write formato_esperado);;
  emit Main (Markdown "---");;
  emit Main (Markdown sobre).

(** Lines 531-539. *)
Definition footer : Script unit :=
  emit Main (Markdown "---");;
  emit Main (Markdown footer_html).

(** Everything before the footer.  A frame left unprocessed by a failed
    upload gets as far as the heading of the filters: line 132 raises. *)
Definition body (i : Inputs A) : Script unit :=
  chrome;;
  sidebar_upload i;;
  frame ← load i;
  match frame with
  | NoFrame => welcome
  | RawFrame _ =>
      emit Sidebar (Subheader "🔍 Filtros");;
      raise AttributeError
  | Clean df => dashboard_script i df
  end.

(** The script. *)
Definition script (i : Inputs A) : Script unit := body i;; footer.

End script.

(** ** Reasoning about a script *)

Section script_logic.
Context {A : Type} `{Num A} `{Printable A} `{Sorter}.
Implicit Types (s : Session A) (page : list (Placed A)).

(** The session a piece of script leaves and how it ends, without what it
    rendered. *)
Definition outcome {X} (m : Script X) s : Session A * result X :=
  ((m s).1.1, (m s).2).

(** The run as [Session.run] reports it: the value is forgotten. *)
Definition erase {X} (r : result X) : result unit :=
  match r with Ok _ => Ok tt | Err e => Err e end.

Lemma outcome_bind {X Y} (m : Script X) (f : X → Script Y) s :
  outcome (m ≫= f) s
  = match outcome m s with
    | (s', Ok x) => outcome (f x) s'
    | (s', Err e) => (s', Err e)
    end.
Proof.
  unfold outcome, mbind, script_bind.
  destruct (m s) as [[s1 page1] [x|e]]; simpl; [|done].
  by destruct (f x s1) as [[s2 page2] r].
Qed.

(** What a sequence renders: what its first part rendered, followed, when
    that part did not raise, by what the rest rendered. *)
Lemma page_bind {X Y} (m : Script X) (f : X → Script Y) s :
  (mbind f m s).1.2
  = (m s).1.2 ++ match (m s).2 with
                 | Ok x => (f x (m s).1.1).1.2
                 | Err _ => []
                 end.
Proof.
  unfold mbind, script_bind.
  destruct (m s) as [[s1 page1] [x|e]]; simpl; [|by rewrite app_nil_r].
  by destruct (f x s1) as [[s2 page2] r].
Qed.

(** What a piece of script renders in a new tab. *)
Definition page_of (m : Script unit) : list (Placed A) :=
  (m session_init).1.2.

(** A piece of script that only renders: it leaves the session alone, does
    not raise, and renders the same elements whatever the session. *)
Definition renders (m : Script unit) : Prop :=
  ∀ s, m s = (s, page_of m, Ok tt).

Lemma renders_outcome (m : Script unit) s : renders m → outcome m s = (s, Ok tt).
Proof. intros Hm. unfold outcome. by rewrite Hm. Qed.

Lemma renders_emit slot e : renders (emit slot e).
Proof. done. Qed.

Lemma renders_ret : renders (mret tt).
Proof. done. Qed.

Lemma renders_bind (m k : Script unit) :
  renders m → renders k → renders (m;; k).
Proof.
  intros Hm Hk s. unfold page_of, mbind, script_bind.
  by rewrite (Hm s), (Hm session_init), (Hk s), (Hk session_init).
Qed.

Lemma renders_for_each {X} (l : list X) body :
  (∀ x, renders (body x)) → renders (for_each l body).
Proof.
  intros Hb. induction l as [|x l IH]; [done|].
  by apply renders_bind.
Qed.

Lemma outcome_renders {X} (m : Script unit) (k : Script X) s :
  renders m → outcome (m;; k) s = outcome k s.
Proof. intros Hm. by rewrite outcome_bind, renders_outcome. Qed.

(** What follows a piece that only renders is rendered after its page. *)
Lemma page_renders {X} (m : Script unit) (k : Script X) s :
  renders m → ((m;; k) s).1.2 = page_of m ++ (k s).1.2.
Proof. intros Hm. by rewrite page_bind, Hm. Qed.

(** What follows a piece that ends well is rendered after its page, from
    the session it leaves. *)
Lemma page_outcome {X Y} (m : Script X) (f : X → Script Y) s s' x :
  outcome m s = (s', Ok x) →
  ((m ≫= f) s).1.2 = (m s).1.2 ++ (f x s').1.2.
Proof. unfold outcome. intros [= <- Hr]. by rewrite page_bind, Hr. Qed.

Lemma outcome_get {X} (f : Session A → Script X) s :
  outcome (get_session ≫= f) s = outcome (f s) s.
Proof. by rewrite outcome_bind. Qed.

Lemma outcome_put {X} (k : Script X) s' s :
  outcome (put_session s';; k) s = outcome k s'.
Proof. by rewrite outcome_bind. Qed.

Lemma outcome_lift {X Y} (r : result X) (f : X → Script Y) s :
  outcome (lift r ≫= f) s
  = match r with Ok x => outcome (f x) s | Err e => (s, Err e) end.
Proof. rewrite outcome_bind. by destruct r. Qed.

Lemma page_get {X} (f : Session A → Script X) s :
  ((get_session ≫= f) s).1.2 = (f s s).1.2.
Proof. by rewrite page_bind. Qed.

Lemma page_put {X} (k : Script X) s' s :
  ((put_session s';; k) s).1.2 = (k s').1.2.
Proof. by rewrite page_bind. Qed.

Lemma page_lift {X Y} (r : result X) (f : X → Script Y) s :
  ((lift r ≫= f) s).1.2
  = match r with Ok x => (f x s).1.2 | Err _ => [] end.
Proof. rewrite page_bind. by destruct r. Qed.

Lemma page_of_renders (m : Script unit) s : renders m → (m s).1.2 = page_of m.
Proof. intros Hm. by rewrite Hm. Qed.

(** ** What a script renders *)

(** [emits P m]: whatever the session, what [m] renders satisfies [P]. *)
Definition emits (P : list (Placed A) → Prop) {X} (m : Script X) : Prop :=
  ∀ s, P (m s).1.2.

(** A property of pages that the empty page has and that appending
    preserves. *)
Class PageProp (P : list (Placed A) → Prop) := {
  page_nil : P [];
  page_app page1 page2 : P page1 → P page2 → P (page1 ++ page2);
}.

#[export] Instance Forall_page_prop (φ : Placed A → Prop) : PageProp (Forall φ).
Proof. split; [constructor|]. intros ????. by apply Forall_app. Qed.

(** The page holds no key. *)
Definition no_keys (page : list (Placed A)) : Prop := keys page = [].

#[export] Instance no_keys_page_prop : PageProp no_keys.
Proof.
  split; [done|]. intros page1 page2 Hk1 Hk2. unfold no_keys, keys in *.
  by rewrite omap_app, Hk1, Hk2.
Qed.

Lemma emits_weaken (P Q : list (Placed A) → Prop) {X} (m : Script X) :
  (∀ page, P page → Q page) → emits P m → emits Q m.
Proof. intros HPQ Hm s. apply HPQ, Hm. Qed.

Lemma emits_bind_gen (P Q R : list (Placed A) → Prop) {X Y}
    (m : Script X) (f : X → Script Y) :
  emits P m → (∀ x, emits Q (f x)) →
  (∀ page, P page → R page) →
  (∀ page1 page2, P page1 → Q page2 → R (page1 ++ page2)) →
  emits R (m ≫= f).
Proof.
  intros Hm Hf Hw Happ s. rewrite page_bind. specialize (Hm s).
  destruct (m s).2 as [x|e]; [apply Happ; [done|apply Hf]|].
  rewrite app_nil_r. by apply Hw.
Qed.

Section page_prop.
Context (P : list (Placed A) → Prop) `{!PageProp P}.

Lemma emits_bind {X Y} (m : Script X) (f : X → Script Y) :
  emits P m → (∀ x, emits P (f x)) → emits P (m ≫= f).
Proof.
  intros Hm Hf. apply (emits_bind_gen P P P); [done..|]. apply page_app.
Qed.

Lemma emits_ret {X} (x : X) : emits P (mret x).
Proof. intros s. apply page_nil. Qed.

Lemma emits_raise {X} e : emits P (raise (X:=X) e).
Proof. intros s. apply page_nil. Qed.

Lemma emits_lift {X} (r : result X) : emits P (lift r).
Proof. intros s. apply page_nil. Qed.

Lemma emits_get : emits P get_session.
Proof. intros s. apply page_nil. Qed.

Lemma emits_put s' : emits P (put_session s').
Proof. intros s. apply page_nil. Qed.

Lemma emits_for_each {X} (l : list X) body :
  (∀ x, emits P (body x)) → emits P (for_each l body).
Proof.
  intros Hb. induction l as [|x l IH]; [apply emits_ret|].
  by apply emits_bind.
Qed.

End page_prop.

Lemma emits_emit (P : list (Placed A) → Prop) slot e :
  P [(slot, e)] → emits P (emit slot e).
Proof. by intros HP s. Qed.

End script_logic.

(** [emits_tac leaf] proves [emits P m] for a script [m] written with the
    operations of the monad, [leaf] proving [P] of each element. *)
Ltac emits_step leaf :=
  first
    [ solve [apply emits_ret; apply _] | solve [apply emits_raise; apply _]
    | solve [apply emits_lift; apply _] | solve [apply emits_get; apply _]
    | solve [apply emits_put; apply _]
    | apply emits_emit; leaf
    | (apply emits_for_each; try apply _); intros ?
    | (apply emits_bind; try apply _); [|intros ?]
    | match goal with
      | |- emits _ (match ?x with _ => _ end) => destruct x
      end
    | progress cbv zeta ].

Ltac emits_tac leaf := intros; repeat emits_step leaf.

(** The leaf of [emits_tac] for elements without a key. *)
Ltac no_key :=
  first [reflexivity | unfold badge_box; repeat case_match; reflexivity].

(** [renders_tac] proves that a script made of [emit]s only renders. *)
Ltac renders_tac :=
  intros;
  repeat first
    [ apply renders_emit | apply renders_ret
    | apply renders_bind
    | apply renders_for_each; intros ?
    | match goal with
      | |- renders (match ?x with _ => _ end) => destruct x
      end
    | progress cbv zeta ].

(** The pieces of the script, unfolded down to the operations. *)
Ltac unfold_script :=
  unfold script, body, dashboard_script, chrome, sidebar_upload, load,
    sidebar_filters_script, kpi_script, kpi_cards, goals_script, goal_input,
    badge_boxes, progress_rows, progress_row, charts_script, charts_figures,
    table_script, stats_script, stats_cards, welcome, footer.

Section script_pages.
Context {A : Type} `{Num A} `{Printable A} `{Sorter}.
Implicit Types (s : Session A) (i : Inputs A) (page : list (Placed A)).

(** ** The footer *)

(** The last element of a complete page. *)
Definition footer_mark : Placed A := (Main, Markdown footer_html).

Lemma body_no_footer i : emits (Forall (λ e, e ≠ footer_mark)) (body i).
Proof.
  unfold_script.
  emits_tac ltac:(repeat constructor; intros Heq;
                  first [discriminate Heq
                        |injection Heq as Heq; vm_compute in Heq;
                         discriminate Heq]).
Qed.

Lemma result_bind {X Y} (m : Script X) (f : X → Script Y) s :
  (mbind f m s).2
  = match (m s).2 with
    | Ok x => (f x (m s).1.1).2
    | Err e => Err e
    end.
Proof.
  pose proof (outcome_bind m f s) as Ho. unfold outcome in Ho.
  apply (f_equal snd) in Ho. simpl in Ho. rewrite Ho.
  by destruct (m s).2.
Qed.

Lemma footer_ok s : footer s = (s, [(Main, Markdown "---"); footer_mark], Ok tt).
Proof. done. Qed.

(** C20: the footer closes the page exactly when the run does not raise: an
    exception anywhere in the script leaves a page without it. *)
Theorem footer_iff_ok s i :
  last (script i s).1.2 = Some footer_mark ↔ (script i s).2 = Ok tt.
Proof.
  unfold script. rewrite page_bind, result_bind.
  pose proof (body_no_footer i s) as Hb.
  destruct (body i s).2 as [[]|e]; rewrite ?footer_ok; simpl.
  - split; [done|]. intros _. by rewrite last_app.
  - rewrite app_nil_r. split; [|done]. intros Hl%last_Some_elem_of.
    by eapply Forall_forall in Hb.
Qed.

(** ** The widget keys *)

Lemma meta_key_inj : Inj (=) (=) meta_key.
Proof. intros c1 c2 Heq. by injection Heq. Qed.

(** The keys of the page are those of distinct categories. *)
Definition goal_keys page : Prop :=
  ∃ cs, NoDup cs ∧ keys page = meta_key <$> cs.

Lemma no_keys_goal_keys page : no_keys page → goal_keys page.
Proof. intros Hk. exists []. split; [constructor|done]. Qed.

Lemma emits_no_keys_then {X Y} (m : Script X) (f : X → Script Y) :
  emits no_keys m → (∀ x, emits goal_keys (f x)) → emits goal_keys (m ≫= f).
Proof.
  intros Hm Hf. apply (emits_bind_gen no_keys goal_keys goal_keys); try done.
  - apply no_keys_goal_keys.
  - intros page1 page2 Hk1 (cs & Hcs & Hk2). exists cs. split; [done|].
    unfold no_keys, keys in *. by rewrite omap_app, Hk1, Hk2.
Qed.

Lemma emits_then_no_keys {X Y} (m : Script X) (f : X → Script Y) :
  emits goal_keys m → (∀ x, emits no_keys (f x)) → emits goal_keys (m ≫= f).
Proof.
  intros Hm Hf. apply (emits_bind_gen goal_keys no_keys goal_keys); try done.
  intros page1 page2 (cs & Hcs & Hk1) Hk2. exists cs. split; [done|].
  unfold no_keys, keys in *. by rewrite omap_app, Hk1, Hk2, app_nil_r.
Qed.

(** One iteration of the goal loop, as a whole. *)
Lemma goal_input_run i index c s :
  goal_input i (index, c) s
  = let metas := init_metas (ss_metas s) in
    match number_input_checked (in_number_input i) (meta_key c) zero
            (meta_get metas c) with
    | Ok v =>
        ({| ss_sample_df := ss_sample_df s;
            ss_metas := Some (<[c := v]> metas) |},
         [(Column 2 (index mod 2),
           NumberInput ("Meta " +:+ c) (Some (meta_key c)) (Some zero)
             (meta_get metas c) (lit 50))],
         Ok tt)
    | Err e => (s, [], Err e)
    end.
Proof.
  unfold goal_input, mbind, script_bind, get_session, lift, emit, put_session.
  simpl. by destruct (number_input_checked _ _ _ _).
Qed.

(** One iteration renders at most a number widget. *)
Lemma goal_input_emits (φ : Placed A → Prop) i entry :
  (∀ slot label key lo v step, φ (slot, NumberInput label key lo v step)) →
  emits (Forall φ) (goal_input i entry).
Proof.
  intros Hφ s. destruct entry as [index c]. rewrite goal_input_run. cbv zeta.
  destruct (number_input_checked _ _ _ _); by repeat constructor.
Qed.

(** The goal loop renders the widgets of the categories it reaches, one
    key each. *)
Lemma goal_loop_keys i indexes cs s :
  ∃ k, keys (for_each (zip indexes cs) (goal_input i) s).1.2
       = meta_key <$> take k cs.
Proof.
  revert cs s. induction indexes as [|index indexes IH]; intros cs s;
    [by exists 0|].
  destruct cs as [|c cs]; [by exists 0|].
  cbn [zip zip_with for_each]. rewrite page_bind, goal_input_run. cbv zeta.
  destruct (number_input_checked _ _ _ _) as [v|e]; [|by exists 0].
  cbn [fst snd].
  destruct (IH cs {| ss_sample_df := ss_sample_df s;
                     ss_metas := Some (<[c:=v]> (init_metas (ss_metas s))) |})
    as [k Hk].
  exists (S k). unfold keys in *. by rewrite omap_app, Hk.
Qed.

Lemma goals_script_keys i df : emits goal_keys (goals_script i df).
Proof.
  unfold goals_script, progress_row.
  apply emits_no_keys_then; [emits_tac no_key|intros _].
  destruct (categorias_despesas df) as [|c cs] eqn:Hcs.
  { apply (emits_weaken no_keys); [apply no_keys_goal_keys|].
    emits_tac no_key. }
  do 3 (apply emits_no_keys_then; [emits_tac no_key|intros ?]).
  apply emits_then_no_keys; [|emits_tac no_key].
  intros s0. destruct (goal_loop_keys i (seq 0 (length (c :: cs))) (c :: cs) s0)
    as [k Hk].
  exists (take k (c :: cs)). split; [|done].
  apply (sublist_NoDup _ (c :: cs)); [|apply sublist_take].
  rewrite <- Hcs. apply categorias_despesas_NoDup.
Qed.

Lemma script_keys i : emits goal_keys (script i).
Proof.
  unfold script, body, dashboard_script.
  apply emits_then_no_keys; [|unfold_script; emits_tac no_key].
  do 3 (apply emits_no_keys_then; [unfold_script; emits_tac no_key|intros ?]).
  destruct x1 as [| raw |df];
    try solve [apply (emits_weaken no_keys); [apply no_keys_goal_keys|];
               unfold_script; emits_tac no_key].
  do 2 (apply emits_no_keys_then; [unfold_script; emits_tac no_key|intros ?]).
  apply emits_then_no_keys; [apply goals_script_keys|].
  unfold_script. emits_tac no_key.
Qed.

(** C21: no two widgets of a page carry the same key, whatever the ledger
    and wherever the run ends: the goal widgets, the only ones with a key,
    are those of distinct categories. *)
Theorem keys_NoDup s i : NoDup (keys (script i s).1.2).
Proof.
  destruct (script_keys i s) as (cs & Hcs & ->).
  by apply (NoDup_fmap_2 meta_key).
Qed.

(** ** The script and [Session.run] *)

Lemma session_eta s metas :
  ss_metas s = Some metas →
  {| ss_sample_df := ss_sample_df s; ss_metas := Some metas |} = s.
Proof. destruct s. simpl. by intros ->. Qed.

(** The goal loop of the script is the loop of [Goals]. *)
Lemma goal_loop_outcome i indexes cs s metas :
  length indexes = length cs → ss_metas s = Some metas →
  outcome (for_each (zip indexes cs) (goal_input i)) s
  = let '(metas', raised) := set_metas_checked (in_number_input i) cs metas in
    ({| ss_sample_df := ss_sample_df s; ss_metas := Some metas' |},
     match raised with None => Ok tt | Some e => Err e end).
Proof.
  revert indexes s metas. induction cs as [|c cs IH];
    intros [|index indexes] s metas Hlen Hs; try done.
  { simpl. by rewrite session_eta. }
  cbn [zip zip_with for_each set_metas_checked].
  rewrite outcome_bind. unfold outcome at 1. rewrite goal_input_run, Hs.
  cbv zeta. cbn [init_metas default]. unfold id.
  destruct (number_input_checked _ _ _ _) as [v|e]; cbn [fst snd].
  - rewrite (IH indexes _ (<[c:=v]> metas)) by (simpl in *; by try lia).
    by destruct (set_metas_checked _ _ _).
  - by rewrite session_eta.
Qed.

Lemma goals_script_outcome i df s :
  outcome (goals_script i df) s
  = ((goals_column i df s).1, erase (goals_column i df s).2).
Proof.
  unfold goals_script, goals_column.
  rewrite outcome_renders by renders_tac.
  destruct (categorias_despesas df) as [|c cs]; [done|].
  rewrite outcome_renders, outcome_get, outcome_put by renders_tac.
  rewrite outcome_bind,
    (goal_loop_outcome _ _ _ _ (init_metas (ss_metas s)))
    by (by rewrite ?length_seq).
  destruct (set_metas_checked _ _ _) as [metas [e|]]; [done|]. cbn [fst snd].
  rewrite outcome_renders, outcome_get, outcome_lift by renders_tac.
  cbn [ss_metas init_metas default]. unfold id.
  destruct (badges df metas) as [bs|e]; [|done]. cbn [bind erase].
  apply renders_outcome. unfold_script. renders_tac.
Qed.

Lemma sidebar_filters_outcome {X} i df (k : list (Row A) → Script X) s :
  outcome (sidebar_filters_script i df ≫= k) s
  = outcome (k (df_filtered_of i df)) s.
Proof. by rewrite outcome_bind. Qed.

Lemma table_script_outcome i df s :
  outcome (table_script i df) s
  = (s, erase (extrato (in_re_search i) (in_selectbox i (tipo_options df))
                 (in_valor_min i) (in_busca_descricao i) df)).
Proof.
  unfold table_script. cbv zeta.
  rewrite !outcome_renders, outcome_lift by renders_tac.
  by destruct (extrato _ _ _ _ _).
Qed.

Lemma dashboard_script_outcome i msg df s :
  outcome (dashboard_script i df) s
  = ((dashboard i msg df s).1, erase (dashboard i msg df s).2).
Proof.
  unfold dashboard_script, dashboard.
  rewrite sidebar_filters_outcome, outcome_renders by (unfold_script; renders_tac).
  rewrite outcome_bind, goals_script_outcome.
  destruct (goals_column _ _ _) as [s' [goals|e]]; [|done]. cbn [fst snd erase].
  rewrite outcome_renders by (unfold_script; renders_tac).
  rewrite outcome_bind, table_script_outcome.
  destruct (extrato _ _ _ _ _) as [table|e]; [|done]. cbn [bind erase].
  apply renders_outcome. unfold_script. renders_tac.
Qed.

Lemma sidebar_upload_outcome {X} i (k : Script X) s :
  outcome (sidebar_upload i;; k) s = outcome k (press_sample i s).
Proof. by rewrite outcome_bind. Qed.

Lemma load_outcome {X} i (k : Frame A → Script X) s :
  outcome (load i ≫= k) s
  = match load_df (in_uploaded_file i) (ss_sample_df s) with
    | Ok (frame, _) => outcome (k frame) s
    | Err e => (s, Err e)
    end.
Proof.
  rewrite outcome_bind. unfold load, load_df.
  destruct (in_uploaded_file i) as [[raw|e]|]; [|done|].
  - by destruct (process_data raw).
  - rewrite outcome_get. destruct (ss_sample_df s) as [raw|]; [|done].
    by destruct (process_data raw).
Qed.

Lemma body_outcome s i :
  outcome (body i) s = ((run s i).1, erase (run s i).2).
Proof.
  unfold body, run.
  rewrite (outcome_renders chrome) by (unfold chrome; renders_tac).
  rewrite sidebar_upload_outcome, load_outcome.
  destruct (load_df _ _) as [[[| raw |df] msg]|e]; try done.
  rewrite (dashboard_script_outcome _ msg). by destruct (dashboard _ _ _ _).
Qed.

(** C3: the script, with what it renders forgotten, is [Session.run]: it
    leaves the same session and ends in the same exception, or in none. *)
Theorem script_refines_run s i :
  outcome (script i) s = ((run s i).1, erase (run s i).2).
Proof.
  unfold script. rewrite outcome_bind, body_outcome.
  by destruct (run s i).2.
Qed.

(** ** The upload widgets *)

(** What lines 3-72 render. *)
Definition page_top : list (Placed A) :=
  (chrome session_init).1.2
  ++ (sidebar_upload (inputs_untouched None) session_init).1.2.

Lemma page_top_run {X} i (k : Script X) s :
  ((chrome;; sidebar_upload i;; k) s).1.2
  = page_top ++ (k (press_sample i s)).1.2.
Proof.
  rewrite page_bind. cbn [chrome emit mbind script_bind fst snd app].
  rewrite page_bind. cbn [sidebar_upload emit mbind script_bind get_session
                          put_session fst snd app].
  reflexivity.
Qed.

(** Every run, however it ends, starts the page with the title and
    the upload widgets: after any exception the file uploader and the
    sample button are there for the next run. *)
Theorem page_top_first s i :
  page_top `prefix_of` (script i s).1.2 ∧
  (Sidebar, FileUploader "Arraste e solte seu arquivo CSV aqui:"
              "Formato esperado: data, descricao, categoria, valor, tipo, tags")
    ∈ page_top ∧
  (Sidebar, Button "📊 Usar Dados de Exemplo") ∈ page_top.
Proof.
  split; [|split; unfold page_top; set_solver].
  unfold script. rewrite page_bind. unfold body. rewrite page_top_run.
  rewrite <- app_assoc. apply prefix_app_r. done.
Qed.

(** ** The calls the page is made of *)

(** What Streamlit requires of a call: an element placed in a column is in
    one of the columns [st.columns] made; a number widget with a lower bound
    is offered a value that is not below it; a date widget with bounds is
    offered a pair of dates in order and within them; the default of a
    multiselect is among its options. *)
Definition well_formed (p : Placed A) : Prop :=
  match p.1 with Column count index => (index < count)%nat | _ => True end ∧
  match p.2 with
  | NumberInput _ _ (Some min_value) value _ => ltb value min_value = false
  | DateInput _ value (Some min_value) (Some max_value) =>
      ∃ start_date end_date,
        value = [start_date; end_date] ∧ date_le min_value start_date
        ∧ date_le start_date end_date ∧ date_le end_date max_value
  | Multiselect _ options default => default ⊆ options
  | _ => True
  end.

Lemma default_date_range_ordered (df : list (Row A)) lo hi :
  min_date df = Some lo → max_date df = Some hi →
  default_date_range df = [lo; hi] ∧ date_le lo hi.
Proof.
  intros Hlo Hhi. unfold default_date_range. rewrite Hlo, Hhi. split; [done|].
  apply max_date_elem, list_elem_of_fmap in Hhi as (r & -> & Hr).
  apply min_date_le in Hlo. by eapply Forall_forall in Hlo.
Qed.

Lemma date_input_well_formed slot label (df : list (Row A)) :
  well_formed (slot, DateInput label (default_date_range df) (min_date df)
                       (max_date df)) ↔
  match slot with Column count index => (index < count)%nat | _ => True end.
Proof.
  unfold well_formed. cbn [fst snd].
  destruct (min_date df) as [lo|] eqn:Hlo; [|tauto].
  destruct (max_date df) as [hi|] eqn:Hhi; [|tauto].
  destruct (default_date_range_ordered df lo hi Hlo Hhi) as [-> Hle].
  split; [tauto|]. intros Hs. split; [done|]. by exists lo, hi.
Qed.

Lemma goal_input_well_formed i entry :
  emits (Forall well_formed) (goal_input i entry).
Proof.
  intros s. destruct entry as [index c]. rewrite goal_input_run. cbv zeta.
  unfold number_input_checked.
  destruct (ltb (meta_get _ c) zero) eqn:Hlt; [constructor|].
  apply Forall_singleton. split; simpl; [|done].
  pose proof (Nat.mod_upper_bound index 2). lia.
Qed.


End script_pages.

(** ** A run in binary64 that stops in the badge section *)

(** The run over the ledger whose first category sums to NaN renders the
    cards and the goal widget, then raises: the page ends at the heading of
    the badges, with no chart, no table and no footer. *)
Example page_at_NameError :
  let o := script (inputs_untouched upload_inf) session_init in
  o.2 = Err NameError ∧ length o.1.2 = 20 ∧
  last o.1.2 = Some (Column 2 1, Subheader "🏆 Badges Conquistadas") ∧
  keys o.1.2 = ["meta_Lazer"].
Proof. vm_compute. done. Qed.
