(* ===== verification/Shown.v ===== *)
(** * Shown: what a run shows of its view

    [Session.run] reports a run that ends well by its [View]: the figures,
    series and rows the components compute.  [render] is the page such a
    view gives: the rendering code of each section of [Render], applied to
    what the view holds.  The theorem of this file shows that the page the
    script renders, its input widgets set aside, is that page: every card,
    box, bar, chart and row on the page is the value the view holds, in the
    order of the script, and the page shows nothing else.  A second
    theorem, over exact numbers, shows that every progress bar of every
    page has a value [st.progress] accepts. *)

From stdpp Require Import pretty.
From S2P Require Import Prelude Numeric Frame Ledger Format Calendar Goals.
From S2P Require Import Badges Kpi Charts Sample Table Stats Progress Session.
From S2P Require Import Texts Render.

Local Open Scope string_scope.
Local Open Scope list_scope.

Section shown.
Context {A : Type} `{Num A} `{Printable A} `{Sorter}.
Implicit Types (s : Session A) (i : Inputs A) (page : list (Placed A)).

(** The message of the loading block (lines 119 and 121). *)
Definition render_msg (msg : LoadMsg) : list (Placed A) :=
  match msg with
  | MsgNone => []
  | MsgSuccess => [(Main, Success "✅ Arquivo carregado com sucesso!")]
  | MsgError e => [(Main, ErrorBox "❌ Erro ao carregar arquivo: " e)]
  end.

(** The goals column of a view, without its widgets. *)
Definition render_goals (goals : option (GoalsView A)) : list (Placed A) :=
  match goals with
  | None => []
  | Some g =>
      (Column 2 0, Subheader "📊 Definir Metas Mensais por Categoria")
      :: (Column 2 1, Subheader "🏆 Badges Conquistadas")
      :: page_of (badge_boxes (gv_badges g))
      ++ (Main, Subheader "📈 Progresso das Metas")
      :: page_of (progress_rows (gv_progress g))
  end.

(** The dashboard of a view: the rendering code of each section, applied to
    what the view holds. *)
Definition render_page (pg : Page A) : list (Placed A) :=
  (Sidebar, Subheader "🔍 Filtros")
  :: page_of (kpi_cards (pg_renda pg) (pg_despesa pg) (pg_saldo pg))
  ++ (Main, Header "🎯 Metas e Conquistas")
  :: render_goals (pg_goals pg)
  ++ page_of (charts_figures (pg_pie pg) (pg_timeline pg) (pg_receitas pg)
                (pg_despesas pg))
  ++ (Main, Header "📋 Extrato Detalhado")
  :: (Main, Dataframe (pg_extrato pg))
  :: page_of (stats_cards (pg_total_transacoes pg) (pg_ticket_medio pg)
                (pg_maior_despesa pg) (pg_periodo pg)).

(** What a run that ends well shows of its view. *)
Definition render (v : View A) : list (Placed A) :=
  outputs page_top
  ++ match v with
     | Welcome msg => render_msg msg ++ page_of welcome
     | Dashboard msg pg => render_msg msg ++ render_page pg
     end
  ++ page_of footer.

Lemma outputs_app page1 page2 :
  outputs (page1 ++ page2) = outputs page1 ++ outputs page2.
Proof. apply filter_app. Qed.

Lemma outputs_all page :
  Forall (λ p, is_input p.2 = false) page → outputs page = page.
Proof.
  induction 1 as [|p page Hp _ IH]; [done|].
  unfold outputs. rewrite filter_cons_True by done. f_equal. apply IH.
Qed.

Lemma outputs_none page :
  Forall (λ p, is_input p.2 = true) page → outputs page = [].
Proof.
  induction 1 as [|p page Hp _ IH]; [done|].
  unfold outputs. rewrite filter_cons_False by (by rewrite Hp). apply IH.
Qed.

Lemma emits_outputs_all (m : Script (A:=A) unit) :
  emits (Forall (λ p, is_input p.2 = false)) m →
  outputs (page_of m) = page_of m.
Proof. intros Hm. apply outputs_all, Hm. Qed.

Lemma emits_outputs_none {X} (m : Script (A:=A) X) s :
  emits (Forall (λ p, is_input p.2 = true)) m → outputs (m s).1.2 = [].
Proof. intros Hm. apply outputs_none, Hm. Qed.

(** The loading block, as a whole. *)
Lemma load_run i s :
  load i s
  = match load_df (in_uploaded_file i) (ss_sample_df s) with
    | Ok (frame, msg) => (s, render_msg msg, Ok frame)
    | Err e => (s, [], Err e)
    end.
Proof.
  unfold load, load_df. destruct (in_uploaded_file i) as [[raw|e]|]; [|done|].
  - by destruct (process_data raw).
  - unfold mbind, script_bind, get_session, lift. simpl.
    destruct (ss_sample_df s) as [raw|]; [|done].
    by destruct (process_data raw).
Qed.

(** The goal loop shows nothing but its widgets. *)
Lemma goal_loop_inputs i l s :
  outputs (for_each l (goal_input i) s).1.2 = [].
Proof.
  apply emits_outputs_none.
  apply emits_for_each; [apply _|]. intros entry.
  by apply goal_input_emits.
Qed.

Lemma badge_boxes_outputs msgs :
  outputs (page_of (badge_boxes (A:=A) msgs)) = page_of (badge_boxes msgs).
Proof.
  apply emits_outputs_all. unfold badge_boxes.
  emits_tac ltac:(apply Forall_singleton; unfold badge_box; simpl;
                  by repeat case_match).
Qed.

(** The sections without widgets show all they render. *)
Lemma kpi_cards_outputs renda despesa saldo :
  outputs (page_of (kpi_cards (A:=A) renda despesa saldo))
  = page_of (kpi_cards renda despesa saldo).
Proof. reflexivity. Qed.

Lemma charts_figures_outputs (pie : option (list (string * A))) timeline
    receitas despesas :
  outputs (page_of (charts_figures pie timeline receitas despesas))
  = page_of (charts_figures pie timeline receitas despesas).
Proof. by destruct pie. Qed.

Lemma stats_cards_outputs n ticket maior periodo :
  outputs (page_of (stats_cards (A:=A) n ticket maior periodo))
  = page_of (stats_cards n ticket maior periodo).
Proof. reflexivity. Qed.

Lemma progress_rows_outputs (rows : list (ProgressView A)) :
  outputs (page_of (progress_rows rows)) = page_of (progress_rows rows).
Proof.
  apply emits_outputs_all. unfold progress_rows, progress_row.
  emits_tac ltac:(apply Forall_singleton; simpl; by repeat case_match).
Qed.

(** The goals column shows the badges and the bars of its view. *)
Lemma goals_script_shows i df s g :
  (goals_column i df s).2 = Ok g →
  outputs (goals_script i df s).1.2
  = (Main, Header "🎯 Metas e Conquistas") :: render_goals g.
Proof.
  unfold goals_script, goals_column.
  rewrite page_renders by renders_tac.
  destruct (categorias_despesas df) as [|c cs] eqn:Hcs; [by intros [= <-]|].
  set (cats := c :: cs).
  rewrite page_renders, page_get, page_put by renders_tac.
  set (s0 := {| ss_sample_df := ss_sample_df s;
                ss_metas := Some (init_metas (ss_metas s)) |}).
  pose proof (goal_loop_outcome i (seq 0 (length cats)) cats s0
                (init_metas (ss_metas s))) as Hloop.
  rewrite length_seq in Hloop. specialize (Hloop eq_refl eq_refl).
  destruct (set_metas_checked _ _ _) as [metas [e|]]; [done|].
  rewrite (page_outcome _ _ _ _ _ Hloop).
  rewrite page_renders, page_get, page_lift by renders_tac.
  cbn [ss_metas init_metas default]. unfold id. cbn [snd].
  destruct (badges df metas) as [bs|e]; [|done]. intros [= <-].
  rewrite !page_renders by (unfold_script; renders_tac).
  rewrite (page_of_renders (progress_rows _)) by (unfold_script; renders_tac).
  rewrite !outputs_app, goal_loop_inputs, badge_boxes_outputs,
    progress_rows_outputs.
  reflexivity.
Qed.

(** The table section shows its heading and, unless the search raises,
    the table. *)
Lemma table_script_shows i df s table :
  extrato (in_re_search i) (in_selectbox i (tipo_options df)) (in_valor_min i)
    (in_busca_descricao i) df = Ok table →
  outputs (table_script i df s).1.2
  = [(Main, Header "📋 Extrato Detalhado"); (Main, Dataframe table)].
Proof.
  intros Ht. unfold table_script. cbv zeta.
  rewrite !page_renders, page_lift, Ht by renders_tac. reflexivity.
Qed.

(** The dashboard shows the page of its view. *)
Lemma dashboard_script_shows i msg df s v :
  (dashboard i msg df s).2 = Ok v →
  ∃ pg, v = Dashboard msg pg
        ∧ outputs (dashboard_script i df s).1.2 = render_page pg.
Proof.
  unfold dashboard_script, dashboard.
  rewrite (page_outcome _ _ s s (df_filtered_of i df)) by done.
  set (df_filtered := df_filtered_of i df).
  rewrite page_renders by (unfold_script; renders_tac).
  pose proof (goals_script_outcome i df_filtered s) as Hgo.
  pose proof (goals_script_shows i df_filtered s) as Hgs.
  destruct (goals_column i df_filtered s) as [s' [g|e]]; [|done].
  rewrite (page_outcome _ _ _ _ _ Hgo).
  rewrite page_renders by (unfold_script; renders_tac).
  pose proof (table_script_outcome i df_filtered s') as Hto.
  pose proof (table_script_shows i df_filtered s') as Hts.
  destruct (extrato _ _ _ _ _) as [table|e]; [|done]. intros [= <-].
  eexists. split; [done|]. rewrite (page_outcome _ _ _ _ _ Hto).
  rewrite (page_of_renders (stats_script _)) by (unfold_script; renders_tac).
  rewrite !outputs_app, (Hgs g), (Hts table) by done.
  unfold kpi_script, charts_script, stats_script.
  by rewrite kpi_cards_outputs, charts_figures_outputs, stats_cards_outputs.
Qed.

Lemma render_msg_outputs msg : outputs (render_msg msg) = render_msg msg.
Proof. by destruct msg. Qed.

(** C5: a run that ends well shows its view and nothing else: the page the
    script renders, its input widgets set aside, is the title and headings,
    the message of the loading block and the cards, badges, bars, charts,
    table and statistics of the view [Session.run] reports, in the order of
    the script, closed by the footer. *)
Theorem page_shows_view s i v :
  (run s i).2 = Ok v → outputs (script i s).1.2 = render v.
Proof.
  intros Hv. pose proof (body_outcome s i) as Hb.
  rewrite Hv in Hb. cbn [erase] in Hb.
  unfold script. rewrite (page_outcome _ _ _ _ _ Hb), outputs_app.
  unfold body. rewrite page_top_run, outputs_app, page_bind, load_run.
  unfold render, run in *. rewrite <- app_assoc. do 2 f_equal.
  destruct (load_df _ _) as [[[| raw |df] msg]|e]; try done;
    cbn [fst snd] in *; rewrite outputs_app, render_msg_outputs.
  - injection Hv as <-. reflexivity.
  - apply dashboard_script_shows in Hv as (pg & -> & ->). reflexivity.
Qed.

End shown.

(** ** The progress bars of a page *)

Section shown_exact.
Context `{Sorter}.
Implicit Types (s : Session Q) (i : Inputs Q).
Local Open Scope Q_scope.

(** What [st.progress] requires of its value. *)
Definition progress_ok (p : Placed Q) : Prop :=
  match p.2 with
  | ProgressBar value _ => 0 <= value ∧ value <= 1
  | _ => True
  end.

Lemma progress_row_ok df metas c :
  emits (Forall progress_ok) (progress_row (progress_step df metas c)).
Proof.
  unfold progress_row. cbn [pv_value pv_text pv_gasto pv_meta pv_entry
                            progress_step pe_categoria].
  destruct (progress_value _) as [v|] eqn:Hv;
    emits_tac ltac:(apply Forall_singleton; try done).
  eapply progress_value_in_range; [|exact Hv]. apply gasto_categoria_nonneg.
Qed.

Lemma progress_rows_ok df metas :
  emits (Forall progress_ok) (progress_rows (progress_loop df metas)).
Proof.
  unfold progress_rows, progress_loop.
  induction (categorias_despesas df) as [|c cs IH]; [apply emits_ret; apply _|].
  apply emits_bind; [apply _|apply progress_row_ok|done].
Qed.

#[local] Opaque progress_rows.

(** C19: over exact numbers no run offers [st.progress] a value outside
    the range it accepts: on every page, whatever the ledger, the goals in
    the session and the inputs, the value of each progress bar is between
    0 and 1. *)
Theorem page_progress_in_range s i : Forall progress_ok (script i s).1.2.
Proof.
  revert s. change (emits (Forall progress_ok) (script i)).
  unfold script, body, dashboard_script, chrome, sidebar_upload, load,
    sidebar_filters_script, kpi_script, kpi_cards, goals_script, badge_boxes,
    charts_script, charts_figures, table_script, stats_script, stats_cards,
    welcome, footer.
  emits_tac ltac:(apply Forall_singleton; unfold badge_box, progress_ok;
                  simpl; by repeat case_match).
  - by apply goal_input_emits.
  - apply progress_rows_ok.
Qed.

#[local] Transparent progress_rows.

End shown_exact.

(** ** A run over the ledger of the specification *)

Lemma page_shows_view_witness :
  let i := inputs_untouched (A:=Q) upload_spec in
  ∃ v, (run session_init i).2 = Ok v
       ∧ outputs (script i session_init).1.2 = render v.
Proof.
  eexists. split; [|apply page_shows_view]; vm_compute; reflexivity.
Defined.
